(** * Plagiarism-Detector: the document-similarity core, embedded in Rocq

    Shallow embedding of
      - [app/utils/file_utils.py]        (text extractor),
      - [app/utils/text_processing.py]   (normalizer, word sets),
      - [app/services/plagiarism_service.py] (similarity engine glue,
        external source advisor, orchestrator),
    followed by the properties of the specification that concern them.

    Modelling conventions.
      - A Python [str] is the list of its code points ([pystr := list N]);
        [bytes] is [list byte].
      - A Python [float] is represented by the rational number it denotes
        ([Q]); comparisons are then exact, and [round(x, 2)] is rounding to
        the nearest hundredth, ties to even.
      - An exception is a value of [PyExc]; a computation that may raise
        returns [result].  The orchestrator threads a [World] (the committed
        database and the trace of external effects) through a small
        state-and-exception monad [M].
      - Third-party libraries (PyPDF2, python-docx, NLTK, scikit-learn,
        googlesearch, the Unicode database beyond ASCII, the SQL session's
        commit, the clock) are the fields of the class [Externals]: every
        theorem holds for all of them. *)

From Stdlib Require Import ZArith NArith QArith Qround List String Ascii Lia.
From Stdlib Require DecimalString.
From stdpp Require Import gmap strings list sorting.

Set Default Proof Using "Type".
Open Scope N_scope.

(** ** Python strings and bytes *)

Definition pystr := list N.
Definition bytes := list Byte.byte.

Fixpoint u (s : string) : pystr :=
  match s with
  | EmptyString => []
  | String c s' => N_of_ascii c :: u s'
  end.

Definition pystr_eqb (a b : pystr) : bool := bool_decide (a = b).

(** [str.isspace] for one code point: the Unicode whitespace set. *)
Definition isspace (c : N) : bool :=
  ((9 <=? c) && (c <=? 13)) || ((28 <=? c) && (c <=? 32))
  || (c =? 133) || (c =? 160) || (c =? 5760)
  || ((8192 <=? c) && (c <=? 8202))
  || (c =? 8232) || (c =? 8233) || (c =? 8239) || (c =? 8287) || (c =? 12288).

Fixpoint lstrip (s : pystr) : pystr :=
  match s with
  | c :: s' => if isspace c then lstrip s' else s
  | [] => []
  end.

Definition rstrip (s : pystr) : pystr := rev (lstrip (rev s)).

(** [s.strip()] *)
Definition strip (s : pystr) : pystr := rstrip (lstrip s).

Definition is_ascii (c : N) : bool := c <? 128.

Definition ascii_isupper (c : N) : bool := (65 <=? c) && (c <=? 90).
Definition ascii_islower (c : N) : bool := (97 <=? c) && (c <=? 122).
Definition ascii_isdigit (c : N) : bool := (48 <=? c) && (c <=? 57).
Definition ascii_isalnum (c : N) : bool :=
  ascii_isupper c || ascii_islower c || ascii_isdigit c.
Definition ascii_lower (c : N) : N := if ascii_isupper c then c + 32 else c.

(** [sep in s] for a one-character separator. *)
Definition contains (c : N) (s : pystr) : bool := existsb (N.eqb c) s.

(** [s.rsplit(sep, 1)[1]] when [sep] occurs in [s]: what follows the last
    occurrence of [sep]. *)
Fixpoint after_last (c : N) (s : pystr) : pystr :=
  match s with
  | [] => []
  | x :: s' => if contains c s' then after_last c s'
               else if x =? c then s' else []
  end.

(** ** Exceptions *)

Inductive ExcClass :=
| FileUploadError
| PlagiarismCheckError
| UnicodeDecodeError
| ModuleNotFoundError
| UnboundLocalError
| RemoteDisconnected
| LibraryError (name : string).

(** [HTTPExc cls detail] is [cls(detail=detail)] and
    [HTTPExcFrom cls prefix cause] is [cls(detail=prefix + str(cause))];
    the two HTTP exception classes of [app/core/exceptions.py] that the core
    raises are [FileUploadError] (status 400) and [PlagiarismCheckError]
    (status 500).  [Exc cls msg] is any other exception, with its message. *)
Inductive PyExc :=
| Exc (cls : ExcClass) (msg : pystr)
| HTTPExc (cls : ExcClass) (detail : pystr)
| HTTPExcFrom (cls : ExcClass) (prefix : pystr) (cause : PyExc).

Definition exc_class (e : PyExc) : ExcClass :=
  match e with
  | Exc cls _ => cls
  | HTTPExc cls _ => cls
  | HTTPExcFrom cls _ _ => cls
  end.

Definition status_code (cls : ExcClass) : option Z :=
  match cls with
  | FileUploadError => Some 400%Z
  | PlagiarismCheckError => Some 500%Z
  | _ => None
  end.

#[global] Instance ExcClass_eq_dec : EqDecision ExcClass.
Proof. solve_decision. Defined.

Inductive result (A : Type) :=
| Ok (a : A)
| Raise (e : PyExc).
Arguments Ok {A} a.
Arguments Raise {A} e.

(** ** Codecs used by [convert_to_text] *)

Definition is_cont (b : N) : bool := (128 <=? b) && (b <=? 191).

(** [bytes.decode('utf-8')], strict: shortest form only, no surrogates,
    nothing above U+10FFFF.  [None] stands for [UnicodeDecodeError]. *)
Fixpoint utf8_decode_N (fuel : nat) (bs : list N) : option pystr :=
  match fuel with
  | O => match bs with [] => Some [] | _ => None end
  | S fuel' =>
    match bs with
    | [] => Some []
    | b0 :: r0 =>
      if b0 <? 128 then cons b0 <$> utf8_decode_N fuel' r0
      else if (194 <=? b0) && (b0 <=? 223) then
        match r0 with
        | b1 :: r1 =>
          if is_cont b1
          then cons ((b0 - 192) * 64 + (b1 - 128)) <$> utf8_decode_N fuel' r1
          else None
        | _ => None
        end
      else if (224 <=? b0) && (b0 <=? 239) then
        match r0 with
        | b1 :: b2 :: r2 =>
          let lo := if b0 =? 224 then 160 else 128 in
          let hi := if b0 =? 237 then 159 else 191 in
          if (lo <=? b1) && (b1 <=? hi) && is_cont b2
          then cons ((b0 - 224) * 4096 + (b1 - 128) * 64 + (b2 - 128))
                 <$> utf8_decode_N fuel' r2
          else None
        | _ => None
        end
      else if (240 <=? b0) && (b0 <=? 244) then
        match r0 with
        | b1 :: b2 :: b3 :: r3 =>
          let lo := if b0 =? 240 then 144 else 128 in
          let hi := if b0 =? 244 then 143 else 191 in
          if (lo <=? b1) && (b1 <=? hi) && is_cont b2 && is_cont b3
          then cons ((b0 - 240) * 262144 + (b1 - 128) * 4096
                     + (b2 - 128) * 64 + (b3 - 128))
                 <$> utf8_decode_N fuel' r3
          else None
        | _ => None
        end
      else None
    end
  end.

Definition utf8_decode (data : bytes) : option pystr :=
  utf8_decode_N (length data) (map Byte.to_N data).

(** [bytes.decode('latin-1')]: every byte is its own code point. *)
Definition latin1_decode (data : bytes) : option pystr :=
  Some (map Byte.to_N data).

(** The 32 positions of cp1252 that differ from latin-1; five of them are
    undefined and make the decoder raise. *)
Definition cp1252_high (b : N) : option N :=
  match b with
  | 128 => Some 8364 | 129 => None      | 130 => Some 8218 | 131 => Some 402
  | 132 => Some 8222 | 133 => Some 8230 | 134 => Some 8224 | 135 => Some 8225
  | 136 => Some 710  | 137 => Some 8240 | 138 => Some 352  | 139 => Some 8249
  | 140 => Some 338  | 141 => None      | 142 => Some 381  | 143 => None
  | 144 => None      | 145 => Some 8216 | 146 => Some 8217 | 147 => Some 8220
  | 148 => Some 8221 | 149 => Some 8226 | 150 => Some 8211 | 151 => Some 8212
  | 152 => Some 732  | 153 => Some 8482 | 154 => Some 353  | 155 => Some 8250
  | 156 => Some 339  | 157 => None      | 158 => Some 382  | 159 => Some 376
  | _ => Some b
  end.

Definition cp1252_decode (data : bytes) : option pystr :=
  mapM (fun b => cp1252_high (Byte.to_N b)) data.

Inductive Encoding := Latin1 | Cp1252 | Iso8859_1.

Definition decode (enc : Encoding) (data : bytes) : option pystr :=
  match enc with
  | Latin1 | Iso8859_1 => latin1_decode data
  | Cp1252 => cp1252_decode data
  end.


(** ** Floats *)

(** Nearest integer, ties to even. *)
Definition round_half_even (q : Q) : Z :=
  let f := Qfloor q in
  match Qcompare (q - inject_Z f) (1 # 2) with
  | Lt => f
  | Gt => (f + 1)%Z
  | Eq => if Z.even f then f else (f + 1)%Z
  end.

(** [round(x, 2)] *)
Definition round2 (x : Q) : Q := round_half_even (x * 100) # 100.

Definition Qltb (x y : Q) : bool := negb (Qle_bool y x).

Definition decimal (n : N) : pystr := u (DecimalString.NilZero.string_of_uint (N.to_uint n)).

(** The format [{x:.2f}] of an f-string. *)
Definition format_2f (x : Q) : pystr :=
  let n := round_half_even (x * 100) in
  let a := Z.to_N (Z.abs n) in
  let frac := a mod 100 in
  (if (n <? 0)%Z then u "-" else [])
  ++ decimal (a / 100) ++ u "."
  ++ (if frac <? 10 then u "0" else []) ++ decimal frac.

(** [max(xs, default=d)]: the first of the largest items. *)
Definition py_max (xs : list Q) (default : Q) : Q :=
  match xs with
  | [] => default
  | x :: xs' => fold_left (fun m y => if Qltb m y then y else m) xs' x
  end.

(** ** Data model ([app/db/models.py] and the report dictionaries) *)

Module User.
Record t := { Fname : pystr; Lname : option pystr }.
End User.

Inductive AssignmentStatus := NotChecked | Checked | Pending.

(** One entry of [report['matches']]. *)
Module Match.
Record t := {
  assignment_id : Z;
  filename : pystr;
  user_name : pystr;
  similarity : Q
}.
End Match.

(** One entry of [report['external_sources']]. *)
Module Source.
Record t := { url : pystr; title : pystr; snippet : pystr }.
End Source.

(** The report dictionary built by [check_plagiarism] and
    [_create_empty_report]. *)
Module Report.
Record t := {
  assignment_id : Z;
  filename : pystr;
  plagiarism_percentage : Q;
  matches : list Match.t;
  external_sources : list Source.t;
  threshold : Q;
  passed : bool;
  checked_at : pystr
}.
End Report.

Module Assignment.
Record t := {
  id : Z;
  filename : pystr;
  file_data : bytes;
  user : User.t;
  course : pystr;
  status : AssignmentStatus;
  comment : option pystr;
  totalmarks : option Z;
  obtmarks : option Z;
  plagiarism_report : option Report.t;
  plagiarism_percentage : option Q;
  auto_graded : bool
}.
End Assignment.

Module QuestionFile.
Record t := { course : pystr; plagiarism_threshold : Q }.
End QuestionFile.

(** The two tables the service queries, rows in the order the database
    returns them. *)
Record Database := {
  assignments : list Assignment.t;
  question_files : list QuestionFile.t
}.

(** A result object of [googlesearch.search(..., advanced=True)]. *)
Module SearchResult.
Record t := { url : pystr; title : option pystr; description : option pystr }.
End SearchResult.

(** ** The world: SQLAlchemy session and observable effects *)

Inductive LogRecord :=
| FailedToProcess (id : Z) (e : PyExc)        (* warning, corpus assembly *)
| TfidfFailed (e : PyExc)                      (* error *)
| FallbackFailed (id : Z) (e : PyExc)         (* warning *)
| RemoteDisconnectedWarning                    (* warning *)
| ExternalCheckFailed (e : PyExc)              (* warning *)
| CheckFailed (id : Z) (e : PyExc).           (* error *)

Inductive Event :=
| EvLog (r : LogRecord)
| EvSearch (query : pystr)
| EvPrint
| EvCommit
| EvRollback.

(** [committed] is what the database holds, [session] is the view of the
    current transaction (the committed rows with the attribute writes made
    since the last commit or rollback). *)
Record World := {
  committed : Database;
  session : Database;
  trace : list Event
}.

(** ** External collaborators *)

Class Externals := {
  (** Unicode database, used only outside ASCII *)
  unicode_lower : pystr -> pystr;
  unicode_isalnum : N -> bool;
  unicode_isdecimal : N -> bool;
  unicode_ignorecase : N -> N -> bool;
  (** PyPDF2: the extracted text of each page of [PdfReader(...).pages] *)
  PdfReader : bytes -> result (list pystr);
  (** python-docx: the text of each of [Document(...).paragraphs] *)
  Document : bytes -> result (list pystr);
  (** NLTK *)
  word_tokenize : pystr -> result (list pystr);
  (** scikit-learn: [cosine_similarity(m[0:1], m[1:]).flatten()] for
      [m = vectorizer.fit_transform(documents)] *)
  tfidf_cosine_similarity : list pystr -> result (list Q);
  (** [googlesearch.search] when the module can be imported *)
  googlesearch : option (pystr -> result (list SearchResult.t));
  (** [Session.commit()] of the rows to be written: [None] when it succeeds *)
  db_commit : Database -> option PyExc;
  (** [datetime.utcnow().isoformat()] *)
  utcnow_isoformat : pystr
}.

Section Core.
Context `{E : Externals}.

(** ** Unicode predicates: ASCII is computed, the rest is looked up *)

(** [s.lower()] *)
Definition lower (s : pystr) : pystr :=
  if forallb is_ascii s then map ascii_lower s else unicode_lower s.

(** [c.isalnum()] *)
Definition isalnum (c : N) : bool :=
  if is_ascii c then ascii_isalnum c else unicode_isalnum c.

(** [\d] *)
Definition isdecimal (c : N) : bool :=
  if is_ascii c then ascii_isdigit c else unicode_isdecimal c.

(** [\w] *)
Definition isword (c : N) : bool := isalnum c || (c =? 95).

(** ** Text extractor ([app/utils/file_utils.py]) *)

Definition get_file_extension (filename : pystr) : pystr :=
  if contains 46 filename then 46 :: lower (after_last 46 filename) else [].

(** The loop [for p in parts: text += p + newline], from the empty text. *)
Definition join_lines (parts : list pystr) : pystr :=
  fold_left (fun text p => text ++ p ++ [10]) parts [].

Definition convert_pdf_to_text (file_data : bytes) : result pystr :=
  match PdfReader file_data with
  | Ok pages => Ok (strip (join_lines pages))
  | Raise e => Raise (HTTPExcFrom FileUploadError (u "Failed to convert PDF: ") e)
  end.

Definition convert_docx_to_text (file_data : bytes) : result pystr :=
  match Document file_data with
  | Ok paragraphs => Ok (strip (join_lines paragraphs))
  | Raise e => Raise (HTTPExcFrom FileUploadError (u "Failed to convert DOCX: ") e)
  end.

(** The [for encoding in [...]: try: return ... except: continue] loop;
    [None] when the loop runs to its end. *)
Fixpoint try_encodings (encodings : list Encoding) (file_data : bytes)
  : option pystr :=
  match encodings with
  | [] => None
  | enc :: rest =>
    match decode enc file_data with
    | Some text => Some text
    | None => try_encodings rest file_data
    end
  end.

Definition convert_to_text (file_data : bytes) (filename : pystr) : result pystr :=
  let ext := get_file_extension filename in
  if pystr_eqb ext (u ".pdf") then convert_pdf_to_text file_data
  else if pystr_eqb ext (u ".docx") then convert_docx_to_text file_data
  else if pystr_eqb ext (u ".txt") then
    match utf8_decode file_data with
    | Some text => Ok text
    | None =>
      match try_encodings [Latin1; Cp1252; Iso8859_1] file_data with
      | Some text => Ok text
      | None => Raise (HTTPExc FileUploadError (u "Unable to decode text file"))
      end
    end
  else Raise (HTTPExc FileUploadError (u "Unsupported file type: " ++ ext)).

(** ** The regular expressions of [text_processing.py]

    A backtracking matcher for the fragment of [re] the module uses:
    character classes, greedy bounded repetition of a class, sequence,
    the anchors and [\b].  None of the module's patterns matches the empty
    string. *)

Inductive atom :=
| Lit (c : N)                  (* a literal character *)
| LitI (c : N)                 (* a lower-case letter under re.IGNORECASE *)
| Word                         (* \w *)
| Space                        (* \s *)
| Digit                        (* \d *)
| Dot                          (* . *)
| DotAll.                      (* . under re.DOTALL *)

Inductive cclass :=
| One (a : atom)
| NoneOf (ks : list atom).     (* [^...] *)

Inductive regex :=
| Chr (k : cclass)
| Rep (k : cclass) (lo : nat) (hi : option nat)   (* greedy k{lo,hi} *)
| Seq (r1 r2 : regex)
| Bol                          (* ^ under re.MULTILINE *)
| EolM                         (* $ under re.MULTILINE *)
| Eol                          (* $ *)
| WordB.                       (* \b *)

Definition in_atom (a : atom) (c : N) : bool :=
  match a with
  | Lit x => c =? x
  | LitI x => if is_ascii c then ascii_lower c =? x else unicode_ignorecase x c
  | Word => isword c
  | Space => isspace c
  | Digit => isdecimal c
  | Dot => negb (c =? 10)
  | DotAll => true
  end.

Definition in_class (k : cclass) (c : N) : bool :=
  match k with
  | One a => in_atom a c
  | NoneOf ks => negb (existsb (fun a => in_atom a c) ks)
  end.

Definition opt_isword (c : option N) : bool :=
  match c with Some x => isword x | None => false end.

(** A position in the subject: the character before it and what follows. *)
Definition cont := option N -> pystr -> option (option N * pystr).

Fixpoint match_rep (k : cclass) (lo : nat) (hi : option nat)
    (prev : option N) (s : pystr) (kont : cont) : option (option N * pystr) :=
  let here := match lo with O => kont prev s | S _ => None end in
  match s with
  | c :: s' =>
    if in_class k c && negb (bool_decide (hi = Some O)) then
      match match_rep k (Nat.pred lo) (Nat.pred <$> hi) (Some c) s' kont with
      | Some r => Some r
      | None => here
      end
    else here
  | [] => here
  end.

Fixpoint match_re (r : regex) (prev : option N) (s : pystr) (kont : cont)
  : option (option N * pystr) :=
  match r with
  | Chr k =>
    match s with
    | c :: s' => if in_class k c then kont (Some c) s' else None
    | [] => None
    end
  | Rep k lo hi => match_rep k lo hi prev s kont
  | Seq r1 r2 => match_re r1 prev s (fun p s' => match_re r2 p s' kont)
  | Bol => if bool_decide (prev = None) || bool_decide (prev = Some 10)
           then kont prev s else None
  | EolM => match s with
            | [] => kont prev s
            | c :: _ => if c =? 10 then kont prev s else None
            end
  | Eol => if bool_decide (s = []) || bool_decide (s = [10])
           then kont prev s else None
  | WordB => if xorb (opt_isword prev) (opt_isword (head s))
             then kont prev s else None
  end.

(** [re.sub(r, repl, text)]: leftmost non-overlapping matches, replaced
    from left to right. *)
Fixpoint sub_from (fuel : nat) (r : regex) (repl : pystr)
    (prev : option N) (s : pystr) : pystr :=
  match fuel with
  | O => s
  | S fuel' =>
    match match_re r prev s (fun p s' => Some (p, s')) with
    | Some (p, s') =>
      if (length s' <? length s)%nat
      then repl ++ sub_from fuel' r repl p s'
      else match s with
           | c :: t => c :: sub_from fuel' r repl (Some c) t
           | [] => []
           end
    | None =>
      match s with
      | c :: t => c :: sub_from fuel' r repl (Some c) t
      | [] => []
      end
    end
  end.

Definition re_sub (r : regex) (repl text : pystr) : pystr :=
  sub_from (S (length text)) r repl None text.

Fixpoint seq_of (rs : list regex) : regex :=
  match rs with
  | [] => Rep (One DotAll) 0 (Some 0%nat)
  | [r] => r
  | r :: rs' => Seq r (seq_of rs')
  end.

(** A case-insensitive word, letter by letter. *)
Definition wordI (w : string) : list regex :=
  map (fun c => Chr (One (LitI c))) (u w).
Definition word (w : string) : list regex :=
  map (fun c => Chr (One (Lit c))) (u w).
Definition chr (c : N) : regex := Chr (One (Lit c)).
Definition star (k : cclass) : regex := Rep k 0 None.
Definition plus (k : cclass) : regex := Rep k 1 None.
Definition opt (k : cclass) : regex := Rep k 0 (Some 1%nat).

(** The double and the single quotation mark. *)
Definition dquote : N := 34.
Definition squote : N := 39.

(** [\bReferences?\b.*$], IGNORECASE | DOTALL *)
Definition re_references : regex :=
  seq_of ([WordB] ++ wordI "reference"
          ++ [opt (One (LitI 115)); WordB; star (One DotAll); Eol]).
(** [\bBibliography\b.*$], IGNORECASE | DOTALL *)
Definition re_bibliography : regex :=
  seq_of ([WordB] ++ wordI "bibliography" ++ [WordB; star (One DotAll); Eol]).
(** [\bWorks\s+Cited\b.*$], IGNORECASE | DOTALL *)
Definition re_works_cited : regex :=
  seq_of ([WordB] ++ wordI "works" ++ [plus (One Space)] ++ wordI "cited"
          ++ [WordB; star (One DotAll); Eol]).
(** [\[\d+\]] *)
Definition re_numeric_citation : regex :=
  seq_of [chr 91; plus (One Digit); chr 93].
(** [\(\w+,?\s*\d{4}\)] *)
Definition re_author_year : regex :=
  seq_of [chr 40; plus (One Word); opt (One (Lit 44)); star (One Space);
          Rep (One Digit) 4 (Some 4%nat); chr 41].
(** [\(\w+\s+et\s+al\.,?\s*\d{4}\)] *)
Definition re_et_al : regex :=
  seq_of ([chr 40; plus (One Word); plus (One Space)] ++ word "et"
          ++ [plus (One Space)] ++ word "al."
          ++ [opt (One (Lit 44)); star (One Space);
              Rep (One Digit) 4 (Some 4%nat); chr 41]).
(** [D[^D]*D] where [D] is the double quotation mark *)
Definition re_double_quoted : regex :=
  seq_of [chr dquote; star (NoneOf [Lit dquote]); chr dquote].
(** [S([^S]{10,})S] where [S] is the single quotation mark *)
Definition re_single_quoted : regex :=
  seq_of [chr squote; Rep (NoneOf [Lit squote]) 10 None; chr squote].
(** [^>.*$], MULTILINE *)
Definition re_block_quote : regex :=
  seq_of [Bol; chr 62; star (One Dot); EolM].
(** [\s+] *)
Definition re_whitespace : regex := plus (One Space).
(** [[^\w\s.,!?;:\-]] *)
Definition re_special : regex :=
  Chr (NoneOf ([Word; Space] ++ map Lit (u ".,!?;:-"))).

(** ** Normalizer ([app/utils/text_processing.py]) *)

Definition remove_references (text : pystr) : pystr :=
  let text := re_sub re_references [] text in
  let text := re_sub re_bibliography [] text in
  let text := re_sub re_works_cited [] text in
  let text := re_sub re_numeric_citation [] text in
  let text := re_sub re_author_year [] text in
  let text := re_sub re_et_al [] text in
  strip text.

Definition remove_quotes (text : pystr) : pystr :=
  let text := re_sub re_double_quoted [] text in
  let text := re_sub re_single_quoted [] text in
  let text := re_sub re_block_quote [] text in
  strip text.

Definition preprocess_document (text : pystr)
    (remove_refs remove_quotes_flag : bool) : pystr :=
  let text := if remove_refs then remove_references text else text in
  let text := if remove_quotes_flag then remove_quotes text else text in
  let text := re_sub re_whitespace (u " ") text in
  let text := re_sub re_special [] text in
  strip text.

(** [s.split()]: the maximal runs of non-whitespace. *)
Fixpoint split_ws (cur : pystr) (s : pystr) : list pystr :=
  match s with
  | [] => match cur with [] => [] | _ => [rev cur] end
  | c :: s' =>
    if isspace c then
      match cur with
      | [] => split_ws [] s'
      | _ => rev cur :: split_ws [] s'
      end
    else split_ws (c :: cur) s'
  end.

Definition split (s : pystr) : list pystr := split_ws [] s.

Definition tokenize_text (text : pystr) : list pystr :=
  match word_tokenize (lower text) with
  | Ok tokens => tokens
  | Raise _ => split (lower text)
  end.

(** [token.isalnum()] *)
Definition str_isalnum (token : pystr) : bool :=
  negb (bool_decide (token = [])) && forallb isalnum token.

Definition get_word_set (text : pystr) : gset pystr :=
  list_to_set
    (filter (fun token => (2 <? length token)%nat && str_isalnum token = true)
            (tokenize_text text)).

(** ** Exceptions and effects of the service *)

Definition M (A : Type) : Type := World -> result A * World.

Definition ret {A} (a : A) : M A := fun w => (Ok a, w).

Definition bind {A B} (m : M A) (f : A -> M B) : M B :=
  fun w => match m w with
           | (Ok a, w') => f a w'
           | (Raise e, w') => (Raise e, w')
           end.

#[global] Instance M_ret : MRet M := @ret.
#[global] Instance M_bind : MBind M := fun A B f m => bind m f.

Definition raise {A} (e : PyExc) : M A := fun w => (Raise e, w).

Definition lift {A} (r : result A) : M A := fun w => (r, w).

(** [try: body  except Exception as e: handler e] *)
Definition try_except {A} (body : M A) (handler : PyExc -> M A) : M A :=
  fun w => match body w with
           | (Ok a, w') => (Ok a, w')
           | (Raise e, w') => handler e w'
           end.

Definition emit (ev : Event) : M unit :=
  fun w => (Ok tt, {| committed := committed w; session := session w;
                      trace := trace w ++ [ev] |}).

(** [self.db.query(...)] reads the session. *)
Definition query : M Database := fun w => (Ok (session w), w).

(** Attribute writes on a loaded row: the first row with that primary key. *)
Fixpoint update_row (a : Assignment.t) (rows : list Assignment.t)
  : list Assignment.t :=
  match rows with
  | [] => []
  | r :: rows' =>
    if (Assignment.id r =? Assignment.id a)%Z then a :: rows'
    else r :: update_row a rows'
  end.

Definition write_row (a : Assignment.t) : M unit :=
  fun w => (Ok tt,
            {| committed := committed w;
               session := {| assignments := update_row a (assignments (session w));
                             question_files := question_files (session w) |};
               trace := trace w |}).

(** [self.db.commit()] *)
Definition commit : M unit :=
  fun w => match db_commit (session w) with
           | None => (Ok tt, {| committed := session w; session := session w;
                                trace := trace w ++ [EvCommit] |})
           | Some e => (Raise e, w)
           end.

(** [self.db.rollback()] *)
Definition rollback : M unit :=
  fun w => (Ok tt, {| committed := committed w; session := committed w;
                      trace := trace w ++ [EvRollback] |}).

(** ** Plagiarism service ([app/services/plagiarism_service.py]) *)

Definition DEFAULT_PLAGIARISM_THRESHOLD : Q := 40.

(** [x or d] for an optional string: [None] and the empty string are falsy. *)
Definition py_or (x : option pystr) (d : pystr) : pystr :=
  match x with
  | Some (c :: s) => c :: s
  | _ => d
  end.

(** [enumerate(l, start)] *)
Fixpoint enumerate {A} (start : nat) (l : list A) : list (nat * A) :=
  match l with
  | [] => []
  | x :: l' => (start, x) :: enumerate (S start) l'
  end.

(** The match dictionary of one peer. *)
Definition match_of (assignment : Assignment.t) (similarity : Q) : Match.t :=
  {| Match.assignment_id := Assignment.id assignment;
     Match.filename := Assignment.filename assignment;
     Match.user_name :=
       strip (User.Fname (Assignment.user assignment) ++ u " "
              ++ py_or (User.Lname (Assignment.user assignment)) []);
     Match.similarity := similarity |}.

(** [matches.sort(key=lambda x: x['similarity'], reverse=True)]: the sort
    is stable, also under [reverse=True]; insertion from the right gives
    the same list. *)
Fixpoint insert_desc (m : Match.t) (sorted : list Match.t) : list Match.t :=
  match sorted with
  | [] => [m]
  | y :: rest =>
    if Qltb (Match.similarity m) (Match.similarity y)
    then y :: insert_desc m rest
    else m :: y :: rest
  end.

Definition sort_by_similarity (matches : list Match.t) : list Match.t :=
  foldr insert_desc [] matches.

(** The corpus loop of [_compare_with_assignments]. *)
Fixpoint assemble_corpus (items : list (nat * Assignment.t))
    (exclude_references exclude_quotes : bool)
    (documents : list pystr) (assignment_map : gmap nat Assignment.t)
  : M (list pystr * gmap nat Assignment.t) :=
  match items with
  | [] => ret (documents, assignment_map)
  | (idx, assignment) :: rest =>
    '(documents, assignment_map) ←
      try_except
        (text ← lift (convert_to_text (Assignment.file_data assignment)
                                      (Assignment.filename assignment));
         let text := preprocess_document text exclude_references exclude_quotes in
         ret (documents ++ [text], <[idx := assignment]> assignment_map))
        (fun e =>
           _ ← emit (EvLog (FailedToProcess (Assignment.id assignment) e));
           ret (documents, assignment_map));
    assemble_corpus rest exclude_references exclude_quotes documents assignment_map
  end.

(** The loop over [enumerate(similarities, start=1)]. *)
Definition tfidf_matches (similarities : list Q)
    (assignment_map : gmap nat Assignment.t) : list Match.t :=
  fold_left
    (fun matches '(idx, similarity) =>
       match assignment_map !! idx with
       | Some assignment =>
         let similarity_percentage := (similarity * 100)%Q in
         if Qltb 5 similarity_percentage
         then matches ++ [match_of assignment (round2 similarity_percentage)]
         else matches
       | None => matches
       end)
    (enumerate 1 similarities) [].

(** The loop of [_fallback_comparison]. *)
Fixpoint fallback_loop (assignments : list Assignment.t)
    (target_words : gset pystr) (matches : list Match.t) : M (list Match.t) :=
  match assignments with
  | [] => ret matches
  | assignment :: rest =>
    matches ←
      try_except
        (text ← lift (convert_to_text (Assignment.file_data assignment)
                                      (Assignment.filename assignment));
         let text := preprocess_document text false false in
         let words := get_word_set text in
         let intersection := size (target_words ∩ words) in
         let union := size (target_words ∪ words) in
         if (0 <? union)%nat then
           let similarity :=
             (inject_Z (Z.of_nat intersection) / inject_Z (Z.of_nat union) * 100)%Q in
           if Qltb 5 similarity
           then ret (matches ++ [match_of assignment (round2 similarity)])
           else ret matches
         else ret matches)
        (fun e =>
           _ ← emit (EvLog (FallbackFailed (Assignment.id assignment) e));
           ret matches);
    fallback_loop rest target_words matches
  end.

Definition _fallback_comparison (target_text : pystr)
    (assignments : list Assignment.t) : M (list Match.t) :=
  let target_words := get_word_set target_text in
  matches ← fallback_loop assignments target_words [];
  ret (sort_by_similarity matches).

Definition _compare_with_assignments (target_text : pystr)
    (assignments : list Assignment.t)
    (exclude_references exclude_quotes : bool) : M (list Match.t) :=
  '(documents, assignment_map) ←
    assemble_corpus (enumerate 1 assignments) exclude_references exclude_quotes
                    [target_text] ∅;
  if (length documents <=? 1)%nat then ret []
  else
    try_except
      (similarities ← lift (tfidf_cosine_similarity documents);
       ret (sort_by_similarity (tfidf_matches similarities assignment_map)))
      (fun e =>
         _ ← emit (EvLog (TfidfFailed e));
         _fallback_comparison target_text assignments).

Definition source_of (r : SearchResult.t) : Source.t :=
  {| Source.url := SearchResult.url r;
     Source.title := py_or (SearchResult.title r) (SearchResult.url r);
     Source.snippet := take 220 (py_or (SearchResult.description r) []) |}.

(** The two except clauses of [_check_external_sources].  The name
    [RemoteDisconnected] is a local of the function, bound by the second
    import of the try block: the first clause reads it. *)
Definition external_sources_handlers (RemoteDisconnected_bound : bool)
    (e : PyExc) : M (list Source.t) :=
  if RemoteDisconnected_bound then
    if bool_decide (exc_class e = RemoteDisconnected)
    then _ ← emit (EvLog RemoteDisconnectedWarning); ret []
    else _ ← emit (EvLog (ExternalCheckFailed e)); ret []
  else raise (Exc UnboundLocalError (u "RemoteDisconnected")).

Definition _check_external_sources (text : pystr) : M (list Source.t) :=
  match googlesearch with
  | None =>
    (* [from googlesearch import search] raises *)
    external_sources_handlers false (Exc ModuleNotFoundError (u "googlesearch"))
  | Some search =>
    (* both imports done *)
    try_except
      (_ ← emit (EvSearch text);
       results ← lift (search text);
       _ ← emit EvPrint;
       ret (map source_of results))
      (external_sources_handlers true)
  end.

Definition checked (assignment : Assignment.t) (report : Report.t)
    (percentage : Q) : Assignment.t :=
  {| Assignment.id := Assignment.id assignment;
     Assignment.filename := Assignment.filename assignment;
     Assignment.file_data := Assignment.file_data assignment;
     Assignment.user := Assignment.user assignment;
     Assignment.course := Assignment.course assignment;
     Assignment.status := Checked;
     Assignment.comment := Assignment.comment assignment;
     Assignment.totalmarks := Assignment.totalmarks assignment;
     Assignment.obtmarks := Assignment.obtmarks assignment;
     Assignment.plagiarism_report := Some report;
     Assignment.plagiarism_percentage := Some percentage;
     Assignment.auto_graded := Assignment.auto_graded assignment |}.

Definition auto_grade (assignment : Assignment.t) (max_similarity : Q)
  : Assignment.t :=
  {| Assignment.id := Assignment.id assignment;
     Assignment.filename := Assignment.filename assignment;
     Assignment.file_data := Assignment.file_data assignment;
     Assignment.user := Assignment.user assignment;
     Assignment.course := Assignment.course assignment;
     Assignment.status := Assignment.status assignment;
     Assignment.comment :=
       Some (u "Automatic Grade: 0 (Plagiarism detected: "
             ++ format_2f max_similarity ++ u "%)");
     Assignment.totalmarks := Some 100%Z;
     Assignment.obtmarks := Some 0%Z;
     Assignment.plagiarism_report := Assignment.plagiarism_report assignment;
     Assignment.plagiarism_percentage :=
       Assignment.plagiarism_percentage assignment;
     Assignment.auto_graded := true |}.

(** The report dictionary of [_create_empty_report]. *)
Definition empty_report (assignment : Assignment.t) (threshold : Q) : Report.t :=
  {| Report.assignment_id := Assignment.id assignment;
     Report.filename := Assignment.filename assignment;
     Report.plagiarism_percentage := 0;
     Report.matches := [];
     Report.external_sources := [];
     Report.threshold := threshold;
     Report.passed := true;
     Report.checked_at := utcnow_isoformat |}.

(** The report dictionary of [check_plagiarism]. *)
Definition full_report (assignment_id : Z) (assignment : Assignment.t)
    (max_similarity : Q) (matches : list Match.t)
    (external_sources : list Source.t) (threshold : Q) : Report.t :=
  {| Report.assignment_id := assignment_id;
     Report.filename := Assignment.filename assignment;
     Report.plagiarism_percentage := round2 max_similarity;
     Report.matches := matches;
     Report.external_sources := external_sources;
     Report.threshold := threshold;
     Report.passed := Qltb max_similarity threshold;
     Report.checked_at := utcnow_isoformat |}.

Definition _create_empty_report (assignment : Assignment.t) (threshold : Q)
  : M Report.t :=
  let report := empty_report assignment threshold in
  _ ← write_row (checked assignment report 0);
  _ ← commit;
  ret report.

(** The three queries of [check_plagiarism]. *)
Definition query_assignment (db : Database) (assignment_id : Z)
  : option Assignment.t :=
  find (fun a => (Assignment.id a =? assignment_id)%Z) (assignments db).

Definition query_threshold (db : Database) (assignment : Assignment.t) : Q :=
  let question_file :=
    find (fun q => pystr_eqb (QuestionFile.course q) (Assignment.course assignment))
         (question_files db) in
  match question_file with
  | Some q => QuestionFile.plagiarism_threshold q
  | None => DEFAULT_PLAGIARISM_THRESHOLD
  end.

Definition query_other_assignments (db : Database) (assignment : Assignment.t)
    (assignment_id : Z) : list Assignment.t :=
  filter (fun a => pystr_eqb (Assignment.course a) (Assignment.course assignment) = true
                   /\ Assignment.id a <> assignment_id)
         (assignments db).

Definition check_plagiarism (assignment_id : Z)
    (exclude_references exclude_quotes : bool) : M Report.t :=
  try_except
    (db ← query;
     match query_assignment db assignment_id with
     | None => raise (HTTPExc PlagiarismCheckError (u "Assignment not found"))
     | Some assignment =>
       let threshold := query_threshold db assignment in
       let other_assignments :=
         query_other_assignments db assignment assignment_id in
       match other_assignments with
       | [] => _create_empty_report assignment threshold
       | _ :: _ =>
         raw_text ← lift (convert_to_text (Assignment.file_data assignment)
                                          (Assignment.filename assignment));
         let target_text :=
           preprocess_document raw_text exclude_references exclude_quotes in
         matches ← _compare_with_assignments target_text other_assignments
                     exclude_references exclude_quotes;
         external_sources ← _check_external_sources raw_text;
         let max_similarity := py_max (map Match.similarity matches) 0 in
         let report :=
           full_report assignment_id assignment max_similarity matches
                       external_sources threshold in
         let assignment :=
           if Qle_bool threshold max_similarity
           then auto_grade assignment max_similarity
           else assignment in
         _ ← write_row (checked assignment report (round2 max_similarity));
         _ ← commit;
         ret report
       end
     end)
    (fun e =>
       _ ← emit (EvLog (CheckFailed assignment_id e));
       _ ← rollback;
       raise (HTTPExcFrom PlagiarismCheckError [] e)).

Definition get_report (assignment_id : Z) : M (option Report.t) :=
  db ← query;
  match query_assignment db assignment_id with
  | Some assignment => ret (Assignment.plagiarism_report assignment)
  | None => ret None
  end.

(** ** Vocabulary of the statements *)

(** The comparison pool of a check: the other submissions of the course. *)
Definition comparison_pool (db : Database) (assignment_id : Z)
  : list Assignment.t :=
  match query_assignment db assignment_id with
  | Some assignment => query_other_assignments db assignment assignment_id
  | None => []
  end.

(** The largest similarity among the matches of a report, 0 without any. *)
Definition max_match (r : Report.t) : Q :=
  py_max (map Match.similarity (Report.matches r)) 0.

(** The grading fields of a submission. *)
Definition grading (a : Assignment.t)
  : option Z * option Z * bool * option pystr :=
  (Assignment.totalmarks a, Assignment.obtmarks a,
   Assignment.auto_graded a, Assignment.comment a).

(** The matches of a list whose similarity is [v], in their order. *)
Definition tied (v : Q) (matches : list Match.t) : list Match.t :=
  List.filter (fun m => Qeq_bool (Match.similarity m) v) matches.

(** Descending order of similarity. *)
Definition descending (matches : list Match.t) : Prop :=
  StronglySorted (fun a b => (Match.similarity b <= Match.similarity a)%Q) matches.

(** A similarity with two decimals. *)
Definition two_decimals (q : Q) : Prop := exists z : Z, (q == z # 100)%Q.

(** The peers of a pool whose text can be extracted. *)
Definition extractable (a : Assignment.t) : bool :=
  match convert_to_text (Assignment.file_data a) (Assignment.filename a) with
  | Ok _ => true
  | Raise _ => false
  end.

(** The text of a peer, extracted and normalized under the given flags. *)
Definition prepared_text (exclude_references exclude_quotes : bool)
    (a : Assignment.t) : option pystr :=
  match convert_to_text (Assignment.file_data a) (Assignment.filename a) with
  | Ok text => Some (preprocess_document text exclude_references exclude_quotes)
  | Raise _ => None
  end.

(** The prepared corpus of a pool: the prepared texts of its extractable
    peers, in the order of the pool. *)
Definition prepared_corpus (exclude_references exclude_quotes : bool)
    (pool : list Assignment.t) : list pystr :=
  omap (prepared_text exclude_references exclude_quotes) pool.

(** What the corpus loop leaves in [assignment_map]: each extractable peer
    under its position in the pool (counted from [k]). *)
Fixpoint index_map (k : nat) (pool : list Assignment.t)
    (assignment_map : gmap nat Assignment.t) : gmap nat Assignment.t :=
  match pool with
  | [] => assignment_map
  | a :: rest =>
    index_map (S k) rest
      (if extractable a then <[k := a]> assignment_map else assignment_map)
  end.

(** What the loop over the similarities appends, score by score. *)
Fixpoint scored (k : nat) (similarities : list Q)
    (assignment_map : gmap nat Assignment.t) : list Match.t :=
  match similarities with
  | [] => []
  | similarity :: rest =>
    match assignment_map !! k with
    | Some assignment =>
      if Qltb 5 (similarity * 100)
      then [match_of assignment (round2 (similarity * 100))]
      else []
    | None => []
    end ++ scored (S k) rest assignment_map
  end.

(** The Jaccard percentage of two word sets, when their union is not empty. *)
Definition jaccard (target_words words : gset pystr) : option Q :=
  if (0 <? size (target_words ∪ words))%nat
  then Some (inject_Z (Z.of_nat (size (target_words ∩ words)))
             / inject_Z (Z.of_nat (size (target_words ∪ words))) * 100)%Q
  else None.

(** What one round of the fallback loop appends. *)
Definition jaccard_match (target_words : gset pystr) (a : Assignment.t)
  : list Match.t :=
  match convert_to_text (Assignment.file_data a) (Assignment.filename a) with
  | Ok text =>
    match jaccard target_words (get_word_set (preprocess_document text false false)) with
    | Some similarity =>
      if Qltb 5 similarity then [match_of a (round2 similarity)] else []
    | None => []
    end
  | Raise _ => []
  end.

(** The matches [_compare_with_assignments] returns, as a function of its
    arguments. *)
Definition compare_matches (target_text : pystr) (pool : list Assignment.t)
    (exclude_references exclude_quotes : bool) : list Match.t :=
  let documents :=
    target_text :: prepared_corpus exclude_references exclude_quotes pool in
  if (length documents <=? 1)%nat then []
  else
    match tfidf_cosine_similarity documents with
    | Ok similarities =>
      sort_by_similarity (scored 1 similarities (index_map 1 pool ∅))
    | Raise _ =>
      sort_by_similarity
        (flat_map (jaccard_match (get_word_set target_text)) pool)
    end.

(** The target after the auto-grade step of [check_plagiarism]. *)
Definition graded (assignment : Assignment.t) (threshold max_similarity : Q)
  : Assignment.t :=
  if Qle_bool threshold max_similarity
  then auto_grade assignment max_similarity
  else assignment.

(** The rows of the session once the target row is written. *)
Definition persist (w : World) (a : Assignment.t) : Database :=
  {| assignments := update_row a (assignments (session w));
     question_files := question_files (session w) |}.

(** Two worlds with the same rows, committed and in the session. *)
Definition same_data (w w' : World) : Prop :=
  committed w' = committed w /\ session w' = session w.

End Core.

(** ** Test doubles

    A deployment in which the NLTK data is missing (so that tokenization
    degrades to whitespace splitting) and every PDF or DOCX container is
    unreadable; the similarity engine, the search module and the outcome of
    the commit are chosen per scenario. *)

Definition test_env (engine : list pystr -> result (list Q))
    (search : option (pystr -> result (list SearchResult.t)))
    (commit_error : option PyExc) : Externals :=
  {| unicode_lower s := s;
     unicode_isalnum _ := false;
     unicode_isdecimal _ := false;
     unicode_ignorecase _ _ := false;
     PdfReader _ := Raise (Exc (LibraryError "PdfReadError") (u "EOF marker not found"));
     Document _ := Raise (Exc (LibraryError "BadZipFile") (u "File is not a zip file"));
     word_tokenize _ := Raise (Exc (LibraryError "LookupError") (u "punkt not found"));
     tfidf_cosine_similarity := engine;
     googlesearch := search;
     db_commit _ := commit_error;
     utcnow_isoformat := u "2024-01-01T00:00:00" |}.

(** An engine that fails, as scikit-learn does on an empty vocabulary. *)
Definition engine_fails : list pystr -> result (list Q) :=
  fun _ => Raise (Exc (LibraryError "ValueError") (u "empty vocabulary")).

(** An engine that gives every peer the same cosine. *)
Definition engine_const (c : Q) : list pystr -> result (list Q) :=
  fun documents => Ok (map (fun _ => c) (tail documents)).

Definition search_nothing : option (pystr -> result (list SearchResult.t)) :=
  Some (fun _ => Ok []).

Definition search_disconnects : option (pystr -> result (list SearchResult.t)) :=
  Some (fun _ => Raise (Exc RemoteDisconnected (u "Remote end closed connection"))).

(** Two deployments with a working search that finds nothing and a commit
    that succeeds: in [by_fallback] the primary engine fails, in [by_tfidf]
    it scores every peer 1. *)
Definition by_fallback : Externals := test_env engine_fails search_nothing None.
Definition by_tfidf : Externals := test_env (engine_const 1) search_nothing None.

Definition txt (content : string) : bytes :=
  map byte_of_ascii (list_ascii_of_string content).

Definition upload (i : Z) (name : string) (data : bytes) : Assignment.t :=
  {| Assignment.id := i;
     Assignment.filename := u name;
     Assignment.file_data := data;
     Assignment.user := {| User.Fname := u "Ann"; User.Lname := None |};
     Assignment.course := u "CS101";
     Assignment.status := NotChecked;
     Assignment.comment := None;
     Assignment.totalmarks := None;
     Assignment.obtmarks := None;
     Assignment.plagiarism_report := None;
     Assignment.plagiarism_percentage := None;
     Assignment.auto_graded := false |}.

Definition submission (i : Z) (name content : string) : Assignment.t :=
  upload i name (txt content).

(** A passage between double quotation marks. *)
Definition quoted (content : string) : bytes :=
  [Byte.x22] ++ txt content ++ [Byte.x22].

Definition world_of (rows : list Assignment.t) (qs : list QuestionFile.t) : World :=
  let d := {| assignments := rows; question_files := qs |} in
  {| committed := d; session := d; trace := [] |}.

Definition course_policy (threshold : Q) : QuestionFile.t :=
  {| QuestionFile.course := u "CS101";
     QuestionFile.plagiarism_threshold := threshold |}.

(** A course with one submission and the threshold 0. *)
Definition lone_world : World :=
  world_of [submission 1 "a.txt" "alpha beta gamma"] [course_policy 0].

(** A target and two peers with the same text, returned by the database
    with the row 7 before the row 3; the default threshold applies. *)
Definition tie_world : World :=
  world_of [submission 1 "a.txt" "alpha beta gamma";
            submission 7 "b.txt" "alpha beta gamma delta";
            submission 3 "c.txt" "alpha beta gamma delta"] [].

(** The same course under a threshold that the two peers do not reach. *)
Definition lenient_world : World :=
  world_of [submission 1 "a.txt" "alpha beta gamma";
            submission 7 "b.txt" "alpha beta gamma delta";
            submission 3 "c.txt" "alpha beta gamma delta"] [course_policy 90].

(** A target, a peer whose file cannot be read (it is named as a PDF and
    is none) and a peer that is a copy of the target. *)
Definition shifted_world : World :=
  world_of [submission 1 "a.txt" "alpha beta gamma";
            submission 2 "notes.pdf" "alpha beta gamma";
            submission 3 "c.txt" "alpha beta gamma"] [].

(** The same course without the unreadable peer. *)
Definition readable_world : World :=
  world_of [submission 1 "a.txt" "alpha beta gamma";
            submission 3 "c.txt" "alpha beta gamma"] [].

(** A target made of stop words only (the vocabulary of the primary engine
    is then empty) and a peer that adds a quoted passage to the same words. *)
Definition quote_world : World :=
  world_of [submission 1 "a.txt" "the and of";
            upload 2 "b.txt" (txt "the and of " ++ quoted "was were")] [].

(** A deployment without the googlesearch package. *)
Definition without_search : Externals := test_env (engine_const 1) None None.

(** A deployment whose search loses its connection. *)
Definition with_broken_search : Externals :=
  test_env (engine_const 1) search_disconnects None.

(** ** The rest of [file_utils.py] and [text_processing.py] *)

#[global] Instance byte_eq_decision : EqDecision Byte.byte :=
  Stdlib.Strings.Byte.byte_eq_dec.

(** Defaults of [app/core/config.py]. *)
Definition MAX_UPLOAD_SIZE : N := 16 * 1024 * 1024.
Definition ALLOWED_EXTENSIONS : gset pystr := {[ u ".txt"; u ".pdf"; u ".docx" ]}.

(** What the service reads of a FastAPI [UploadFile]: its name and what
    [await file.read()] returns. *)
Module UploadFile.
Record t := { filename : pystr; content : bytes }.
End UploadFile.

(** [sep.join(parts)] *)
Fixpoint join (sep : pystr) (parts : list pystr) : pystr :=
  match parts with
  | [] => []
  | [p] => p
  | p :: rest => p ++ sep ++ join sep rest
  end.

(** [range(n)] *)
Definition range (n : Z) : list Z := map Z.of_nat (seq 0 (Z.to_nat n)).

(** [l[start:stop]] for integers of either sign. *)
Definition py_slice {A} (l : list A) (start stop : Z) : list A :=
  let len := Z.of_nat (length l) in
  let clamp x := if (x <? 0)%Z then Z.max 0 (x + len) else Z.min x len in
  let a := clamp start in
  let b := clamp stop in
  take (Z.to_nat (b - a)) (drop (Z.to_nat a) l).

(** [re.split] on a pattern [[...]+] given by its class: the pieces
    between the maximal runs of characters of the class; [cur] is the piece
    being read, reversed, [in_run] tells that a run is being skipped. *)
Fixpoint split_runs (sep : N -> bool) (in_run : bool) (cur : pystr)
    (s : pystr) : list pystr :=
  match s with
  | [] => [rev cur]
  | c :: s' =>
    if sep c then
      if in_run then split_runs sep true cur s'
      else rev cur :: split_runs sep true [] s'
    else split_runs sep false (c :: cur) s'
  end.

Definition re_split_runs (sep : N -> bool) (text : pystr) : list pystr :=
  split_runs sep false [] text.

(** The class [[.!?]]. *)
Definition sentence_end (c : N) : bool := (c =? 46) || (c =? 33) || (c =? 63).

(** A text without leading or trailing whitespace. *)
Definition trimmed (s : pystr) : Prop :=
  forall c, head s = Some c \/ last s = Some c -> isspace c = false.

(** Replacement of each maximal run of characters of a class by [repl]. *)
Fixpoint collapse (p : N -> bool) (repl : pystr) (in_run : bool) (s : pystr)
  : pystr :=
  match s with
  | [] => []
  | c :: s' =>
    if p c then (if in_run then [] else repl) ++ collapse p repl true s'
    else c :: collapse p repl false s'
  end.

(** What is left of a text after its leading run of characters of a
    class. *)
Fixpoint skip_run (p : N -> bool) (s : pystr) : pystr :=
  match s with
  | [] => []
  | c :: s' => if p c then skip_run p s' else s
  end.

(** A text whose only whitespace is single spaces: every whitespace
    character is U+0020 and none follows another ([after_space] tells that
    the character before the text is a whitespace). *)
Fixpoint spaced (after_space : bool) (s : pystr) : bool :=
  match s with
  | [] => true
  | c :: s' =>
    if isspace c then (c =? 32) && negb after_space && spaced true s'
    else spaced false s'
  end.

Definition single_spaced (s : pystr) : Prop := spaced false s = true.

Section Utilities.
Context `{E : Externals}.

(** The iteration order of a set of strings (it depends on the hash seed
    of the interpreter). *)
Variable set_order : gset pystr -> list pystr.

Definition validate_file_extension (filename : pystr) : bool :=
  let ext := get_file_extension filename in
  bool_decide (ext ∈ ALLOWED_EXTENSIONS).

Definition validate_file_size (file_data : bytes) : bool :=
  N.of_nat (length file_data) <=? MAX_UPLOAD_SIZE.

Definition process_upload (file : UploadFile.t) : result (bytes * pystr) :=
  if negb (validate_file_extension (UploadFile.filename file)) then
    let allowed := join (u ", ") (set_order ALLOWED_EXTENSIONS) in
    Raise (HTTPExc FileUploadError
             (u "Invalid file type. Allowed types: " ++ allowed))
  else
    let file_data := UploadFile.content file in
    if negb (validate_file_size file_data) then
      Raise (HTTPExc FileUploadError (u "File too large. Maximum size: 16.0MB"))
    else if (length file_data =? 0)%nat then
      Raise (HTTPExc FileUploadError (u "File is empty"))
    else Ok (file_data, UploadFile.filename file).

Definition validate_magic_bytes (file_data : bytes) (filename : pystr) : bool :=
  if (length file_data <? 4)%nat then false
  else
    let ext := get_file_extension filename in
    let magic := take 4 file_data in
    if pystr_eqb ext (u ".pdf") then
      bool_decide (take 5 file_data = txt "%PDF-")
    else if pystr_eqb ext (u ".docx") then
      bool_decide (magic = [Byte.x50; Byte.x4b; Byte.x03; Byte.x04])
    else if pystr_eqb ext (u ".txt") then true
    else false.

Definition extract_sentences (text : pystr) : list pystr :=
  let sentences := re_split_runs sentence_end text in
  map strip (filter (fun s => strip s <> []) sentences).

Definition get_n_grams {A} (tokens : list A) (n : Z) : list (list A) :=
  map (fun i => py_slice tokens i (i + n))
      (range (Z.of_nat (length tokens) - n + 1)).

Definition normalize_text (text : pystr) : pystr :=
  let text := lower text in
  let text := re_sub re_whitespace (u " ") text in
  strip text.

End Utilities.

(** ** More test doubles *)

(** A deployment whose PDF reader finds two pages in every file. *)
Definition with_pdf_reader : Externals :=
  {| unicode_lower s := s;
     unicode_isalnum _ := false;
     unicode_isdecimal _ := false;
     unicode_ignorecase _ _ := false;
     PdfReader _ := Ok [u "  Title page"; u "Second page "];
     Document _ := Raise (Exc (LibraryError "BadZipFile") (u "File is not a zip file"));
     word_tokenize _ := Raise (Exc (LibraryError "LookupError") (u "punkt not found"));
     tfidf_cosine_similarity := engine_const 1;
     googlesearch := search_nothing;
     db_commit _ := None;
     utcnow_isoformat := u "2024-01-01T00:00:00" |}.

(** A search that finds one page, without a title and with a description
    of 300 characters. *)
Definition search_finds : option (pystr -> result (list SearchResult.t)) :=
  Some (fun _ =>
          Ok [ {| SearchResult.url := u "http://example.org/essay";
                  SearchResult.title := None;
                  SearchResult.description := Some (repeat 120 300%nat) |} ]).

Definition with_search_hits : Externals :=
  test_env (engine_const 1) search_finds None.

(** A target and a single peer, whose file cannot be read. *)
Definition unreadable_pool_world : World :=
  world_of [submission 1 "a.txt" "alpha beta gamma";
            submission 2 "notes.pdf" "alpha beta gamma"] [].

Close Scope N_scope.

(** * Properties *)

(** ** Text extractor *)

Section Extractor.
Context `{E : Externals}.

Lemma try_encodings_latin1 (file_data : bytes) :
  try_encodings [Latin1; Cp1252; Iso8859_1] file_data
  = Some (map Byte.to_N file_data).
Proof. reflexivity. Qed.

Lemma convert_to_text_txt (file_data : bytes) (filename : pystr) :
  get_file_extension filename = u ".txt" ->
  convert_to_text file_data filename
  = Ok (default (map Byte.to_N file_data) (utf8_decode file_data)).
Proof.
  intros Hext. unfold convert_to_text. rewrite Hext.
  change (pystr_eqb (u ".txt") (u ".pdf")) with false.
  change (pystr_eqb (u ".txt") (u ".docx")) with false.
  change (pystr_eqb (u ".txt") (u ".txt")) with true.
  cbv iota. rewrite try_encodings_latin1.
  destruct (utf8_decode file_data); reflexivity.
Qed.

Lemma pystr_eqb_eq (a b : pystr) : pystr_eqb a b = true <-> a = b.
Proof. unfold pystr_eqb. apply bool_decide_eq_true. Qed.

Lemma pystr_eqb_neq (a b : pystr) : pystr_eqb a b = false <-> a <> b.
Proof. unfold pystr_eqb. apply bool_decide_eq_false. Qed.

(** C10: a file whose name has the extension .txt is always extracted:
    the text is the UTF-8 decoding of the bytes when they are valid UTF-8 and
    their latin-1 decoding otherwise; the encoding loop stops at its first
    entry, so the final error of the branch is never raised. *)
Theorem C10_txt_extraction_never_fails (file_data : bytes) (filename : pystr) :
  get_file_extension filename = u ".txt" ->
  (exists text, convert_to_text file_data filename = Ok text
                /\ (utf8_decode file_data = Some text
                    \/ (utf8_decode file_data = None
                        /\ decode Latin1 file_data = Some text)))
  /\ try_encodings [Latin1; Cp1252; Iso8859_1] file_data <> None.
Proof.
  intros Hext. split.
  - rewrite (convert_to_text_txt _ _ Hext).
    destruct (utf8_decode file_data) as [text|] eqn:Hutf.
    + exists text. auto.
    + exists (map Byte.to_N file_data). auto.
  - rewrite try_encodings_latin1. discriminate.
Qed.

(** C9 (as the code has it): every error of the extractor is a
    [FileUploadError]; an unsupported extension and a parse failure differ
    in the detail message only. *)
Theorem C9_extractor_errors_share_one_class (file_data : bytes)
    (filename : pystr) (e : PyExc) :
  convert_to_text file_data filename = Raise e ->
  exc_class e = FileUploadError
  /\ let ext := get_file_extension filename in
     (ext = u ".pdf"
      /\ exists cause, PdfReader file_data = Raise cause
         /\ e = HTTPExcFrom FileUploadError (u "Failed to convert PDF: ") cause)
     \/ (ext = u ".docx"
         /\ exists cause, Document file_data = Raise cause
            /\ e = HTTPExcFrom FileUploadError (u "Failed to convert DOCX: ") cause)
     \/ (ext <> u ".pdf" /\ ext <> u ".docx" /\ ext <> u ".txt"
         /\ e = HTTPExc FileUploadError (u "Unsupported file type: " ++ ext)).
Proof.
  unfold convert_to_text.
  destruct (pystr_eqb (get_file_extension filename) (u ".pdf")) eqn:Hpdf.
  { apply pystr_eqb_eq in Hpdf. unfold convert_pdf_to_text.
    destruct (PdfReader file_data) as [pages|cause] eqn:Hr; [discriminate|].
    intros [= <-]. split; [reflexivity|]. left. eauto. }
  destruct (pystr_eqb (get_file_extension filename) (u ".docx")) eqn:Hdocx.
  { apply pystr_eqb_eq in Hdocx. unfold convert_docx_to_text.
    destruct (Document file_data) as [pars|cause] eqn:Hr; [discriminate|].
    intros [= <-]. split; [reflexivity|]. right; left. eauto. }
  destruct (pystr_eqb (get_file_extension filename) (u ".txt")) eqn:Htxt.
  { rewrite try_encodings_latin1.
    destruct (utf8_decode file_data); discriminate. }
  apply pystr_eqb_neq in Hpdf, Hdocx, Htxt.
  intros [= <-]. split; [reflexivity|]. right; right. auto.
Qed.

End Extractor.

Lemma C10_witness :
  get_file_extension (E := by_fallback) (u "essay.TXT") = u ".txt"
  /\ convert_to_text (E := by_fallback)
       [Byte.xff; Byte.xfe] (u "essay.TXT") = Ok [255%N; 254%N].
Proof.
  split; [reflexivity|].
  destruct (C10_txt_extraction_never_fails (E := by_fallback)
              [Byte.xff; Byte.xfe] (u "essay.TXT") eq_refl)
    as [[text [Hok Hdec]] _].
  rewrite Hok. f_equal.
  destruct Hdec as [Hutf|[_ Hlat]]; [discriminate Hutf|].
  injection Hlat as <-. reflexivity.
Defined.

Lemma C9_witness :
  convert_to_text (E := by_fallback) (txt "MZ") (u "essay.exe")
  = Raise (HTTPExc FileUploadError (u "Unsupported file type: .exe"))
  /\ exc_class (HTTPExc FileUploadError (u "Unsupported file type: .exe"))
     = FileUploadError.
Proof.
  split; [reflexivity|].
  exact (proj1 (C9_extractor_errors_share_one_class (E := by_fallback)
                  (txt "MZ") (u "essay.exe") _ eq_refl)).
Defined.

(** C9 (as the specification words it) fails: an executable and a file
    that is no PDF are refused with errors of the same class and HTTP
    status. *)
Lemma C9_counterexample :
  exists e_unsupported e_parse,
    convert_to_text (E := by_fallback)
      (txt "MZ") (u "essay.exe") = Raise e_unsupported
    /\ convert_to_text (E := by_fallback)
         (txt "not a pdf") (u "essay.pdf") = Raise e_parse
    /\ get_file_extension (E := by_fallback) (u "essay.exe") = u ".exe"
    /\ exc_class e_unsupported = exc_class e_parse
    /\ status_code (exc_class e_unsupported) = status_code (exc_class e_parse).
Proof. do 2 eexists. repeat split. Qed.

(** ** Normalizer: the behaviour of the patterns on sample texts *)

Example remove_quotes_sample :
  remove_quotes (E := by_fallback)
    (u "it's 'short' but 'this is a long quote' end" ++ [10%N]
     ++ u "> block line" ++ [10%N] ++ u "next >x " ++ [dquote] ++ u "q" ++ [dquote])
  = u "it's 'short' but  end" ++ [10%N; 10%N] ++ u "next >x".
Proof. vm_compute. reflexivity. Qed.

Example remove_references_sample :
  remove_references (E := by_fallback)
    (u "Intro [12] text (Smith, 2020) and (Smith2020) (Jones et al., 1999) [a] the referenced x."
     ++ [10%N] ++ u "REFERENCES" ++ [10%N] ++ u "1. blah")
  = u "Intro  text  and   [a] the referenced x.".
Proof. vm_compute. reflexivity. Qed.

Example preprocess_document_sample :
  preprocess_document (E := by_fallback)
    (u "  Hello,   world! @#$ (x) " ++ [10%N] ++ u " it's_ok a-b ") false false
  = u "Hello, world!  x its_ok a-b".
Proof. vm_compute. reflexivity. Qed.

Example get_word_set_sample :
  get_word_set (E := by_fallback) (u "The the AND and a bb ccc1 x-y dddd.")
  = list_to_set [u "the"; u "and"; u "ccc1"].
Proof. vm_compute. reflexivity. Qed.

(** ** Floats *)

Lemma Qltb_lt (x y : Q) : Qltb x y = true <-> (x < y)%Q.
Proof.
  unfold Qltb. rewrite negb_true_iff, <- not_true_iff_false, Qle_bool_iff.
  split; [apply Qnot_le_lt | apply Qlt_not_le].
Qed.

Lemma Qltb_ge (x y : Q) : Qltb x y = false <-> (y <= x)%Q.
Proof.
  unfold Qltb. rewrite negb_false_iff. apply Qle_bool_iff.
Qed.

Lemma round_half_even_comp (q q' : Q) :
  (q == q')%Q -> round_half_even q = round_half_even q'.
Proof.
  intros Heq. unfold round_half_even.
  rewrite (Qfloor_comp _ _ Heq).
  assert (Hc : Qcompare (q - inject_Z (Qfloor q')) (1 # 2)
               = Qcompare (q' - inject_Z (Qfloor q')) (1 # 2)).
  { apply Qcompare_comp; [|reflexivity]. rewrite Heq. reflexivity. }
  rewrite Hc. reflexivity.
Qed.

Lemma round_half_even_Z (z : Z) : round_half_even (inject_Z z) = z.
Proof.
  unfold round_half_even. rewrite Qfloor_Z.
  assert (Hc : Qcompare (inject_Z z - inject_Z z) (1 # 2) = Lt).
  { rewrite <- Qlt_alt.
    assert (H0 : (inject_Z z - inject_Z z == 0)%Q) by ring.
    rewrite H0. reflexivity. }
  rewrite Hc. reflexivity.
Qed.

(** Rounding a value that has two decimals already changes nothing. *)
Lemma round2_hundredths (z : Z) : round2 (z # 100) = (z # 100)%Q.
Proof.
  unfold round2. f_equal.
  rewrite <- (round_half_even_Z z) at 2. apply round_half_even_comp.
  unfold Qeq, inject_Z. simpl. lia.
Qed.

Lemma round2_idempotent (x : Q) : round2 (round2 x) = round2 x.
Proof. unfold round2 at 2 3. apply round2_hundredths. Qed.

Lemma py_max_fold_ge (xs : list Q) (x0 : Q) :
  let m := fold_left (fun m y => if Qltb m y then y else m) xs x0 in
  (x0 <= m)%Q /\ Forall (fun x => (x <= m)%Q) xs /\ (m = x0 \/ In m xs).
Proof.
  revert x0. induction xs as [|y xs IH]; intros x0; simpl.
  - split; [apply Qle_refl|]. split; [constructor|]. left. reflexivity.
  - destruct (Qltb x0 y) eqn:Hlt.
    + apply Qltb_lt in Hlt. destruct (IH y) as (Hy & Hall & Hin).
      split; [eapply Qle_trans; [apply Qlt_le_weak, Hlt|exact Hy]|].
      split; [constructor; assumption|].
      right. destruct Hin as [->|Hin]; [left; reflexivity|right; exact Hin].
    + apply Qltb_ge in Hlt. destruct (IH x0) as (Hx & Hall & Hin).
      split; [exact Hx|].
      split; [constructor; [eapply Qle_trans; eassumption|assumption]|].
      destruct Hin as [->|Hin]; [left; reflexivity|right; right; exact Hin].
Qed.

(** [py_max] is the maximum of a non-empty list and the default otherwise. *)
Lemma py_max_spec (xs : list Q) (d : Q) :
  (xs = [] /\ py_max xs d = d)
  \/ (xs <> [] /\ In (py_max xs d) xs /\ Forall (fun x => (x <= py_max xs d)%Q) xs).
Proof.
  destruct xs as [|x xs]; [left; split; reflexivity|].
  right. split; [discriminate|]. simpl.
  destruct (py_max_fold_ge xs x) as (Hx & Hall & Hin).
  split.
  - destruct Hin as [->|Hin]; [left; reflexivity|right; exact Hin].
  - constructor; assumption.
Qed.

Lemma py_max_two_decimals (xs : list Q) :
  Forall two_decimals xs -> two_decimals (py_max xs 0).
Proof.
  intros Hall. destruct (py_max_spec xs 0) as [[_ ->]|(_ & Hin & _)].
  - exists 0%Z. reflexivity.
  - rewrite Forall_forall in Hall. apply Hall. apply list_elem_of_In. exact Hin.
Qed.

Lemma round2_comp (q q' : Q) : (q == q')%Q -> round2 q = round2 q'.
Proof.
  intros Heq. unfold round2. f_equal. apply round_half_even_comp.
  rewrite Heq. reflexivity.
Qed.

Lemma round2_two_decimals (q : Q) : two_decimals q -> (round2 q == q)%Q.
Proof.
  intros [z Hz]. rewrite (round2_comp _ _ Hz), round2_hundredths.
  symmetry. exact Hz.
Qed.

Lemma two_decimals_round2 (q : Q) : two_decimals (round2 q).
Proof. eexists. unfold round2. reflexivity. Qed.

(** ** The sort of the matches *)

Lemma insert_desc_Forall (P : Match.t -> Prop) (m : Match.t) (l : list Match.t) :
  P m -> Forall P l -> Forall P (insert_desc m l).
Proof.
  intros Hm. induction 1 as [|y l Hy Hl IH]; simpl.
  - repeat constructor. exact Hm.
  - destruct (Qltb _ _); repeat constructor; assumption.
Qed.

Lemma sort_by_similarity_Forall (P : Match.t -> Prop) (l : list Match.t) :
  Forall P l -> Forall P (sort_by_similarity l).
Proof.
  induction 1 as [|m l Hm Hl IH]; simpl; [constructor|].
  apply insert_desc_Forall; assumption.
Qed.

Lemma insert_desc_perm (m : Match.t) (l : list Match.t) :
  insert_desc m l ≡ₚ m :: l.
Proof.
  induction l as [|y l IH]; simpl; [reflexivity|].
  destruct (Qltb _ _); [|reflexivity].
  rewrite IH. apply Permutation_swap.
Qed.

Lemma sort_by_similarity_perm (l : list Match.t) : sort_by_similarity l ≡ₚ l.
Proof.
  induction l as [|m l IH]; simpl; [reflexivity|].
  rewrite insert_desc_perm, IH. reflexivity.
Qed.

Lemma insert_desc_descending (m : Match.t) (l : list Match.t) :
  descending l -> descending (insert_desc m l).
Proof.
  unfold descending. induction 1 as [|y l Hl IH Hy]; simpl.
  - repeat constructor.
  - destruct (Qltb (Match.similarity m) (Match.similarity y)) eqn:Hlt.
    + constructor; [exact IH|].
      apply insert_desc_Forall; [|exact Hy].
      apply Qlt_le_weak, Qltb_lt, Hlt.
    + apply Qltb_ge in Hlt. constructor; [constructor; assumption|].
      constructor; [exact Hlt|].
      eapply Forall_impl; [exact Hy|]. intros z Hz. simpl in Hz.
      eapply Qle_trans; eassumption.
Qed.

Lemma sort_by_similarity_descending (l : list Match.t) :
  descending (sort_by_similarity l).
Proof.
  induction l as [|m l IH]; simpl; [constructor|].
  apply insert_desc_descending, IH.
Qed.

(** Stability: the sort keeps matches of equal similarity in their order. *)
Lemma insert_desc_tied (v : Q) (m : Match.t) (l : list Match.t) :
  tied v (insert_desc m l) = tied v (m :: l).
Proof.
  induction l as [|y l IH]; [reflexivity|].
  simpl. destruct (Qltb (Match.similarity m) (Match.similarity y)) eqn:Hlt;
    [|reflexivity].
  apply Qltb_lt in Hlt. unfold tied in *. simpl in *. rewrite IH.
  destruct (Qeq_bool (Match.similarity m) v) eqn:Hm; [|reflexivity].
  destruct (Qeq_bool (Match.similarity y) v) eqn:Hy; [|reflexivity].
  apply Qeq_bool_iff in Hm, Hy. rewrite Hm, Hy in Hlt.
  destruct (Qlt_irrefl _ Hlt).
Qed.

Lemma sort_by_similarity_stable (v : Q) (l : list Match.t) :
  tied v (sort_by_similarity l) = tied v l.
Proof.
  induction l as [|m l IH]; [reflexivity|].
  simpl. rewrite insert_desc_tied. unfold tied in *. simpl. rewrite IH.
  reflexivity.
Qed.

(** ** The service, step by step *)

Section Service.
Context `{E : Externals}.

Ltac munfold :=
  unfold mbind, M_bind, mret, M_ret, bind, ret, raise, lift, try_except,
         emit, query, commit, rollback, write_row in *.

Lemma same_data_refl (w : World) : same_data w w.
Proof. split; reflexivity. Qed.

Lemma same_data_trans (w1 w2 w3 : World) :
  same_data w1 w2 -> same_data w2 w3 -> same_data w1 w3.
Proof. intros [H1 H2] [H3 H4]. split; congruence. Qed.

Lemma assemble_corpus_spec (pool : list Assignment.t) (k : nat)
    (refs quotes : bool) (documents : list pystr)
    (assignment_map : gmap nat Assignment.t) (w : World) :
  exists w',
    assemble_corpus (enumerate k pool) refs quotes documents assignment_map w
    = (Ok (documents ++ prepared_corpus refs quotes pool,
           index_map k pool assignment_map), w')
    /\ same_data w w'.
Proof.
  revert k documents assignment_map w.
  induction pool as [|a pool IH]; intros k documents assignment_map w.
  - exists w. simpl. rewrite app_nil_r. split; [reflexivity|apply same_data_refl].
  - simpl. unfold prepared_corpus, prepared_text, extractable in *. simpl.
    munfold.
    destruct (convert_to_text (Assignment.file_data a) (Assignment.filename a))
      as [text|e]; simpl.
    + destruct (IH (S k) (documents ++ [preprocess_document text refs quotes])
                  (<[k:=a]> assignment_map) w) as (w' & Hrun & Hsame).
      exists w'. munfold. rewrite Hrun, <- app_assoc. split; [reflexivity|exact Hsame].
    + match goal with
      | |- context [assemble_corpus _ _ _ _ _ ?w0] =>
        destruct (IH (S k) documents assignment_map w0) as (w' & Hrun & Hsame)
      end.
      exists w'. munfold. rewrite Hrun. split; [reflexivity|].
      destruct Hsame as [H1 H2]. split; assumption.
Qed.

Lemma tfidf_matches_fold (similarities : list Q) (k : nat)
    (assignment_map : gmap nat Assignment.t) (acc : list Match.t) :
  fold_left
    (fun matches '(idx, similarity) =>
       match assignment_map !! idx with
       | Some assignment =>
         let similarity_percentage := (similarity * 100)%Q in
         if Qltb 5 similarity_percentage
         then matches ++ [match_of assignment (round2 similarity_percentage)]
         else matches
       | None => matches
       end)
    (enumerate k similarities) acc
  = acc ++ scored k similarities assignment_map.
Proof.
  revert k acc. induction similarities as [|s rest IH]; intros k acc; simpl.
  - rewrite app_nil_r. reflexivity.
  - rewrite IH. destruct (assignment_map !! k) as [a|]; simpl.
    + destruct (Qltb 5 (s * 100)); simpl.
      * rewrite <- app_assoc. reflexivity.
      * reflexivity.
    + reflexivity.
Qed.

Lemma tfidf_matches_scored (similarities : list Q)
    (assignment_map : gmap nat Assignment.t) :
  tfidf_matches similarities assignment_map = scored 1 similarities assignment_map.
Proof. unfold tfidf_matches. rewrite tfidf_matches_fold. reflexivity. Qed.

Lemma fallback_loop_spec (pool : list Assignment.t)
    (target_words : gset pystr) (acc : list Match.t) (w : World) :
  exists w',
    fallback_loop pool target_words acc w
    = (Ok (acc ++ flat_map (jaccard_match target_words) pool), w')
    /\ same_data w w'.
Proof.
  revert acc w. induction pool as [|a pool IH]; intros acc w.
  - exists w. simpl. rewrite app_nil_r. split; [reflexivity|apply same_data_refl].
  - simpl. unfold jaccard_match at 1, jaccard. munfold.
    destruct (convert_to_text (Assignment.file_data a) (Assignment.filename a))
      as [text|e]; simpl.
    + destruct (0 <? size _)%nat; simpl.
      * destruct (Qltb 5 _); simpl.
        -- destruct (IH (acc ++ [match_of a (round2
               (inject_Z (Z.of_nat (size (target_words ∩
                  get_word_set (preprocess_document text false false))))
                / inject_Z (Z.of_nat (size (target_words ∪
                  get_word_set (preprocess_document text false false)))) * 100))]) w)
             as (w' & Hrun & Hsame).
           exists w'. munfold. rewrite Hrun, <- app_assoc.
           split; [reflexivity|exact Hsame].
        -- destruct (IH acc w) as (w' & Hrun & Hsame).
           exists w'. munfold. rewrite Hrun. split; [reflexivity|exact Hsame].
      * destruct (IH acc w) as (w' & Hrun & Hsame).
        exists w'. munfold. rewrite Hrun. split; [reflexivity|exact Hsame].
    + match goal with
      | |- context [fallback_loop _ _ _ ?w0] =>
        destruct (IH acc w0) as (w' & Hrun & Hsame)
      end.
      exists w'. munfold. rewrite Hrun. split; [reflexivity|].
      destruct Hsame as [H1 H2]. split; assumption.
Qed.

(** [_compare_with_assignments] never raises, leaves the rows alone and
    returns [compare_matches]. *)
Lemma compare_with_assignments_spec (target_text : pystr)
    (pool : list Assignment.t) (refs quotes : bool) (w : World) :
  exists w',
    _compare_with_assignments target_text pool refs quotes w
    = (Ok (compare_matches target_text pool refs quotes), w')
    /\ same_data w w'.
Proof.
  unfold _compare_with_assignments, compare_matches.
  destruct (assemble_corpus_spec pool 1 refs quotes [target_text] ∅ w)
    as (w1 & Hrun & Hsame).
  munfold. rewrite Hrun.
  change ([target_text] ++ prepared_corpus refs quotes pool)
    with (target_text :: prepared_corpus refs quotes pool).
  destruct (length (target_text :: prepared_corpus refs quotes pool) <=? 1)%nat.
  { exists w1. split; [reflexivity|exact Hsame]. }
  destruct (tfidf_cosine_similarity _) as [similarities|e].
  - exists w1. rewrite tfidf_matches_scored. split; [reflexivity|exact Hsame].
  - unfold _fallback_comparison. munfold.
    match goal with
    | |- context [fallback_loop _ _ _ ?w0] =>
      destruct (fallback_loop_spec pool (get_word_set target_text) [] w0)
        as (w2 & Hrun2 & Hsame2)
    end.
    rewrite Hrun2. simpl app. exists w2. split; [reflexivity|].
    destruct Hsame as [H1 H2], Hsame2 as [H3 H4]. simpl in H3, H4.
    split; congruence.
Qed.

(** [_check_external_sources] with the search module installed: whatever
    the search does, a list comes back, empty when the search raised. *)
Lemma check_external_sources_installed (search : pystr -> result (list SearchResult.t))
    (text : pystr) (w : World) :
  googlesearch = Some search ->
  exists w',
    _check_external_sources text w
    = (Ok match search text with
          | Ok results => map source_of results
          | Raise _ => []
          end, w')
    /\ same_data w w'.
Proof.
  intros Hmod. unfold _check_external_sources. rewrite Hmod.
  unfold external_sources_handlers. munfold.
  destruct (search text) as [results|e]; simpl.
  - eexists. split; [reflexivity|]. split; reflexivity.
  - destruct (bool_decide (exc_class e = RemoteDisconnected));
      (eexists; split; [reflexivity|]; split; reflexivity).
Qed.

(** Without the search module the first except clause reads a local that
    was never bound. *)
Lemma check_external_sources_missing (text : pystr) (w : World) :
  googlesearch = None ->
  _check_external_sources text w
  = (Raise (Exc UnboundLocalError (u "RemoteDisconnected")), w).
Proof.
  intros Hmod. unfold _check_external_sources. rewrite Hmod. reflexivity.
Qed.

Lemma check_external_sources_same_data (text : pystr) (w w' : World)
    (res : result (list Source.t)) :
  _check_external_sources text w = (res, w') -> same_data w w'.
Proof.
  destruct googlesearch as [search|] eqn:Hmod.
  - destruct (check_external_sources_installed search text w Hmod)
      as (w1 & Hrun & Hsame).
    rewrite Hrun. intros [= _ <-]. exact Hsame.
  - rewrite (check_external_sources_missing text w Hmod).
    intros [= _ <-]. apply same_data_refl.
Qed.

Lemma update_row_find (a a' : Assignment.t) (rows : list Assignment.t) (i : Z) :
  find (fun r => (Assignment.id r =? i)%Z) rows = Some a ->
  Assignment.id a' = Assignment.id a ->
  find (fun r => (Assignment.id r =? i)%Z) (update_row a' rows) = Some a'.
Proof.
  intros Hfind Hid. induction rows as [|r rows IH]; [discriminate|].
  simpl in *. destruct (Assignment.id r =? i)%Z eqn:Hr.
  - injection Hfind as ->. rewrite Hid, Z.eqb_refl. simpl.
    rewrite Hid, Hr. reflexivity.
  - destruct (Assignment.id r =? Assignment.id a')%Z eqn:Hr'.
    + apply find_some in Hfind. destruct Hfind as [_ Hi].
      apply Z.eqb_eq in Hi, Hr'. apply Z.eqb_neq in Hr. congruence.
    + simpl. rewrite Hr. apply IH, Hfind.
Qed.

Lemma query_assignment_id (db : Database) (i : Z) (a : Assignment.t) :
  query_assignment db i = Some a -> Assignment.id a = i.
Proof.
  unfold query_assignment. intros Hfind. apply find_some in Hfind.
  apply Z.eqb_eq, Hfind.
Qed.

(** The written row is what the next query of the target returns. *)
Lemma query_persisted (w : World) (i : Z) (a a' : Assignment.t) :
  query_assignment (session w) i = Some a ->
  Assignment.id a' = Assignment.id a ->
  query_assignment (persist w a') i = Some a'.
Proof. unfold query_assignment, persist. simpl. apply update_row_find. Qed.

(** A check that returns a report took one of two paths. *)
Lemma check_plagiarism_ok (assignment_id : Z) (refs quotes : bool)
    (w w' : World) (r : Report.t) :
  check_plagiarism assignment_id refs quotes w = (Ok r, w') ->
  exists a,
    query_assignment (session w) assignment_id = Some a
    /\ let T := query_threshold (session w) a in
       let pool := query_other_assignments (session w) a assignment_id in
       (pool = []
        /\ r = empty_report a T
        /\ committed w' = persist w (checked a r 0)
        /\ trace w' = trace w ++ [EvCommit])
       \/ (pool <> []
           /\ exists raw sources,
               convert_to_text (Assignment.file_data a) (Assignment.filename a)
               = Ok raw
               /\ let ms := compare_matches (preprocess_document raw refs quotes)
                             pool refs quotes in
                  let S := py_max (map Match.similarity ms) 0 in
                  r = full_report assignment_id a S ms sources T
                  /\ committed w'
                     = persist w (checked (graded a T S) r (round2 S))).
Proof.
  unfold check_plagiarism. munfold.
  destruct (query_assignment (session w) assignment_id) as [a|] eqn:Hq;
    [|discriminate].
  intros Hrun. exists a. split; [reflexivity|]. cbv zeta.
  destruct (query_other_assignments (session w) a assignment_id)
    as [|p pool] eqn:Hpool.
  - left. unfold _create_empty_report in Hrun. munfold. simpl in Hrun.
    destruct (db_commit _); [discriminate|].
    injection Hrun as <- <-. simpl. repeat split; reflexivity.
  - right. split; [discriminate|].
    destruct (convert_to_text (Assignment.file_data a) (Assignment.filename a))
      as [raw|e] eqn:Hraw; [|discriminate].
    destruct (compare_with_assignments_spec
                (preprocess_document raw refs quotes) (p :: pool) refs quotes w)
      as (w1 & Hcmp & Hsame1).
    rewrite Hcmp in Hrun.
    destruct (_check_external_sources raw w1) as [res w2] eqn:Hadv.
    pose proof (check_external_sources_same_data _ _ _ _ Hadv) as Hsame2.
    destruct res as [sources|e]; [|discriminate].
    simpl in Hrun. destruct (db_commit _); [discriminate|].
    injection Hrun as <- <-. exists raw, sources. split; [reflexivity|].
    cbv zeta. split; [reflexivity|]. simpl. unfold persist.
    destruct Hsame1 as [_ Hs1], Hsame2 as [_ Hs2]. rewrite Hs2, Hs1.
    reflexivity.
Qed.

End Service.

(** ** What the matches of a check look like *)

Section Matches.
Context `{E : Externals}.

Lemma scored_two_decimals (similarities : list Q) (k : nat)
    (assignment_map : gmap nat Assignment.t) :
  Forall (fun m => two_decimals (Match.similarity m))
         (scored k similarities assignment_map).
Proof.
  revert k. induction similarities as [|s rest IH]; intros k; simpl;
    [constructor|].
  apply Forall_app. split; [|apply IH].
  destruct (assignment_map !! k); [|constructor].
  destruct (Qltb 5 (s * 100)); repeat constructor.
  apply two_decimals_round2.
Qed.

Lemma jaccard_match_two_decimals (target_words : gset pystr)
    (pool : list Assignment.t) :
  Forall (fun m => two_decimals (Match.similarity m))
         (flat_map (jaccard_match target_words) pool).
Proof.
  induction pool as [|a pool IH]; simpl; [constructor|].
  apply Forall_app. split; [|exact IH].
  unfold jaccard_match.
  destruct (convert_to_text _ _); [|constructor].
  destruct (jaccard _ _); [|constructor].
  destruct (Qltb 5 _); repeat constructor. apply two_decimals_round2.
Qed.

Lemma compare_matches_two_decimals (target_text : pystr)
    (pool : list Assignment.t) (refs quotes : bool) :
  Forall (fun m => two_decimals (Match.similarity m))
         (compare_matches target_text pool refs quotes).
Proof.
  unfold compare_matches.
  destruct (_ <=? 1)%nat; [constructor|].
  destruct (tfidf_cosine_similarity _); apply sort_by_similarity_Forall.
  - apply scored_two_decimals.
  - apply jaccard_match_two_decimals.
Qed.

Lemma sublist_map {A B} (f : A -> B) (l1 l2 : list A) :
  sublist l1 l2 -> sublist (map f l1) (map f l2).
Proof.
  induction 1; simpl; [constructor|apply sublist_skip|apply sublist_cons];
    assumption.
Qed.

Lemma index_map_lookup (pool : list Assignment.t) (k idx : nat)
    (assignment_map : gmap nat Assignment.t) (a : Assignment.t) :
  index_map k pool assignment_map !! idx = Some a ->
  assignment_map !! idx = Some a
  \/ (k <= idx /\ pool !! (idx - k) = Some a /\ extractable a = true).
Proof.
  revert k assignment_map.
  induction pool as [|p pool IH]; intros k assignment_map; simpl.
  - auto.
  - intros Hl. apply IH in Hl. destruct Hl as [Hl|(Hle & Hl & Hx)].
    + destruct (extractable p) eqn:Hp; [|auto].
      destruct (decide (k = idx)) as [->|Hne].
      * rewrite lookup_insert_eq in Hl. injection Hl as ->.
        right. rewrite Nat.sub_diag. auto.
      * rewrite lookup_insert_ne in Hl by exact Hne. auto.
    + right. split; [lia|]. split; [|exact Hx].
      replace (idx - k) with (S (idx - S k)) by lia. exact Hl.
Qed.

Lemma scored_ids_sublist (pool : list Assignment.t) (similarities : list Q)
    (k : nat) :
  sublist (map Match.assignment_id (scored (S k) similarities (index_map 1 pool ∅)))
          (map Assignment.id (drop k pool)).
Proof.
  revert k. induction similarities as [|s rest IH]; intros k; simpl.
  - apply sublist_nil_l.
  - specialize (IH (S k)).
    assert (Hdrop : sublist (map Assignment.id (drop (S k) pool))
                            (map Assignment.id (drop k pool))).
    { apply sublist_map. replace (S k) with (k + 1) by lia.
      rewrite <- drop_drop. apply sublist_drop. }
    destruct (index_map 1 pool ∅ !! S k) as [a|] eqn:Hl; simpl.
    + apply index_map_lookup in Hl. destruct Hl as [Hl|(_ & Hl & _)].
      { rewrite lookup_empty in Hl. discriminate. }
      replace (S k - 1) with k in Hl by lia.
      destruct (Qltb 5 (s * 100)); simpl.
      * rewrite (drop_S _ _ _ Hl). simpl. apply sublist_skip. exact IH.
      * etransitivity; eassumption.
    + etransitivity; eassumption.
Qed.

Lemma jaccard_ids_sublist (target_words : gset pystr) (pool : list Assignment.t) :
  sublist (map Match.assignment_id (flat_map (jaccard_match target_words) pool))
          (map Assignment.id pool).
Proof.
  induction pool as [|a pool IH]; simpl; [constructor|].
  rewrite map_app. unfold jaccard_match at 1.
  destruct (convert_to_text _ _); simpl; [|apply sublist_cons, IH].
  destruct (jaccard _ _); simpl; [|apply sublist_cons, IH].
  destruct (Qltb 5 _); simpl; [apply sublist_skip, IH|apply sublist_cons, IH].
Qed.

Lemma tied_sublist (v : Q) (l : list Match.t) : sublist (tied v l) l.
Proof.
  induction l as [|m l IH]; simpl; [constructor|].
  destruct (Qeq_bool _ _); [apply sublist_skip|apply sublist_cons]; exact IH.
Qed.

Lemma compare_matches_descending (target_text : pystr)
    (pool : list Assignment.t) (refs quotes : bool) :
  descending (compare_matches target_text pool refs quotes).
Proof.
  unfold compare_matches.
  destruct (_ <=? 1)%nat; [constructor|].
  destruct (tfidf_cosine_similarity _); apply sort_by_similarity_descending.
Qed.

Lemma compare_matches_ties_in_pool_order (target_text : pystr)
    (pool : list Assignment.t) (refs quotes : bool) (v : Q) :
  sublist (map Match.assignment_id
             (tied v (compare_matches target_text pool refs quotes)))
          (map Assignment.id pool).
Proof.
  unfold compare_matches.
  destruct (_ <=? 1)%nat; [apply sublist_nil_l|].
  destruct (tfidf_cosine_similarity _) as [similarities|e];
    rewrite sort_by_similarity_stable.
  - etransitivity; [apply sublist_map, tied_sublist|].
    apply (scored_ids_sublist pool similarities 0).
  - etransitivity; [apply sublist_map, tied_sublist|].
    apply jaccard_ids_sublist.
Qed.

End Matches.

(** ** The report of a check *)

Section Report.
Context `{E : Externals}.

Lemma comparison_pool_eq (db : Database) (i : Z) (a : Assignment.t) :
  query_assignment db i = Some a ->
  comparison_pool db i = query_other_assignments db a i.
Proof. unfold comparison_pool. intros ->. reflexivity. Qed.

Lemma max_match_two_decimals (ms : list Match.t) :
  Forall (fun m => two_decimals (Match.similarity m)) ms ->
  two_decimals (py_max (map Match.similarity ms) 0).
Proof.
  intros Hall. apply py_max_two_decimals.
  induction Hall; simpl; constructor; assumption.
Qed.

(** C1 (as the code has it): when the comparison pool is not empty, the
    report passes exactly when the largest similarity among its matches is
    strictly below the threshold, so a score equal to the threshold fails;
    when the pool is empty the report passes whatever the threshold. *)
Theorem C1_passed_iff_strictly_below_threshold (assignment_id : Z)
    (refs quotes : bool) (w w' : World) (r : Report.t) :
  check_plagiarism assignment_id refs quotes w = (Ok r, w') ->
  (comparison_pool (session w) assignment_id <> [] ->
   (Report.passed r = true <-> (max_match r < Report.threshold r)%Q)
   /\ ((max_match r == Report.threshold r)%Q -> Report.passed r = false))
  /\ (comparison_pool (session w) assignment_id = [] ->
      Report.passed r = true /\ max_match r = 0%Q).
Proof.
  intros Hrun. apply check_plagiarism_ok in Hrun.
  destruct Hrun as (a & Hq & Hcases). rewrite (comparison_pool_eq _ _ _ Hq).
  cbv zeta in Hcases.
  destruct Hcases as [(Hpool & -> & _)|(Hpool & raw & sources & _ & Hr)].
  - split; [intros Hne; destruct (Hne Hpool)|].
    intros _. split; reflexivity.
  - cbv zeta in Hr. destruct Hr as [-> _].
    split; [|intros Hnil; destruct (Hpool Hnil)].
    intros _. unfold max_match. simpl. split; [apply Qltb_lt|].
    intros Heq. apply Qltb_ge. rewrite Heq. apply Qle_refl.
Qed.

(** C2: the plagiarism percentage of a report is the largest similarity
    among its matches, and 0 when it has none. *)
Theorem C2_percentage_is_largest_match (assignment_id : Z)
    (refs quotes : bool) (w w' : World) (r : Report.t) :
  check_plagiarism assignment_id refs quotes w = (Ok r, w') ->
  (Report.plagiarism_percentage r == max_match r)%Q
  /\ (Report.matches r = [] -> (Report.plagiarism_percentage r == 0)%Q)
  /\ (Report.matches r <> [] ->
      (exists m, In m (Report.matches r)
                 /\ (Report.plagiarism_percentage r == Match.similarity m)%Q)
      /\ Forall (fun m => (Match.similarity m <= Report.plagiarism_percentage r)%Q)
                (Report.matches r)).
Proof.
  intros Hrun. apply check_plagiarism_ok in Hrun.
  destruct Hrun as (a & Hq & Hcases). cbv zeta in Hcases.
  assert (Hmax : (Report.plagiarism_percentage r == max_match r)%Q).
  { destruct Hcases as [(_ & -> & _)|(_ & raw & sources & _ & Hr)].
    - reflexivity.
    - cbv zeta in Hr. destruct Hr as [-> _]. unfold max_match. simpl.
      apply round2_two_decimals, max_match_two_decimals,
        compare_matches_two_decimals. }
  split; [exact Hmax|]. unfold max_match in Hmax.
  destruct (py_max_spec (map Match.similarity (Report.matches r)) 0)
    as [(Hnil & Hd)|(Hne & Hin & Hall)].
  - split.
    + intros _. rewrite Hmax, Hd. reflexivity.
    + intros Hms. destruct (Report.matches r); [destruct Hms; reflexivity|discriminate].
  - split.
    + intros Hms. rewrite Hms in Hne. destruct Hne. reflexivity.
    + intros _. split.
      * apply in_map_iff in Hin. destruct Hin as (m & Hm & Hin).
        exists m. split; [exact Hin|]. rewrite Hmax, Hm. reflexivity.
      * apply Forall_forall. intros m Hm. rewrite Forall_forall in Hall.
        rewrite Hmax. apply Hall. apply list_elem_of_In, in_map.
        apply list_elem_of_In. exact Hm.
Qed.

(** C3: with an empty comparison pool and a commit that succeeds, the check
    returns a report with percentage 0, no match, passed, no external source;
    the only effect is the commit (no search is made), after which the
    target row carries the report and the status Checked. *)
Theorem C3_empty_pool_report (assignment_id : Z) (refs quotes : bool)
    (w : World) (a : Assignment.t) :
  query_assignment (session w) assignment_id = Some a ->
  comparison_pool (session w) assignment_id = [] ->
  db_commit (persist w (checked a (empty_report a (query_threshold (session w) a)) 0))
  = None ->
  exists r w',
    check_plagiarism assignment_id refs quotes w = (Ok r, w')
    /\ Report.plagiarism_percentage r = 0%Q
    /\ Report.matches r = []
    /\ Report.passed r = true
    /\ Report.external_sources r = []
    /\ trace w' = trace w ++ [EvCommit]
    /\ exists a',
        query_assignment (committed w') assignment_id = Some a'
        /\ Assignment.plagiarism_report a' = Some r
        /\ Assignment.status a' = Checked.
Proof.
  intros Hq Hpool Hcommit. rewrite (comparison_pool_eq _ _ _ Hq) in Hpool.
  eexists (empty_report a (query_threshold (session w) a)), _. split.
  - unfold check_plagiarism, _create_empty_report.
    unfold mbind, M_bind, mret, M_ret, bind, ret, raise, lift, try_except,
      emit, query, commit, rollback, write_row.
    rewrite Hq, Hpool. simpl. unfold persist in Hcommit. rewrite Hcommit.
    reflexivity.
  - simpl. repeat split.
    exists (checked a (empty_report a (query_threshold (session w) a)) 0).
    split; [|split; reflexivity].
    apply (query_persisted w assignment_id a); [exact Hq|reflexivity].
Qed.

Lemma format_2f_comp (q q' : Q) : (q == q')%Q -> format_2f q = format_2f q'.
Proof.
  intros Heq. unfold format_2f.
  rewrite (round_half_even_comp (q * 100) (q' * 100)); [reflexivity|].
  rewrite Heq. reflexivity.
Qed.

(** C5 (as the code has it): after a check over a non-empty pool, a
    percentage at or above the threshold leaves the target with total marks
    100, obtained marks 0, the auto-graded flag and the comment that quotes
    the percentage, and a percentage below the threshold leaves the four
    grading fields as they were; a check over an empty pool never touches
    them. *)
Theorem C5_auto_grade_policy (assignment_id : Z) (refs quotes : bool)
    (w w' : World) (r : Report.t) :
  check_plagiarism assignment_id refs quotes w = (Ok r, w') ->
  exists a a',
    query_assignment (session w) assignment_id = Some a
    /\ query_assignment (committed w') assignment_id = Some a'
    /\ (comparison_pool (session w) assignment_id <> [] ->
        ((Report.threshold r <= Report.plagiarism_percentage r)%Q ->
         grading a'
         = (Some 100%Z, Some 0%Z, true,
            Some (u "Automatic Grade: 0 (Plagiarism detected: "
                  ++ format_2f (Report.plagiarism_percentage r) ++ u "%)")))
        /\ ((Report.plagiarism_percentage r < Report.threshold r)%Q ->
            grading a' = grading a))
    /\ (comparison_pool (session w) assignment_id = [] ->
        grading a' = grading a).
Proof.
  intros Hrun. apply check_plagiarism_ok in Hrun.
  destruct Hrun as (a & Hq & Hcases). rewrite (comparison_pool_eq _ _ _ Hq).
  cbv zeta in Hcases. exists a.
  destruct Hcases as [(Hpool & Hr & Hcom & _)|(Hpool & raw & sources & _ & Hr)].
  - eexists. split; [exact Hq|]. split.
    { rewrite Hcom. apply (query_persisted w assignment_id a); [exact Hq|reflexivity]. }
    split; [intros Hne; destruct (Hne Hpool)|]. intros _. reflexivity.
  - cbv zeta in Hr. destruct Hr as [Hr Hcom].
    set (ms := compare_matches (preprocess_document raw refs quotes)
                 (query_other_assignments (session w) a assignment_id)
                 refs quotes) in *.
    set (S := py_max (map Match.similarity ms) 0) in *.
    assert (HS : (round2 S == S)%Q).
    { apply round2_two_decimals, max_match_two_decimals,
        compare_matches_two_decimals. }
    eexists. split; [exact Hq|]. split.
    { rewrite Hcom. apply (query_persisted w assignment_id a); [exact Hq|].
      unfold graded. destruct (Qle_bool _ _); reflexivity. }
    split; [|intros Hnil; destruct (Hpool Hnil)].
    intros _. rewrite Hr. simpl Report.threshold.
    simpl Report.plagiarism_percentage. split.
    + intros Hge. rewrite HS in Hge. apply Qle_bool_iff in Hge.
      unfold graded. rewrite Hge. unfold grading. simpl.
      rewrite (format_2f_comp _ _ HS). reflexivity.
    + intros Hlt. rewrite HS in Hlt. apply Qltb_lt in Hlt.
      unfold Qltb in Hlt. apply negb_true_iff in Hlt.
      unfold graded. rewrite Hlt. reflexivity.
Qed.

(** C6 (as the code has it): the matches of a report are in descending
    order of similarity, and matches of equal similarity stand in the order
    of their peers in the comparison pool. *)
Theorem C6_matches_sorted_ties_in_pool_order (assignment_id : Z)
    (refs quotes : bool) (w w' : World) (r : Report.t) :
  check_plagiarism assignment_id refs quotes w = (Ok r, w') ->
  descending (Report.matches r)
  /\ forall v : Q,
      sublist (map Match.assignment_id (tied v (Report.matches r)))
              (map Assignment.id (comparison_pool (session w) assignment_id)).
Proof.
  intros Hrun. apply check_plagiarism_ok in Hrun.
  destruct Hrun as (a & Hq & Hcases). rewrite (comparison_pool_eq _ _ _ Hq).
  cbv zeta in Hcases.
  destruct Hcases as [(Hpool & -> & _)|(Hpool & raw & sources & _ & Hr)].
  - split; [constructor|]. intros v. apply sublist_nil_l.
  - cbv zeta in Hr. destruct Hr as [-> _]. simpl. split.
    + apply compare_matches_descending.
    + intros v. apply compare_matches_ties_in_pool_order.
Qed.

End Report.

(** ** Concrete checks *)


Lemma C1_witness :
  exists r w',
    check_plagiarism (E := by_fallback) 1 false false tie_world = (Ok r, w')
    /\ (Report.passed r = true <-> (max_match r < Report.threshold r)%Q).
Proof.
  destruct (check_plagiarism (E := by_fallback) 1 false false tie_world)
    as [[r|e] w'] eqn:Hrun.
  - exists r, w'. split; [reflexivity|].
    apply (C1_passed_iff_strictly_below_threshold (E := by_fallback)
             1 false false tie_world w' r Hrun).
    vm_compute. discriminate.
  - vm_compute in Hrun. discriminate Hrun.
Defined.

(** C1 (as the specification words it) fails: a lone submission in a course
    whose threshold is 0 gets a report with score 0, equal to the threshold,
    and passes. *)
Lemma C1_counterexample :
  exists r w',
    check_plagiarism (E := by_fallback) 1 false false lone_world = (Ok r, w')
    /\ (max_match r == Report.threshold r)%Q
    /\ (Report.plagiarism_percentage r == Report.threshold r)%Q
    /\ Report.passed r = true
    /\ ~ (Report.passed r = true <-> (max_match r < Report.threshold r)%Q).
Proof.
  eexists _, _. split; [vm_compute; reflexivity|].
  split; [reflexivity|]. split; [reflexivity|]. split; [reflexivity|].
  intros [Hlt _]. specialize (Hlt eq_refl). vm_compute in Hlt. discriminate Hlt.
Qed.

Lemma C2_witness :
  exists r w',
    check_plagiarism (E := by_fallback) 1 false false tie_world = (Ok r, w')
    /\ (Report.plagiarism_percentage r == max_match r)%Q
    /\ (Report.plagiarism_percentage r == 75)%Q.
Proof.
  destruct (check_plagiarism (E := by_fallback) 1 false false tie_world)
    as [[r|e] w'] eqn:Hrun.
  - exists r, w'. split; [reflexivity|]. split.
    + apply (C2_percentage_is_largest_match (E := by_fallback)
               1 false false tie_world w' r Hrun).
    + vm_compute in Hrun. injection Hrun as <- _. reflexivity.
  - vm_compute in Hrun. discriminate Hrun.
Defined.

Lemma C3_witness :
  exists r w',
    check_plagiarism (E := by_fallback) 1 false false lone_world = (Ok r, w')
    /\ Report.plagiarism_percentage r = 0%Q
    /\ Report.matches r = []
    /\ Report.passed r = true
    /\ Report.external_sources r = []
    /\ trace w' = [EvCommit].
Proof.
  destruct (C3_empty_pool_report (E := by_fallback) 1 false false lone_world
              (submission 1 "a.txt" "alpha beta gamma")
              eq_refl eq_refl eq_refl)
    as (r & w' & Hrun & Hpct & Hms & Hpass & Hext & Htrace & _).
  exists r, w'. repeat split; assumption.
Defined.

Lemma C5_witness :
  exists r w' a',
    check_plagiarism (E := by_fallback) 1 false false tie_world = (Ok r, w')
    /\ query_assignment (committed w') 1 = Some a'
    /\ Assignment.totalmarks a' = Some 100%Z
    /\ Assignment.obtmarks a' = Some 0%Z
    /\ Assignment.auto_graded a' = true
    /\ Assignment.comment a'
       = Some (u "Automatic Grade: 0 (Plagiarism detected: 75.00%)").
Proof.
  destruct (check_plagiarism (E := by_fallback) 1 false false tie_world)
    as [[r|e] w'] eqn:Hrun.
  - destruct (C5_auto_grade_policy (E := by_fallback)
                1 false false tie_world w' r Hrun)
      as (a & a' & Hq & Hq' & Hfull & _).
    exists r, w', a'. split; [reflexivity|]. split; [exact Hq'|].
    destruct Hfull as [Hgrade _]; [vm_compute; discriminate|].
    vm_compute in Hrun. injection Hrun as <- _.
    specialize (Hgrade ltac:(vm_compute; discriminate)).
    injection Hgrade as -> -> -> ->. repeat split.
  - vm_compute in Hrun. discriminate Hrun.
Defined.

(** The other side of C5: under a threshold that is not reached the
    grading fields stay as they were. *)
Example lenient_check_keeps_grading :
  exists r w' a',
    check_plagiarism (E := by_fallback) 1 false false lenient_world = (Ok r, w')
    /\ Report.passed r = true
    /\ query_assignment (committed w') 1 = Some a'
    /\ grading a' = (None, None, false, None).
Proof. eexists _, _, _. split; [vm_compute; reflexivity|]. repeat split. Qed.

(** C5 (as the specification words it) fails: the lone submission of a
    course whose threshold is 0 has a percentage that reaches the threshold,
    and its grading fields are left alone. *)
Lemma C5_counterexample :
  exists r w' a',
    check_plagiarism (E := by_fallback) 1 false false lone_world = (Ok r, w')
    /\ (Report.threshold r <= Report.plagiarism_percentage r)%Q
    /\ query_assignment (committed w') 1 = Some a'
    /\ Assignment.totalmarks a' = None
    /\ Assignment.obtmarks a' = None
    /\ Assignment.auto_graded a' = false
    /\ Assignment.comment a' = None.
Proof.
  eexists _, _, _. split; [vm_compute; reflexivity|].
  split; [vm_compute; discriminate|]. repeat split.
Qed.

Lemma C6_witness :
  exists r w',
    check_plagiarism (E := by_fallback) 1 false false tie_world = (Ok r, w')
    /\ descending (Report.matches r)
    /\ sublist (map Match.assignment_id (tied 75 (Report.matches r))) [7; 3]%Z.
Proof.
  destruct (check_plagiarism (E := by_fallback) 1 false false tie_world)
    as [[r|e] w'] eqn:Hrun.
  - destruct (C6_matches_sorted_ties_in_pool_order (E := by_fallback)
                1 false false tie_world w' r Hrun) as [Hdesc Hties].
    exists r, w'. split; [reflexivity|]. split; [exact Hdesc|].
    exact (Hties 75%Q).
  - vm_compute in Hrun. discriminate Hrun.
Defined.

(** C6 (as the specification words it) fails: two peers with the same
    similarity are reported in the order of the pool, the row 7 before the
    row 3, whether the primary engine scores them or the fallback does. *)
Lemma C6_counterexample :
  (exists r w',
      check_plagiarism (E := by_tfidf) 1 false false tie_world = (Ok r, w')
      /\ map Match.assignment_id (Report.matches r) = [7; 3]%Z
      /\ map Match.similarity (Report.matches r) = [10000 # 100; 10000 # 100]%Q)
  /\ (exists r w',
        check_plagiarism (E := by_fallback) 1 false false tie_world = (Ok r, w')
        /\ map Match.assignment_id (Report.matches r) = [7; 3]%Z
        /\ map Match.similarity (Report.matches r) = [7500 # 100; 7500 # 100]%Q).
Proof.
  split; (eexists _, _; split; [vm_compute; reflexivity|]); split; reflexivity.
Qed.

(** ** Degraded runs *)

Section Degraded.
Context `{E : Externals}.

(** X28: The fallback runs exactly when the primary engine raises: on a corpus of
    at least one peer text, a score list is turned into matches directly,
    and an exception hands the target text and the pool to
    [_fallback_comparison]. *)
Lemma compare_falls_back_iff_tfidf_fails (target_text : pystr)
    (pool : list Assignment.t) (refs quotes : bool) (w : World) :
  prepared_corpus refs quotes pool <> [] ->
  let documents := target_text :: prepared_corpus refs quotes pool in
  (forall similarities,
      tfidf_cosine_similarity documents = Ok similarities ->
      fst (_compare_with_assignments target_text pool refs quotes w)
      = Ok (sort_by_similarity (tfidf_matches similarities (index_map 1 pool ∅))))
  /\ (forall e,
        tfidf_cosine_similarity documents = Raise e ->
        exists w1,
          same_data w w1
          /\ _compare_with_assignments target_text pool refs quotes w
             = _fallback_comparison target_text pool w1).
Proof.
  intros Hne documents. unfold _compare_with_assignments.
  destruct (assemble_corpus_spec pool 1 refs quotes [target_text] ∅ w)
    as (w1 & Hrun & Hsame).
  unfold mbind, M_bind, mret, M_ret, bind, ret, raise, lift, try_except, emit.
  rewrite Hrun.
  change ([target_text] ++ prepared_corpus refs quotes pool) with documents.
  assert (Hlen : (length documents <=? 1) = false).
  { apply Nat.leb_gt. unfold documents. simpl.
    destruct (prepared_corpus refs quotes pool); [destruct Hne; reflexivity|].
    simpl. lia. }
  rewrite Hlen. split.
  - intros similarities ->. reflexivity.
  - intros e ->. eexists. split; [|reflexivity].
    destruct Hsame as [H1 H2]. split; assumption.
Qed.

(** The fallback scores each peer on its text normalized without any
    exclusion, whatever flags the check was asked for. *)
Lemma fallback_comparison_spec (target_text : pystr)
    (pool : list Assignment.t) (w : World) :
  fst (_fallback_comparison target_text pool w)
  = Ok (sort_by_similarity
          (flat_map (jaccard_match (get_word_set target_text)) pool)).
Proof.
  unfold _fallback_comparison.
  destruct (fallback_loop_spec pool (get_word_set target_text) [] w)
    as (w' & Hrun & _).
  unfold mbind, M_bind, mret, M_ret, bind, ret. rewrite Hrun. reflexivity.
Qed.

(** The slip behind C7, for any engine: when the first of two peers cannot
    be read, the single score the engine returns for the second is looked up
    under the position of the first and dropped; with the readable peer
    alone the same score makes a match. *)
Lemma unreadable_first_peer_drops_the_score (target_text text : pystr)
    (bad good : Assignment.t) (refs quotes : bool) (s : Q) :
  extractable bad = false ->
  prepared_text refs quotes good = Some text ->
  tfidf_cosine_similarity [target_text; text] = Ok [s] ->
  compare_matches target_text [bad; good] refs quotes = []
  /\ ((5 < s * 100)%Q ->
      compare_matches target_text [good] refs quotes
      = [match_of good (round2 (s * 100))]).
Proof.
  intros Hbad Hgood Hs.
  assert (Hnone : prepared_text refs quotes bad = None).
  { revert Hbad. unfold prepared_text, extractable.
    destruct (convert_to_text _ _); [discriminate|reflexivity]. }
  assert (Hx : extractable good = true).
  { revert Hgood. unfold prepared_text, extractable.
    destruct (convert_to_text _ _); [reflexivity|discriminate]. }
  unfold compare_matches, prepared_corpus. simpl.
  rewrite Hnone, Hgood, Hbad, Hx. simpl. rewrite Hs. simpl. split.
  - rewrite lookup_insert_ne by lia. rewrite lookup_empty. reflexivity.
  - intros Hlt. rewrite lookup_insert_eq. apply Qltb_lt in Hlt.
    rewrite Hlt. reflexivity.
Qed.

Lemma prepared_corpus_length (pool : list Assignment.t)
    (refs quotes refs' quotes' : bool) :
  length (prepared_corpus refs quotes pool)
  = length (prepared_corpus refs' quotes' pool).
Proof.
  unfold prepared_corpus, prepared_text.
  induction pool as [|a pool IH]; simpl; [reflexivity|].
  destruct (convert_to_text _ _); simpl; [f_equal|]; exact IH.
Qed.

(** On the fallback path the requested flags have no influence on how the
    peers are scored. *)
Lemma fallback_result_ignores_the_flags (target_text : pystr)
    (pool : list Assignment.t) (refs quotes refs' quotes' : bool) (e e' : PyExc) :
  tfidf_cosine_similarity (target_text :: prepared_corpus refs quotes pool)
  = Raise e ->
  tfidf_cosine_similarity (target_text :: prepared_corpus refs' quotes' pool)
  = Raise e' ->
  compare_matches target_text pool refs quotes
  = compare_matches target_text pool refs' quotes'.
Proof.
  intros He He'. unfold compare_matches. rewrite He, He'.
  simpl length. rewrite (prepared_corpus_length pool refs quotes refs' quotes').
  reflexivity.
Qed.

(** X29: With the search module installed no failure of the search reaches the
    caller: the sources are those found, or none when the search raised. *)
Lemma advisor_failures_are_absorbed
    (search : pystr -> result (list SearchResult.t)) (text : pystr) (w : World) :
  googlesearch = Some search ->
  (forall results, search text = Ok results ->
     fst (_check_external_sources text w) = Ok (map source_of results))
  /\ (forall e, search text = Raise e ->
        fst (_check_external_sources text w) = Ok []).
Proof.
  intros Hmod.
  destruct (check_external_sources_installed search text w Hmod)
    as (w' & Hrun & _).
  rewrite Hrun. split; [intros results ->|intros e ->]; reflexivity.
Qed.

(** X27: A check over a non-empty pool completes whenever the target can be
    extracted, the search module is installed and the commit succeeds:
    neither the peers, nor the primary engine, nor the search can make it
    fail. *)
Lemma check_completes (assignment_id : Z) (refs quotes : bool) (w : World)
    (a : Assignment.t) (raw : pystr)
    (search : pystr -> result (list SearchResult.t)) :
  query_assignment (session w) assignment_id = Some a ->
  comparison_pool (session w) assignment_id <> [] ->
  convert_to_text (Assignment.file_data a) (Assignment.filename a) = Ok raw ->
  googlesearch = Some search ->
  (forall db, db_commit db = None) ->
  exists r w',
    check_plagiarism assignment_id refs quotes w = (Ok r, w')
    /\ Report.matches r
       = compare_matches (preprocess_document raw refs quotes)
           (comparison_pool (session w) assignment_id) refs quotes
    /\ Report.external_sources r
       = match search raw with
         | Ok results => map source_of results
         | Raise _ => []
         end.
Proof.
  intros Hq Hpool Hraw Hmod Hcommit.
  rewrite (comparison_pool_eq _ _ _ Hq) in *.
  unfold check_plagiarism.
  unfold mbind, M_bind, mret, M_ret, bind, ret, raise, lift, try_except,
    query, commit, write_row.
  rewrite Hq, Hraw.
  destruct (query_other_assignments (session w) a assignment_id)
    as [|p pool] eqn:Hp; [destruct Hpool; reflexivity|].
  destruct (compare_with_assignments_spec
              (preprocess_document raw refs quotes) (p :: pool) refs quotes w)
    as (w1 & Hcmp & _).
  rewrite Hcmp.
  destruct (check_external_sources_installed search raw w1 Hmod)
    as (w2 & Hadv & _).
  rewrite Hadv. simpl. rewrite Hcommit. eexists _, _.
  split; [reflexivity|]. split; reflexivity.
Qed.

(** C8: without the googlesearch package the lookup raises
    [UnboundLocalError] to its caller, and a check over a non-empty pool
    fails with [PlagiarismCheckError]; the rows are rolled back, no report is
    persisted. *)
Theorem C8_missing_search_module_aborts_the_check (assignment_id : Z)
    (refs quotes : bool) (w : World) (a : Assignment.t) (raw : pystr) :
  googlesearch = None ->
  query_assignment (session w) assignment_id = Some a ->
  comparison_pool (session w) assignment_id <> [] ->
  convert_to_text (Assignment.file_data a) (Assignment.filename a) = Ok raw ->
  fst (_check_external_sources raw w)
  = Raise (Exc UnboundLocalError (u "RemoteDisconnected"))
  /\ exists w',
      check_plagiarism assignment_id refs quotes w
      = (Raise (HTTPExcFrom PlagiarismCheckError []
                  (Exc UnboundLocalError (u "RemoteDisconnected"))), w')
      /\ committed w' = committed w
      /\ session w' = committed w.
Proof.
  intros Hmod Hq Hpool Hraw.
  split; [rewrite (check_external_sources_missing raw w Hmod); reflexivity|].
  rewrite (comparison_pool_eq _ _ _ Hq) in *.
  unfold check_plagiarism.
  unfold mbind, M_bind, mret, M_ret, bind, ret, raise, lift, try_except,
    query, commit, write_row, emit, rollback.
  rewrite Hq, Hraw.
  destruct (query_other_assignments (session w) a assignment_id)
    as [|p pool] eqn:Hp; [destruct Hpool; reflexivity|].
  destruct (compare_with_assignments_spec
              (preprocess_document raw refs quotes) (p :: pool) refs quotes w)
    as (w1 & Hcmp & [Hc1 _]).
  rewrite Hcmp, (check_external_sources_missing raw w1 Hmod). simpl.
  eexists. split; [reflexivity|]. simpl. split; [exact Hc1|exact Hc1].
Qed.

End Degraded.

Lemma C8_witness :
  exists w',
    check_plagiarism (E := without_search) 1 false false tie_world
    = (Raise (HTTPExcFrom PlagiarismCheckError []
                (Exc UnboundLocalError (u "RemoteDisconnected"))), w')
    /\ committed w' = committed tie_world.
Proof.
  destruct (C8_missing_search_module_aborts_the_check (E := without_search)
              1 false false tie_world
              (submission 1 "a.txt" "alpha beta gamma") (u "alpha beta gamma")
              eq_refl eq_refl ltac:(vm_compute; discriminate) eq_refl)
    as (_ & w' & Hrun & Hcommitted & _).
  exists w'. split; assumption.
Defined.

(** The part of C8 that holds: a search that loses its connection leaves
    the report without external sources, and the report is persisted. *)
Example broken_search_is_absorbed :
  exists r w' a',
    check_plagiarism (E := with_broken_search) 1 false false tie_world = (Ok r, w')
    /\ Report.external_sources r = []
    /\ query_assignment (committed w') 1 = Some a'
    /\ Assignment.plagiarism_report a' = Some r.
Proof. eexists _, _, _. split; [vm_compute; reflexivity|]. repeat split. Qed.

(** C7: the peer 2 cannot be read (its file is no PDF) and the peer 3 is a
    copy of the target.
    The primary path scores the copy (cosine 1) but looks the score up under
    the position 1, which the unreadable peer left empty: the report has no
    match and passes.  Without the unreadable peer the copy is reported at
    100 percent and the report fails, which is also what the fallback path
    reports for the pool at hand. *)
Theorem C7_unreadable_peer_hides_a_copy :
  (exists r w',
      check_plagiarism (E := by_tfidf) 1 false false shifted_world = (Ok r, w')
      /\ Report.matches r = []
      /\ Report.plagiarism_percentage r = (0 # 100)%Q
      /\ Report.passed r = true)
  /\ (exists r w',
        check_plagiarism (E := by_tfidf) 1 false false readable_world = (Ok r, w')
        /\ map Match.assignment_id (Report.matches r) = [3%Z]
        /\ map Match.similarity (Report.matches r) = [10000 # 100]%Q
        /\ Report.passed r = false)
  /\ (exists r w',
        check_plagiarism (E := by_fallback) 1 false false shifted_world = (Ok r, w')
        /\ map Match.assignment_id (Report.matches r) = [3%Z]
        /\ map Match.similarity (Report.matches r) = [10000 # 100]%Q
        /\ Report.passed r = false).
Proof.
  repeat split;
    (eexists _, _; split; [vm_compute; reflexivity|]); repeat split.
Qed.

(** C4: exclusion of quotes is requested; target and peer are stop words
    only, so the primary engine fails and the fallback runs.  Under the flag
    the prepared peer text equals the target text (Jaccard 100), but the
    fallback extracts the peer again and normalizes it without the flag: the
    quoted words count and the reported similarity is 50. *)
Theorem C4_fallback_ignores_the_exclusion_flags :
  prepared_corpus (E := by_fallback) false true
    (comparison_pool (session quote_world) 1) = [u "the and of"]
  /\ match jaccard (get_word_set (E := by_fallback) (u "the and of"))
                   (get_word_set (E := by_fallback) (u "the and of")) with
     | Some similarity => (similarity == 100)%Q
     | None => False
     end
  /\ exists r w',
      check_plagiarism (E := by_fallback) 1 false true quote_world = (Ok r, w')
      /\ map Match.assignment_id (Report.matches r) = [2%Z]
      /\ map Match.similarity (Report.matches r) = [5000 # 100]%Q.
Proof.
  split; [vm_compute; reflexivity|]. split; [vm_compute; reflexivity|].
  eexists _, _. split; [vm_compute; reflexivity|]. split; reflexivity.
Qed.

(** * Further properties of the code *)

(** ** Stripping *)

Lemma lstrip_head (s : pystr) (c : N) :
  head (lstrip s) = Some c -> isspace c = false.
Proof.
  induction s as [|x s IH]; simpl; [discriminate|].
  destruct (isspace x) eqn:Hx; [exact IH|].
  simpl. intros [= <-]. exact Hx.
Qed.

Lemma lstrip_snoc (s : pystr) (c : N) :
  isspace c = false -> lstrip (s ++ [c]) = lstrip s ++ [c].
Proof.
  intros Hc. induction s as [|x s IH]; simpl.
  - rewrite Hc. reflexivity.
  - destruct (isspace x); [exact IH|reflexivity].
Qed.

Lemma lstrip_suffix (s : pystr) :
  exists pre, s = pre ++ lstrip s /\ forallb isspace pre = true.
Proof.
  induction s as [|x s (pre & Hs & Hpre)]; simpl.
  - exists []. split; reflexivity.
  - destruct (isspace x) eqn:Hx.
    + exists (x :: pre). simpl. rewrite Hx, Hpre. split; [f_equal; exact Hs|reflexivity].
    + exists []. split; reflexivity.
Qed.

Lemma last_rev {A} (l : list A) : last (rev l) = head l.
Proof. destruct l as [|x l]; [reflexivity|]. simpl. apply last_snoc. Qed.

Lemma head_rev {A} (l : list A) : head (rev l) = last l.
Proof. rewrite <- (rev_involutive l) at 2. symmetry. apply last_rev. Qed.

Lemma rstrip_cons (c : N) (s : pystr) :
  isspace c = false -> rstrip (c :: s) = c :: rstrip s.
Proof.
  intros Hc. unfold rstrip. simpl. rewrite (lstrip_snoc _ _ Hc), rev_app_distr.
  reflexivity.
Qed.

Lemma rstrip_last (s : pystr) (c : N) :
  last (rstrip s) = Some c -> isspace c = false.
Proof. unfold rstrip. rewrite last_rev. apply lstrip_head. Qed.

Lemma rstrip_prefix (s : pystr) :
  exists post, s = rstrip s ++ post /\ forallb isspace post = true.
Proof.
  destruct (lstrip_suffix (rev s)) as (pre & Hs & Hpre).
  exists (rev pre). split.
  - unfold rstrip. rewrite <- rev_app_distr, <- Hs, rev_involutive. reflexivity.
  - rewrite forallb_forall in *. intros x Hx. apply Hpre, in_rev, Hx.
Qed.

(** [strip] leaves a text without leading or trailing whitespace. *)
Lemma strip_trimmed (s : pystr) : trimmed (strip s).
Proof.
  unfold trimmed, strip. intros c [Hh|Hl]; [|exact (rstrip_last _ _ Hl)].
  destruct (lstrip s) as [|x t] eqn:Ht; [discriminate|].
  assert (Hx : isspace x = false) by (apply (lstrip_head s); rewrite Ht; reflexivity).
  rewrite (rstrip_cons _ _ Hx) in Hh. injection Hh as <-. exact Hx.
Qed.

(** [strip] removes whitespace at both ends and nothing else. *)
Lemma strip_infix (s : pystr) :
  exists pre post,
    s = pre ++ strip s ++ post
    /\ forallb isspace pre = true /\ forallb isspace post = true.
Proof.
  destruct (lstrip_suffix s) as (pre & Hs & Hpre).
  destruct (rstrip_prefix (lstrip s)) as (post & Hl & Hpost).
  exists pre, post. unfold strip. rewrite <- Hl. auto.
Qed.

Lemma strip_sublist (s : pystr) : sublist (strip s) s.
Proof.
  destruct (strip_infix s) as (pre & post & Hs & _).
  rewrite Hs at 2. apply sublist_inserts_l, sublist_inserts_r. reflexivity.
Qed.

Lemma strip_trimmed_id (s : pystr) : trimmed s -> strip s = s.
Proof.
  intros Ht. unfold strip.
  assert (Hl : lstrip s = s).
  { destruct s as [|c s]; [reflexivity|]. simpl.
    rewrite (Ht c); [reflexivity|]. left. reflexivity. }
  rewrite Hl. unfold rstrip.
  assert (Hr : lstrip (rev s) = rev s).
  { destruct (rev s) as [|c r] eqn:Hrev; [reflexivity|]. simpl.
    rewrite (Ht c); [reflexivity|]. right. rewrite <- head_rev, Hrev. reflexivity. }
  rewrite Hr. apply rev_involutive.
Qed.

(** ** The rest of the text extractor *)

Section FileUtils.
Context `{E : Externals}.

Lemma after_last_split (c : N) (s : pystr) :
  contains c s = true ->
  exists stem, s = stem ++ c :: after_last c s
               /\ contains c (after_last c s) = false.
Proof.
  induction s as [|x s IH]; [discriminate|].
  unfold contains at 1. cbn [existsb after_last]. fold (contains c s).
  destruct (contains c s) eqn:Hcs.
  - intros _. destruct (IH eq_refl) as (stem & Hs & Hno).
    exists (x :: stem). simpl. rewrite <- Hs. auto.
  - rewrite orb_false_r. intros Hx. rewrite N.eqb_sym, Hx.
    apply N.eqb_eq in Hx. subst x. exists []. auto.
Qed.

(** X1: The extension is read after the last dot of the name: a name without
    a dot has the empty extension, and otherwise the name is a stem, a dot
    and a dot-free suffix, and the extension is the dot and the lower-cased
    suffix. *)
Theorem get_file_extension_splits_at_last_dot (filename : pystr) :
  (contains 46 filename = false -> get_file_extension filename = [])
  /\ (contains 46 filename = true ->
      exists stem suffix,
        filename = stem ++ u "." ++ suffix
        /\ contains 46 suffix = false
        /\ get_file_extension filename = u "." ++ lower suffix).
Proof.
  unfold get_file_extension. split; intros Hdot; rewrite Hdot; [reflexivity|].
  destruct (after_last_split _ _ Hdot) as (stem & Hs & Hno).
  exists stem, (after_last 46 filename). auto.
Qed.

Lemma ascii_lower_dot (x : N) : (ascii_lower x =? 46)%N = (x =? 46)%N.
Proof.
  unfold ascii_lower, ascii_isupper.
  destruct (65 <=? x)%N eqn:H1, (x <=? 90)%N eqn:H2; simpl; try reflexivity.
  apply N.leb_le in H1. apply N.leb_le in H2.
  transitivity false; [|symmetry]; apply N.eqb_neq; lia.
Qed.

Lemma contains_dot_lower (s : pystr) :
  contains 46 (map ascii_lower s) = contains 46 s.
Proof.
  unfold contains. induction s as [|x s IH]; [reflexivity|].
  cbn [map existsb]. rewrite IH, (N.eqb_sym 46), ascii_lower_dot, (N.eqb_sym x).
  reflexivity.
Qed.

Lemma after_last_lower (s : pystr) :
  after_last 46 (map ascii_lower s) = map ascii_lower (after_last 46 s).
Proof.
  induction s as [|x s IH]; [reflexivity|]. cbn [map after_last].
  rewrite contains_dot_lower, ascii_lower_dot, IH.
  destruct (contains 46 s); [reflexivity|]. destruct (x =? 46)%N; reflexivity.
Qed.

Lemma after_last_ascii (s : pystr) :
  forallb is_ascii s = true -> forallb is_ascii (after_last 46 s) = true.
Proof.
  induction s as [|x s IH]; [reflexivity|]. cbn [forallb after_last].
  intros [Hx Hs]%andb_prop. destruct (contains 46 s); [exact (IH Hs)|].
  destruct (x =? 46)%N; [exact Hs|reflexivity].
Qed.

Lemma ascii_lower_ascii (s : pystr) :
  forallb is_ascii s = true -> forallb is_ascii (map ascii_lower s) = true.
Proof.
  induction s as [|x s IH]; [reflexivity|]. simpl.
  intros [Hx Hs]%andb_prop. rewrite (IH Hs), andb_true_r.
  unfold is_ascii, ascii_lower, ascii_isupper in *.
  destruct (65 <=? x)%N eqn:H1, (x <=? 90)%N eqn:H2; simpl; try exact Hx.
  apply N.leb_le in H2. apply N.ltb_lt. lia.
Qed.

Lemma ascii_lower_idempotent (x : N) : ascii_lower (ascii_lower x) = ascii_lower x.
Proof.
  unfold ascii_lower. destruct (ascii_isupper x) eqn:Hx; [|rewrite Hx; reflexivity].
  unfold ascii_isupper in *. apply andb_prop in Hx. destruct Hx as [H1 H2].
  apply N.leb_le in H1. apply N.leb_le in H2.
  replace (x + 32 <=? 90)%N with false; [rewrite andb_false_r; reflexivity|].
  symmetry. apply N.leb_gt. lia.
Qed.

Lemma lower_ascii (s : pystr) :
  forallb is_ascii s = true -> lower s = map ascii_lower s.
Proof. intros Hs. unfold lower. rewrite Hs. reflexivity. Qed.

(** X2: The case of an ASCII file name is irrelevant: the name and its
    lower-cased form have the same extension, so the extractor treats them
    alike. *)
Theorem extension_ignores_ascii_case (filename : pystr) (file_data : bytes) :
  forallb is_ascii filename = true ->
  get_file_extension (map ascii_lower filename) = get_file_extension filename
  /\ convert_to_text file_data (map ascii_lower filename)
     = convert_to_text file_data filename.
Proof.
  intros Hascii.
  assert (Hext : get_file_extension (map ascii_lower filename)
                 = get_file_extension filename).
  { unfold get_file_extension. rewrite contains_dot_lower, after_last_lower.
    destruct (contains 46 filename); [|reflexivity]. f_equal.
    pose proof (after_last_ascii _ Hascii) as Hsuf.
    rewrite (lower_ascii _ (ascii_lower_ascii _ Hsuf)), (lower_ascii _ Hsuf).
    rewrite map_map. apply map_ext. intros x. apply ascii_lower_idempotent. }
  split; [exact Hext|]. unfold convert_to_text. rewrite Hext. reflexivity.
Qed.

Lemma validate_file_extension_spec (filename : pystr) :
  validate_file_extension filename = true
  <-> get_file_extension filename = u ".txt"
      \/ get_file_extension filename = u ".pdf"
      \/ get_file_extension filename = u ".docx".
Proof.
  unfold validate_file_extension, ALLOWED_EXTENSIONS.
  rewrite bool_decide_eq_true, !elem_of_union, !elem_of_singleton. tauto.
Qed.

(** X3: Upload validation and extraction agree on the extensions: a name that
    [validate_file_extension] rejects makes the extractor raise its
    unsupported-type error on any content, and for a name it accepts the
    only possible errors are conversion failures of a PDF or DOCX. *)
Theorem validated_extension_is_supported (filename : pystr) :
  (validate_file_extension filename = false ->
   forall file_data,
     convert_to_text file_data filename
     = Raise (HTTPExc FileUploadError
                (u "Unsupported file type: " ++ get_file_extension filename)))
  /\ (validate_file_extension filename = true ->
      forall file_data e,
        convert_to_text file_data filename = Raise e ->
        exists prefix cause,
          e = HTTPExcFrom FileUploadError prefix cause
          /\ (PdfReader file_data = Raise cause \/ Document file_data = Raise cause)).
Proof.
  split.
  - intros Hno file_data.
    assert (Hspec := validate_file_extension_spec filename).
    rewrite Hno in Hspec.
    unfold convert_to_text.
    destruct (pystr_eqb (get_file_extension filename) (u ".pdf")) eqn:Hpdf.
    { apply pystr_eqb_eq in Hpdf. destruct Hspec as [_ Hspec].
      discriminate Hspec. auto. }
    destruct (pystr_eqb (get_file_extension filename) (u ".docx")) eqn:Hdocx.
    { apply pystr_eqb_eq in Hdocx. destruct Hspec as [_ Hspec].
      discriminate Hspec. auto. }
    destruct (pystr_eqb (get_file_extension filename) (u ".txt")) eqn:Htxt.
    { apply pystr_eqb_eq in Htxt. destruct Hspec as [_ Hspec].
      discriminate Hspec. auto. }
    reflexivity.
  - intros Hyes file_data e. apply validate_file_extension_spec in Hyes.
    unfold convert_to_text.
    destruct (pystr_eqb (get_file_extension filename) (u ".pdf")) eqn:Hpdf.
    { unfold convert_pdf_to_text.
      destruct (PdfReader file_data) as [pages|cause] eqn:Hr; [discriminate|].
      intros [= <-]. eauto. }
    destruct (pystr_eqb (get_file_extension filename) (u ".docx")) eqn:Hdocx.
    { unfold convert_docx_to_text.
      destruct (Document file_data) as [pars|cause] eqn:Hr; [discriminate|].
      intros [= <-]. eauto. }
    destruct (pystr_eqb (get_file_extension filename) (u ".txt")) eqn:Htxt.
    { destruct (utf8_decode file_data); discriminate. }
    apply pystr_eqb_neq in Hpdf, Hdocx, Htxt.
    destruct Hyes as [H|[H|H]]; contradiction.
Qed.

(** X4: [process_upload] accepts a file exactly when its extension is allowed
    and its content has between 1 byte and 16 MiB, and then returns content
    and name unchanged; the extension is checked first, so a name with a
    wrong extension is refused as such whatever the content, and an empty
    file with an allowed extension is refused as empty. *)
Theorem process_upload_decision (set_order : gset pystr -> list pystr)
    (file : UploadFile.t) :
  (forall file_data filename,
      process_upload set_order file = Ok (file_data, filename)
      <-> validate_file_extension (UploadFile.filename file) = true
          /\ (0 < length (UploadFile.content file))%nat
          /\ (N.of_nat (length (UploadFile.content file)) <= 16777216)%N
          /\ file_data = UploadFile.content file
          /\ filename = UploadFile.filename file)
  /\ (validate_file_extension (UploadFile.filename file) = false ->
      process_upload set_order file
      = Raise (HTTPExc FileUploadError
                 (u "Invalid file type. Allowed types: "
                  ++ join (u ", ") (set_order ALLOWED_EXTENSIONS))))
  /\ (validate_file_extension (UploadFile.filename file) = true ->
      UploadFile.content file = [] ->
      process_upload set_order file
      = Raise (HTTPExc FileUploadError (u "File is empty"))).
Proof.
  unfold process_upload, validate_file_size, MAX_UPLOAD_SIZE.
  change (16 * 1024 * 1024)%N with 16777216%N.
  split; [|split].
  - intros file_data filename.
    destruct (validate_file_extension (UploadFile.filename file)); simpl.
    2: { split; [discriminate|]. intros [H _]. discriminate H. }
    destruct (N.of_nat (length (UploadFile.content file)) <=? 16777216)%N eqn:Hsize;
      simpl.
    2: { apply N.leb_gt in Hsize. split; [discriminate|].
         intros (_ & _ & Hle & _). lia. }
    apply N.leb_le in Hsize.
    destruct (UploadFile.content file) as [|b rest] eqn:Hc; simpl.
    + split; [discriminate|]. intros (_ & Hpos & _). simpl in Hpos. lia.
    + split.
      * intros [= <- <-]. repeat split; [simpl; lia|exact Hsize].
      * intros (_ & _ & _ & -> & ->). reflexivity.
  - intros ->. reflexivity.
  - intros -> ->. reflexivity.
Qed.

Lemma take_is_prefix {A} (p l : list A) :
  take (length p) l = p <-> exists rest, l = p ++ rest.
Proof.
  split.
  - intros Ht. exists (drop (length p) l). rewrite <- Ht at 1.
    symmetry. apply take_drop.
  - intros [rest ->]. apply take_app_length.
Qed.

(** X5: [validate_magic_bytes] holds exactly for a PDF name whose content
    starts with the five bytes %PDF-, a DOCX name whose content starts with
    the ZIP signature, and a TXT name whose content has at least four bytes;
    so every file of fewer than four bytes is refused, and only names with
    an allowed extension pass. *)
Theorem validate_magic_bytes_spec (file_data : bytes) (filename : pystr) :
  (validate_magic_bytes file_data filename = true
   <-> (get_file_extension filename = u ".pdf"
        /\ exists rest, file_data = txt "%PDF-" ++ rest)
       \/ (get_file_extension filename = u ".docx"
           /\ exists rest,
               file_data = [Byte.x50; Byte.x4b; Byte.x03; Byte.x04] ++ rest)
       \/ (get_file_extension filename = u ".txt"
           /\ (4 <= length file_data)%nat))
  /\ (validate_magic_bytes file_data filename = true ->
      validate_file_extension filename = true /\ (4 <= length file_data)%nat).
Proof.
  assert (Hiff : validate_magic_bytes file_data filename = true
   <-> (get_file_extension filename = u ".pdf"
        /\ exists rest, file_data = txt "%PDF-" ++ rest)
       \/ (get_file_extension filename = u ".docx"
           /\ exists rest,
               file_data = [Byte.x50; Byte.x4b; Byte.x03; Byte.x04] ++ rest)
       \/ (get_file_extension filename = u ".txt"
           /\ (4 <= length file_data)%nat)).
  { unfold validate_magic_bytes.
    destruct (length file_data <? 4)%nat eqn:Hlen.
    - apply Nat.ltb_lt in Hlen. split; [discriminate|].
      intros [(_ & rest & ->)|[(_ & rest & ->)|(_ & Hge)]];
        simpl in Hlen; lia.
    - apply Nat.ltb_ge in Hlen.
      destruct (pystr_eqb (get_file_extension filename) (u ".pdf")) eqn:Hpdf.
      { apply pystr_eqb_eq in Hpdf. rewrite bool_decide_eq_true.
        rewrite (take_is_prefix (txt "%PDF-") file_data). split.
        - intros H. left. auto.
        - intros [(_ & H)|[(H & _)|(H & _)]]; [exact H| |];
            rewrite Hpdf in H; discriminate H. }
      destruct (pystr_eqb (get_file_extension filename) (u ".docx")) eqn:Hdocx.
      { apply pystr_eqb_eq in Hdocx. apply pystr_eqb_neq in Hpdf.
        rewrite bool_decide_eq_true.
        rewrite (take_is_prefix [Byte.x50; Byte.x4b; Byte.x03; Byte.x04] file_data).
        split.
        - intros H. right; left. auto.
        - intros [(H & _)|[(_ & H)|(H & _)]]; [contradiction|exact H|].
          rewrite Hdocx in H. discriminate H. }
      destruct (pystr_eqb (get_file_extension filename) (u ".txt")) eqn:Htxt.
      { apply pystr_eqb_eq in Htxt. split; [|reflexivity]. intros _.
        right; right. auto. }
      apply pystr_eqb_neq in Hpdf, Hdocx, Htxt. split; [discriminate|].
      intros [(H & _)|[(H & _)|(H & _)]]; contradiction. }
  split; [exact Hiff|].
  intros Hok. apply Hiff in Hok. split.
  - apply validate_file_extension_spec. tauto.
  - destruct Hok as [(_ & rest & ->)|[(_ & rest & ->)|(_ & Hge)]];
      [simpl; lia|simpl; lia|exact Hge].
Qed.

Lemma utf8_decode_N_ascii (bs : list N) (fuel : nat) :
  (length bs <= fuel)%nat ->
  Forall (fun b => (b < 128)%N) bs ->
  utf8_decode_N fuel bs = Some bs.
Proof.
  revert fuel. induction bs as [|b bs IH]; intros fuel Hlen Hall.
  - destruct fuel; reflexivity.
  - destruct fuel as [|fuel]; [simpl in Hlen; lia|].
    inversion Hall as [|? ? Hb Hbs]; subst. simpl.
    apply N.ltb_lt in Hb. rewrite Hb.
    rewrite (IH fuel); [reflexivity|simpl in Hlen; lia|exact Hbs].
Qed.

(** X6: A text file made of ASCII bytes is extracted as it is: one character
    per byte, with the same code. *)
Theorem ascii_text_file_is_returned_unchanged (file_data : bytes)
    (filename : pystr) :
  get_file_extension filename = u ".txt" ->
  Forall (fun b => (Byte.to_N b < 128)%N) file_data ->
  convert_to_text file_data filename = Ok (map Byte.to_N file_data).
Proof.
  intros Hext Hascii. rewrite (convert_to_text_txt _ _ Hext).
  unfold utf8_decode. rewrite utf8_decode_N_ascii; [reflexivity| |].
  - rewrite length_map. lia.
  - apply Forall_map. exact Hascii.
Qed.

Lemma join_lines_concat (parts : list pystr) :
  join_lines parts = concat (map (fun p => p ++ [10%N]) parts).
Proof.
  unfold join_lines.
  assert (H : forall acc, fold_left (fun text p => text ++ p ++ [10%N]) parts acc
                          = acc ++ concat (map (fun p => p ++ [10%N]) parts)).
  { induction parts as [|p parts IH]; intros acc; simpl.
    - rewrite app_nil_r. reflexivity.
    - rewrite IH, <- !app_assoc. reflexivity. }
  apply (H []).
Qed.

(** X7: The text of a PDF or DOCX that can be read is the texts of its pages
    or paragraphs in order, each followed by a newline, with the whitespace
    at both ends removed. *)
Theorem container_text_is_joined_and_trimmed (file_data : bytes)
    (filename text : pystr) :
  get_file_extension filename = u ".pdf"
  \/ get_file_extension filename = u ".docx" ->
  convert_to_text file_data filename = Ok text ->
  trimmed text
  /\ exists parts,
      (get_file_extension filename = u ".pdf" /\ PdfReader file_data = Ok parts
       \/ get_file_extension filename = u ".docx"
          /\ Document file_data = Ok parts)
      /\ text = strip (concat (map (fun p => p ++ [10%N]) parts)).
Proof.
  intros Hext. unfold convert_to_text.
  destruct Hext as [Hext|Hext]; rewrite Hext.
  - change (pystr_eqb (u ".pdf") (u ".pdf")) with true. cbv iota.
    unfold convert_pdf_to_text.
    destruct (PdfReader file_data) as [pages|e]; [|discriminate].
    intros [= <-]. split; [apply strip_trimmed|].
    exists pages. rewrite join_lines_concat.
    split; [left; split; reflexivity|reflexivity].
  - change (pystr_eqb (u ".docx") (u ".pdf")) with false.
    change (pystr_eqb (u ".docx") (u ".docx")) with true. cbv iota.
    unfold convert_docx_to_text.
    destruct (Document file_data) as [pars|e]; [|discriminate].
    intros [= <-]. split; [apply strip_trimmed|].
    exists pars. rewrite join_lines_concat.
    split; [right; split; reflexivity|reflexivity].
Qed.

End FileUtils.

(** ** The matcher *)

Section Matcher.
Context `{E : Externals}.

Lemma match_rep_suffix (k : cclass) (s : pystr) (lo : nat) (hi : option nat)
    (prev : option N) (kont : cont) (res : option N * pystr) :
  match_rep k lo hi prev s kont = Some res ->
  exists p s', suffix s' s /\ kont p s' = Some res.
Proof.
  revert lo hi prev. induction s as [|c s IH]; intros lo hi prev; simpl.
  - destruct lo; [|discriminate]. intros H. exists prev, []. split; [reflexivity|exact H].
  - assert (Hhere : match lo with 0 => kont prev (c :: s) | S _ => None end = Some res ->
                    exists p s', suffix s' (c :: s) /\ kont p s' = Some res).
    { destruct lo; [|discriminate]. intros H. exists prev, (c :: s).
      split; [reflexivity|exact H]. }
    destruct (in_class k c && negb (bool_decide (hi = Some 0))); [|exact Hhere].
    destruct (match_rep k (Nat.pred lo) (Nat.pred <$> hi) (Some c) s kont)
      as [r|] eqn:Hrec; [|exact Hhere].
    intros [= <-]. apply IH in Hrec. destruct Hrec as (p & s' & Hsuf & Hk).
    exists p, s'. split; [|exact Hk]. apply suffix_cons_r. exact Hsuf.
Qed.

Lemma match_re_suffix (r : regex) (prev : option N) (s : pystr) (kont : cont)
    (res : option N * pystr) :
  match_re r prev s kont = Some res ->
  exists p s', suffix s' s /\ kont p s' = Some res.
Proof.
  revert prev s kont. induction r as [k|k lo hi|r1 IH1 r2 IH2| | | |];
    intros prev s kont; simpl.
  - destruct s as [|c s]; [discriminate|].
    destruct (in_class k c); [|discriminate]. intros H.
    exists (Some c), s. split; [apply suffix_cons_r; reflexivity|exact H].
  - apply match_rep_suffix.
  - intros H. apply IH1 in H. destruct H as (p1 & s1 & Hs1 & H).
    apply IH2 in H. destruct H as (p2 & s2 & Hs2 & H).
    exists p2, s2. split; [etransitivity; eassumption|exact H].
  - destruct (_ || _); [|discriminate]. intros H. exists prev, s. split; [reflexivity|exact H].
  - destruct s as [|c s].
    + intros H. exists prev, []. split; [reflexivity|exact H].
    + destruct (c =? 10)%N; [|discriminate]. intros H.
      exists prev, (c :: s). split; [reflexivity|exact H].
  - destruct (_ || _); [|discriminate]. intros H. exists prev, s. split; [reflexivity|exact H].
  - destruct (xorb _ _); [|discriminate]. intros H. exists prev, s. split; [reflexivity|exact H].
Qed.

Lemma suffix_sublist {A} (l1 l2 : list A) : suffix l1 l2 -> sublist l1 l2.
Proof. intros [pre ->]. apply sublist_inserts_l. reflexivity. Qed.

(** A substitution by the empty string only deletes. *)
Lemma sub_from_deletes (fuel : nat) (r : regex) (prev : option N) (s : pystr) :
  sublist (sub_from fuel r [] prev s) s.
Proof.
  revert prev s. induction fuel as [|fuel IH]; intros prev s; simpl; [reflexivity|].
  assert (Hstep : sublist match s with
                          | [] => []
                          | c :: t => c :: sub_from fuel r [] (Some c) t
                          end s).
  { destruct s as [|c t]; [reflexivity|]. apply sublist_skip, IH. }
  destruct (match_re r prev s (fun p s' => Some (p, s'))) as [[p s']|] eqn:Hm;
    [|exact Hstep].
  destruct (length s' <? length s)%nat; [|exact Hstep].
  apply match_re_suffix in Hm. destruct Hm as (p0 & s0 & Hsuf & [= -> ->]).
  etransitivity; [apply IH|apply suffix_sublist, Hsuf].
Qed.

Lemma re_sub_deletes (r : regex) (text : pystr) : sublist (re_sub r [] text) text.
Proof. apply sub_from_deletes. Qed.

(** Removing one class of characters is filtering. *)
Lemma sub_from_chr (k : cclass) (s : pystr) (fuel : nat) (prev : option N) :
  (length s < fuel)%nat ->
  sub_from fuel (Chr k) [] prev s
  = List.filter (fun c => negb (in_class k c)) s.
Proof.
  revert fuel prev. induction s as [|c s IH]; intros fuel prev Hfuel.
  - destruct fuel; reflexivity.
  - destruct fuel as [|fuel]; [lia|]. simpl in Hfuel. simpl.
    destruct (in_class k c); simpl.
    + replace (length s <? S (length s))%nat with true
        by (symmetry; apply Nat.ltb_lt; lia).
      apply IH. lia.
    + f_equal. apply IH. lia.
Qed.

Lemma skip_run_length (p : N -> bool) (s : pystr) :
  (length (skip_run p s) <= length s)%nat.
Proof.
  induction s as [|c s IH]; simpl; [lia|]. destruct (p c); simpl; lia.
Qed.

Lemma match_star_greedy (k : cclass) (s : pystr) (prev : option N) :
  exists p, match_rep k 0 None prev s (fun p s' => Some (p, s'))
            = Some (p, skip_run (in_class k) s).
Proof.
  revert prev. induction s as [|c s IH]; intros prev; simpl; [eauto|].
  destruct (in_class k c); simpl; [|eauto].
  destruct (IH (Some c)) as [p Hp]. rewrite Hp. eauto.
Qed.

Lemma collapse_in_run (p : N -> bool) (repl s : pystr) :
  collapse p repl true s = collapse p repl false (skip_run p s).
Proof.
  induction s as [|c s IH]; [reflexivity|]. simpl.
  destruct (p c) eqn:Hc; simpl; [exact IH|]. rewrite Hc. reflexivity.
Qed.

(** Replacing the runs of one class is [collapse]. *)
Lemma sub_from_plus (k : cclass) (repl : pystr) (fuel : nat) (s : pystr)
    (prev : option N) :
  (length s < fuel)%nat ->
  sub_from fuel (Rep k 1 None) repl prev s
  = collapse (in_class k) repl false s.
Proof.
  revert s prev. induction fuel as [|fuel IH]; intros s prev Hfuel; [lia|].
  destruct s as [|c s]; [reflexivity|]. simpl in Hfuel.
  cbn [sub_from match_re match_rep collapse].
  destruct (in_class k c); cbn [andb negb bool_decide].
  - change (bool_decide (None = Some 0)) with false. cbn [negb].
    change (Nat.pred <$> None) with (@None nat). cbn [Nat.pred].
    destruct (match_star_greedy k s (Some c)) as [p Hp]. rewrite Hp.
    pose proof (skip_run_length (in_class k) s) as Hlen.
    replace (length (skip_run (in_class k) s) <? length (c :: s))%nat with true
      by (symmetry; apply Nat.ltb_lt; simpl; lia).
    rewrite IH by lia. rewrite collapse_in_run. reflexivity.
  - f_equal. apply IH. lia.
Qed.

End Matcher.

(** ** The rest of the normalizer *)

Section Normalizer.
Context `{E : Externals}.

(** X8: Reference stripping and quote stripping only delete: what they return
    is the input with some characters left out, in the same order. *)
Theorem exclusions_only_delete (text : pystr) :
  sublist (remove_references text) text
  /\ sublist (remove_quotes text) text.
Proof.
  split.
  - unfold remove_references.
    etransitivity; [apply strip_sublist|].
    do 5 (etransitivity; [apply re_sub_deletes|]). apply re_sub_deletes.
  - unfold remove_quotes.
    etransitivity; [apply strip_sublist|].
    do 2 (etransitivity; [apply re_sub_deletes|]). apply re_sub_deletes.
Qed.

Lemma re_sub_whitespace (text : pystr) :
  re_sub re_whitespace (u " ") text = collapse isspace [32%N] false text.
Proof.
  unfold re_sub, re_whitespace, plus.
  rewrite sub_from_plus by lia. reflexivity.
Qed.

Lemma re_sub_special (text : pystr) :
  re_sub re_special [] text
  = List.filter (fun c => isword c || isspace c
                          || existsb (N.eqb c) (u ".,!?;:-")) text.
Proof.
  unfold re_sub, re_special. rewrite sub_from_chr by lia.
  apply filter_ext. intros c. cbn. rewrite negb_involutive.
  rewrite !orb_false_r, !orb_assoc. reflexivity.
Qed.

Lemma collapse_Forall (P : N -> Prop) (p : N -> bool) (repl s : pystr)
    (in_run : bool) :
  Forall P repl -> (forall c, In c s -> p c = false -> P c) ->
  Forall P (collapse p repl in_run s).
Proof.
  intros Hrepl. revert in_run. induction s as [|c s IH]; intros in_run Hs;
    simpl; [constructor|].
  destruct (p c) eqn:Hc.
  - apply Forall_app. split.
    + destruct in_run; [constructor|exact Hrepl].
    + apply IH. intros x Hx. apply Hs. right. exact Hx.
  - constructor; [apply Hs; [left; reflexivity|exact Hc]|].
    apply IH. intros x Hx. apply Hs. right. exact Hx.
Qed.

Lemma Forall_sublist {A} (P : A -> Prop) (l1 l2 : list A) :
  sublist l1 l2 -> Forall P l2 -> Forall P l1.
Proof.
  induction 1 as [|x l1 l2 _ IH|x l1 l2 _ IH]; intros H; [constructor| |].
  - inversion H; subst. constructor; [assumption|apply IH; assumption].
  - inversion H; subst. apply IH. assumption.
Qed.

(** X9: Whatever the flags, a preprocessed document has no whitespace at its
    ends and is made of word characters, spaces (U+0020) and the seven
    punctuation marks . , ! ? ; : - only. *)
Theorem preprocess_document_alphabet (text : pystr) (refs quotes : bool) :
  trimmed (preprocess_document text refs quotes)
  /\ Forall (fun c => isword c = true \/ c = 32%N \/ In c (u ".,!?;:-"))
            (preprocess_document text refs quotes).
Proof.
  unfold preprocess_document. split; [apply strip_trimmed|].
  eapply Forall_sublist; [apply strip_sublist|].
  rewrite re_sub_special, re_sub_whitespace.
  apply Forall_forall. intros c Hc. apply list_elem_of_In, filter_In in Hc.
  destruct Hc as [Hin Hkeep].
  apply orb_prop in Hkeep. destruct Hkeep as [Hkeep|Hpunct].
  - apply orb_prop in Hkeep. destruct Hkeep as [Hw|Hs]; [left; exact Hw|].
    right; left.
    assert (Hall : Forall (fun c => isspace c = true -> c = 32%N)
                     (collapse isspace [32%N] false
                        (if quotes
                         then remove_quotes (if refs then remove_references text else text)
                         else if refs then remove_references text else text))).
    { apply collapse_Forall; [repeat constructor|].
      intros x _ Hx Hx'. rewrite Hx in Hx'. discriminate. }
    rewrite Forall_forall in Hall. apply Hall; [|exact Hs].
    apply list_elem_of_In. exact Hin.
  - right; right. apply existsb_exists in Hpunct.
    destruct Hpunct as (x & Hx & Heq). apply N.eqb_eq in Heq. subst. exact Hx.
Qed.

Lemma spaced_collapse (s : pystr) (b : bool) :
  spaced b (collapse isspace [32%N] b s) = true.
Proof.
  revert b. induction s as [|c s IH]; intros b; [reflexivity|]. simpl.
  destruct (isspace c) eqn:Hc.
  - destruct b; simpl; [apply IH|]. rewrite (IH true). reflexivity.
  - simpl. rewrite Hc. apply IH.
Qed.

Lemma spaced_weaken (s : pystr) (b : bool) :
  spaced b s = true -> spaced false s = true.
Proof.
  destruct s as [|c s]; [reflexivity|]. simpl.
  destruct (isspace c); [|auto]. destruct b; simpl; [|auto].
  rewrite andb_false_r. discriminate.
Qed.

Lemma spaced_suffix (pre s : pystr) (b : bool) :
  spaced b (pre ++ s) = true -> spaced false s = true.
Proof.
  revert b. induction pre as [|c pre IH]; intros b; simpl.
  - apply spaced_weaken.
  - destruct (isspace c).
    + intros [_ H]%andb_prop. exact (IH _ H).
    + apply IH.
Qed.

Lemma spaced_prefix (s post : pystr) (b : bool) :
  spaced b (s ++ post) = true -> spaced b s = true.
Proof.
  revert b. induction s as [|c s IH]; intros b; simpl; [reflexivity|].
  destruct (isspace c).
  - intros [H1 H2]%andb_prop. rewrite H1. exact (IH _ H2).
  - apply IH.
Qed.

Lemma spaced_strip (s : pystr) : spaced false s = true -> spaced false (strip s) = true.
Proof.
  destruct (strip_infix s) as (pre & post & Hs & _). intros H.
  rewrite Hs in H. apply spaced_suffix in H. apply spaced_prefix in H. exact H.
Qed.

Lemma collapse_spaced (s : pystr) (b : bool) :
  spaced b s = true -> collapse isspace [32%N] b s = s.
Proof.
  revert b. induction s as [|c s IH]; intros b; [reflexivity|]. simpl.
  destruct (isspace c).
  - intros [[Hc Hb]%andb_prop Hs]%andb_prop.
    apply negb_true_iff in Hb. subst b. apply N.eqb_eq in Hc. subst c.
    simpl. f_equal. apply IH, Hs.
  - intros Hs. f_equal. apply IH, Hs.
Qed.

(** X10: A normalized text has no whitespace at its ends, and its only
    whitespace is single spaces. *)
Theorem normalize_text_normal_form (text : pystr) :
  trimmed (normalize_text text) /\ single_spaced (normalize_text text).
Proof.
  unfold normalize_text, single_spaced. split; [apply strip_trimmed|].
  rewrite re_sub_whitespace. apply spaced_strip, spaced_collapse.
Qed.

(** X11: Normalizing an ASCII text twice is normalizing it once. *)
Theorem normalize_text_idempotent (text : pystr) :
  forallb is_ascii text = true ->
  normalize_text (normalize_text text) = normalize_text text.
Proof.
  intros Hascii.
  destruct (normalize_text_normal_form text) as [Htrim Hspaced].
  set (P := fun c : N => is_ascii c = true /\ ascii_lower c = c).
  assert (HP : Forall P (normalize_text text)).
  { unfold normalize_text. eapply Forall_sublist; [apply strip_sublist|].
    rewrite re_sub_whitespace. apply collapse_Forall.
    - repeat constructor.
    - intros c Hc _. rewrite (lower_ascii _ Hascii) in Hc.
      apply in_map_iff in Hc. destruct Hc as (x & <- & Hx).
      rewrite forallb_forall in Hascii. split.
      + pose proof (ascii_lower_ascii [x]) as H. simpl in H.
        rewrite (Hascii x Hx) in H. specialize (H eq_refl).
        apply andb_prop in H. apply H.
      + apply ascii_lower_idempotent. }
  unfold normalize_text at 1.
  assert (Hlow : lower (normalize_text text) = normalize_text text).
  { assert (Hmap : forall l, Forall P l -> map ascii_lower l = l).
    { induction 1 as [|c l [_ Hc] _ IH]; [reflexivity|]. simpl.
      rewrite Hc, IH. reflexivity. }
    rewrite lower_ascii; [apply Hmap, HP|].
    apply forallb_forall. intros c Hc. rewrite Forall_forall in HP.
    apply (HP c). apply list_elem_of_In. exact Hc. }
  rewrite Hlow, re_sub_whitespace, (collapse_spaced _ _ Hspaced).
  apply strip_trimmed_id, Htrim.
Qed.

End Normalizer.

(** ** Tokens, word sets, n-grams and sentences *)

Section Tokens.
Context `{E : Externals}.

Lemma split_ws_spec (s cur : pystr) :
  Forall (fun c => isspace c = false) cur ->
  Forall (fun t => t <> [] /\ Forall (fun c => isspace c = false) t)
         (split_ws cur s)
  /\ concat (split_ws cur s)
     = rev cur ++ List.filter (fun c => negb (isspace c)) s.
Proof.
  revert cur. induction s as [|c s IH]; intros cur Hcur; simpl.
  - destruct cur as [|x cur]; [split; [constructor|reflexivity]|].
    split.
    + repeat constructor.
      * destruct (rev (x :: cur)) eqn:Hr; [|discriminate].
        apply (f_equal (@length N)) in Hr. rewrite length_rev in Hr. discriminate.
      * apply Forall_rev. exact Hcur.
    + simpl. rewrite !app_nil_r. reflexivity.
  - destruct (isspace c) eqn:Hc; simpl.
    + destruct (IH [] ltac:(constructor)) as [Hall Hcat].
      destruct cur as [|x cur]; [split; [exact Hall|exact Hcat]|].
      split.
      * constructor; [|exact Hall]. split.
        -- destruct (rev (x :: cur)) eqn:Hr; [|discriminate].
           apply (f_equal (@length N)) in Hr. rewrite length_rev in Hr. discriminate.
        -- apply Forall_rev. exact Hcur.
      * simpl concat. rewrite Hcat. reflexivity.
    + destruct (IH (c :: cur)) as [Hall Hcat]; [constructor; assumption|].
      split; [exact Hall|]. rewrite Hcat. simpl. rewrite <- app_assoc. reflexivity.
Qed.

(** X12: When the NLTK tokenizer raises, tokenization degrades to splitting the
    lower-cased text at whitespace: no token is empty or contains
    whitespace, and the tokens put together are the lower-cased text without
    its whitespace. *)
Theorem tokenize_text_degrades_to_split (text : pystr) (e : PyExc) :
  word_tokenize (lower text) = Raise e ->
  Forall (fun t => t <> [] /\ Forall (fun c => isspace c = false) t)
         (tokenize_text text)
  /\ concat (tokenize_text text)
     = List.filter (fun c => negb (isspace c)) (lower text).
Proof.
  intros Hraise. unfold tokenize_text, split. rewrite Hraise.
  apply (split_ws_spec (lower text) []). constructor.
Qed.

Lemma map_ascii_lower_idempotent (s : pystr) :
  map ascii_lower (map ascii_lower s) = map ascii_lower s.
Proof. rewrite map_map. apply map_ext. intros x. apply ascii_lower_idempotent. Qed.

(** X13: A word of the word set is a token of at least three characters, all
    alphanumeric; and since tokens are taken from the lower-cased text, the
    word set of an ASCII text does not depend on its case. *)
Theorem word_set_members_and_case (text : pystr) :
  (forall w, w ∈ get_word_set text <->
             w ∈ tokenize_text text
             /\ (3 <= length w)%nat
             /\ Forall (fun c => isalnum c = true) w)
  /\ (forallb is_ascii text = true ->
      get_word_set (map ascii_lower text) = get_word_set text).
Proof.
  split.
  - intros w. unfold get_word_set.
    rewrite elem_of_list_to_set, list_elem_of_filter, andb_true_iff.
    unfold str_isalnum. rewrite andb_true_iff, negb_true_iff,
      bool_decide_eq_false, Nat.ltb_lt, forallb_forall, Forall_forall.
    split.
    + intros [(Hlen & Hne & Hall) Hin]. split; [exact Hin|]. split; [lia|].
      intros c Hc. apply Hall, list_elem_of_In, Hc.
    + intros (Hin & Hlen & Hall). split; [|exact Hin]. split; [lia|]. split.
      * intros ->. simpl in Hlen. lia.
      * intros c Hc. apply Hall, list_elem_of_In, Hc.
  - intros Hascii. unfold get_word_set, tokenize_text.
    rewrite (lower_ascii _ (ascii_lower_ascii _ Hascii)), (lower_ascii _ Hascii),
      map_ascii_lower_idempotent.
    reflexivity.
Qed.

Lemma py_slice_inside {A} (l : list A) (i n : nat) :
  (i + n <= length l)%nat ->
  py_slice l (Z.of_nat i) (Z.of_nat i + Z.of_nat n) = take n (drop i l).
Proof.
  intros Hle. unfold py_slice.
  replace (Z.of_nat i <? 0)%Z with false by (symmetry; apply Z.ltb_ge; lia).
  replace (Z.of_nat i + Z.of_nat n <? 0)%Z with false
    by (symmetry; apply Z.ltb_ge; lia).
  rewrite !Z.min_l by lia.
  replace (Z.to_nat (Z.of_nat i + Z.of_nat n - Z.of_nat i)) with n by lia.
  rewrite Nat2Z.id. reflexivity.
Qed.

(** X14: For a size [n >= 0] the n-grams are the windows of [n] consecutive
    tokens, from left to right: there are [len + 1 - n] of them (none when
    [n] exceeds the number of tokens, [len + 1] empty ones when [n] is 0) and
    each has exactly [n] tokens. *)
Theorem get_n_grams_windows {A} (tokens : list A) (n : nat) :
  get_n_grams tokens (Z.of_nat n)
  = map (fun i => take n (drop i tokens)) (seq 0 (S (length tokens) - n))
  /\ length (get_n_grams tokens (Z.of_nat n)) = (S (length tokens) - n)%nat
  /\ Forall (fun gram => length gram = n) (get_n_grams tokens (Z.of_nat n)).
Proof.
  assert (Heq : get_n_grams tokens (Z.of_nat n)
                = map (fun i => take n (drop i tokens))
                      (seq 0 (S (length tokens) - n))).
  { unfold get_n_grams, range.
    replace (Z.to_nat (Z.of_nat (length tokens) - Z.of_nat n + 1))
      with (S (length tokens) - n)%nat by lia.
    rewrite map_map. apply map_ext_in. intros i Hi. apply in_seq in Hi.
    apply py_slice_inside. lia. }
  split; [exact Heq|]. rewrite Heq. split.
  - rewrite length_map, length_seq. reflexivity.
  - apply Forall_forall. intros gram Hg. apply list_elem_of_In, in_map_iff in Hg.
    destruct Hg as (i & <- & Hi). apply in_seq in Hi.
    rewrite length_take, length_drop. lia.
Qed.

Lemma split_runs_no_separator (sep : N -> bool) (s cur : pystr) (in_run : bool) :
  Forall (fun c => sep c = false) cur ->
  Forall (Forall (fun c => sep c = false)) (split_runs sep in_run cur s).
Proof.
  revert cur in_run. induction s as [|c s IH]; intros cur in_run Hcur; simpl.
  - repeat constructor. apply Forall_rev. exact Hcur.
  - destruct (sep c) eqn:Hc.
    + destruct in_run; [apply IH; exact Hcur|].
      constructor; [apply Forall_rev; exact Hcur|]. apply IH. constructor.
    + apply IH. constructor; assumption.
Qed.

(** X15: No extracted sentence is empty, begins or ends with whitespace, or
    contains one of the terminators . ! ? *)
Theorem extract_sentences_are_clean (text : pystr) :
  Forall (fun s => s <> [] /\ trimmed s
                   /\ Forall (fun c => sentence_end c = false) s)
         (extract_sentences text).
Proof.
  unfold extract_sentences. apply Forall_forall. intros s Hs.
  apply list_elem_of_In, in_map_iff in Hs. destruct Hs as (piece & <- & Hpiece).
  apply list_elem_of_In, list_elem_of_filter in Hpiece. destruct Hpiece as [Hne Hin].
  split; [exact Hne|]. split; [apply strip_trimmed|].
  eapply Forall_sublist; [apply strip_sublist|].
  pose proof (split_runs_no_separator sentence_end text [] false ltac:(constructor)) as Hall.
  rewrite Forall_forall in Hall. apply Hall. exact Hin.
Qed.

End Tokens.

(** ** The service as a whole *)

Lemma round_half_even_ge_floor (q : Q) : (Qfloor q <= round_half_even q)%Z.
Proof.
  unfold round_half_even. destruct (Qcompare _ _); [destruct (Z.even _)| |]; lia.
Qed.

Lemma round_half_even_lower (q : Q) (n : Z) :
  (inject_Z n <= q)%Q -> (n <= round_half_even q)%Z.
Proof.
  intros Hle. etransitivity; [|apply round_half_even_ge_floor].
  rewrite <- (Qfloor_Z n). apply Qfloor_resp_le. exact Hle.
Qed.

Lemma round_half_even_upper (q : Q) (n : Z) :
  (q <= inject_Z n)%Q -> (round_half_even q <= n)%Z.
Proof.
  intros Hle.
  assert (Hfl : (Qfloor q <= n)%Z).
  { rewrite <- (Qfloor_Z n). apply Qfloor_resp_le. exact Hle. }
  destruct (Z.eq_dec (Qfloor q) n) as [Heq|Hne].
  - (* q is the integer n *)
    assert (Hq : (q == inject_Z n)%Q).
    { apply Qle_antisym; [exact Hle|]. rewrite <- Heq. apply Qfloor_le. }
    rewrite (round_half_even_comp _ _ Hq), round_half_even_Z. lia.
  - unfold round_half_even.
    destruct (Qcompare _ _); [destruct (Z.even _)| |]; lia.
Qed.

Lemma round2_lower (x : Q) : (5 < x)%Q -> (5 <= round2 x)%Q.
Proof.
  intros Hx. unfold round2.
  assert (H : (500 <= round_half_even (x * 100))%Z).
  { apply round_half_even_lower. apply Qlt_le_weak in Hx.
    apply (Qmult_le_compat_r _ _ 100) in Hx; [|discriminate]. exact Hx. }
  unfold Qle. simpl. lia.
Qed.

Lemma round2_upper (x : Q) : (x <= 100)%Q -> (round2 x <= 100)%Q.
Proof.
  intros Hx. unfold round2.
  assert (H : (round_half_even (x * 100) <= 10000)%Z).
  { apply round_half_even_upper.
    apply (Qmult_le_compat_r _ _ 100) in Hx; [|discriminate]. exact Hx. }
  unfold Qle. simpl. lia.
Qed.

Section Whole.
Context `{E : Externals}.

Ltac run :=
  unfold mbind, M_bind, mret, M_ret, bind, ret, raise, lift, try_except,
         emit, query, commit, rollback, write_row in *.

(** What [_check_external_sources] can return. *)
Lemma check_external_sources_ok (text : pystr) (w w' : World)
    (sources : list Source.t) :
  _check_external_sources text w = (Ok sources, w') ->
  exists results, sources = map source_of results.
Proof.
  destruct googlesearch as [search|] eqn:Hmod.
  - destruct (check_external_sources_installed search text w Hmod)
      as (w1 & Hrun & _).
    rewrite Hrun. intros [= <- _].
    destruct (search text) as [results|e]; [exists results|exists []]; reflexivity.
  - rewrite (check_external_sources_missing text w Hmod). discriminate.
Qed.

(** The two paths of a check that returns a report, with the world it
    leaves. *)
Lemma check_plagiarism_ok_world (assignment_id : Z) (refs quotes : bool)
    (w w' : World) (r : Report.t) :
  check_plagiarism assignment_id refs quotes w = (Ok r, w') ->
  exists a,
    query_assignment (session w) assignment_id = Some a
    /\ session w' = committed w'
    /\ let T := query_threshold (session w) a in
       let pool := query_other_assignments (session w) a assignment_id in
       (pool = []
        /\ r = empty_report a T
        /\ committed w' = persist w (checked a r 0))
       \/ (pool <> []
           /\ exists raw results,
               convert_to_text (Assignment.file_data a) (Assignment.filename a)
               = Ok raw
               /\ let ms := compare_matches (preprocess_document raw refs quotes)
                             pool refs quotes in
                  let S := py_max (map Match.similarity ms) 0 in
                  r = full_report assignment_id a S ms (map source_of results) T
                  /\ committed w'
                     = persist w (checked (graded a T S) r (round2 S))).
Proof.
  unfold check_plagiarism. run.
  destruct (query_assignment (session w) assignment_id) as [a|] eqn:Hq;
    [|discriminate].
  intros Hrun. exists a. split; [reflexivity|]. cbv zeta.
  destruct (query_other_assignments (session w) a assignment_id)
    as [|p pool] eqn:Hpool.
  - unfold _create_empty_report in Hrun. run. simpl in Hrun.
    destruct (db_commit _); [discriminate|].
    injection Hrun as <- <-. simpl. split; [reflexivity|].
    left. repeat split; reflexivity.
  - destruct (convert_to_text (Assignment.file_data a) (Assignment.filename a))
      as [raw|e] eqn:Hraw; [|discriminate].
    destruct (compare_with_assignments_spec
                (preprocess_document raw refs quotes) (p :: pool) refs quotes w)
      as (w1 & Hcmp & Hsame1).
    rewrite Hcmp in Hrun.
    destruct (_check_external_sources raw w1) as [res w2] eqn:Hadv.
    pose proof (check_external_sources_same_data _ _ _ _ Hadv) as Hsame2.
    destruct res as [sources|e]; [|discriminate].
    destruct (check_external_sources_ok _ _ _ _ Hadv) as [results ->].
    simpl in Hrun. destruct (db_commit _); [discriminate|].
    injection Hrun as <- <-. simpl. split; [reflexivity|].
    right. split; [discriminate|]. exists raw, results. split; [reflexivity|].
    cbv zeta. split; [reflexivity|]. unfold persist.
    destruct Hsame1 as [_ Hs1], Hsame2 as [_ Hs2]. rewrite Hs2, Hs1.
    reflexivity.
Qed.

(** X16: Every failure of a check reaches the caller as a
    [PlagiarismCheckError] that wraps its cause, after a rollback, which is
    the last effect: the committed rows are as before and the session shows
    them again. *)
Theorem failed_check_persists_nothing (assignment_id : Z) (refs quotes : bool)
    (w w' : World) (e : PyExc) :
  check_plagiarism assignment_id refs quotes w = (Raise e, w') ->
  (exists cause, e = HTTPExcFrom PlagiarismCheckError [] cause)
  /\ last (trace w') = Some EvRollback
  /\ committed w' = committed w
  /\ session w' = committed w.
Proof.
  unfold check_plagiarism. run.
  assert (Hdone : forall cause w0,
             committed w0 = committed w ->
             (Raise (HTTPExcFrom PlagiarismCheckError [] cause),
              {| committed := committed w0; session := committed w0;
                 trace := (trace w0 ++ [EvLog (CheckFailed assignment_id cause)])
                          ++ [EvRollback] |}) = (@Raise Report.t e, w') ->
             (exists cause, e = HTTPExcFrom PlagiarismCheckError [] cause)
             /\ last (trace w') = Some EvRollback
             /\ committed w' = committed w
             /\ session w' = committed w).
  { intros cause w0 Hc [= <- <-]. cbn [committed session trace].
    split; [eauto|]. split; [apply last_snoc|]. split; exact Hc. }
  destruct (query_assignment (session w) assignment_id) as [a|] eqn:Hq.
  2: { cbn [committed session trace]. apply (Hdone _ w). reflexivity. }
  destruct (query_other_assignments (session w) a assignment_id)
    as [|p pool] eqn:Hpool.
  - unfold _create_empty_report. run. cbn [committed session trace].
    destruct (db_commit _) as [cause|]; [|discriminate].
    cbn [committed session trace]. apply (Hdone _ w). reflexivity.
  - destruct (convert_to_text (Assignment.file_data a) (Assignment.filename a))
      as [raw|cause] eqn:Hraw.
    2: { cbn [committed session trace]. apply (Hdone _ w). reflexivity. }
    destruct (compare_with_assignments_spec
                (preprocess_document raw refs quotes) (p :: pool) refs quotes w)
      as (w1 & Hcmp & [Hc1 _]).
    rewrite Hcmp.
    destruct (_check_external_sources raw w1) as [res w2] eqn:Hadv.
    pose proof (check_external_sources_same_data _ _ _ _ Hadv) as [Hc2 _].
    destruct res as [sources|cause].
    2: { cbn [committed session trace]. apply (Hdone _ w2). congruence. }
    cbn [committed session trace].
    destruct (db_commit _) as [cause|]; [|discriminate].
    cbn [committed session trace]. apply (Hdone _ w2). congruence.
Qed.

Lemma update_row_ids (a : Assignment.t) (rows : list Assignment.t) :
  map Assignment.id (update_row a rows) = map Assignment.id rows.
Proof.
  induction rows as [|r rows IH]; [reflexivity|]. simpl.
  destruct (Assignment.id r =? Assignment.id a)%Z eqn:Hr; simpl.
  - apply Z.eqb_eq in Hr. rewrite Hr. reflexivity.
  - rewrite IH. reflexivity.
Qed.

Lemma update_row_find_other (a : Assignment.t) (rows : list Assignment.t) (i : Z) :
  i <> Assignment.id a ->
  find (fun r => (Assignment.id r =? i)%Z) (update_row a rows)
  = find (fun r => (Assignment.id r =? i)%Z) rows.
Proof.
  intros Hne. induction rows as [|r rows IH]; [reflexivity|]. simpl.
  destruct (Assignment.id r =? Assignment.id a)%Z eqn:Hr; simpl.
  - apply Z.eqb_eq in Hr.
    replace (Assignment.id a =? i)%Z with false by (symmetry; apply Z.eqb_neq; auto).
    replace (Assignment.id r =? i)%Z with false
      by (symmetry; apply Z.eqb_neq; congruence).
    reflexivity.
  - rewrite IH. reflexivity.
Qed.

Lemma pool_after_persist (w : World) (a a' : Assignment.t) (i : Z) :
  Assignment.id a' = i ->
  Assignment.course a' = Assignment.course a ->
  query_other_assignments (persist w a') a' i
  = query_other_assignments (session w) a i.
Proof.
  intros Hid Hcourse. unfold query_other_assignments, persist.
  cbn [assignments]. rewrite Hcourse.
  induction (assignments (session w)) as [|r rows IH]; [reflexivity|]. simpl.
  destruct (Assignment.id r =? Assignment.id a')%Z eqn:Hr.
  - apply Z.eqb_eq in Hr. rewrite !filter_cons.
    destruct (decide _) as [[_ Hne]|_]; [congruence|].
    destruct (decide _) as [[_ Hne]|_]; [congruence|]. reflexivity.
  - rewrite !filter_cons, IH. reflexivity.
Qed.

(** The world a successful check leaves, in full. *)
Lemma check_frame (assignment_id : Z) (refs quotes : bool) (w w' : World)
    (r : Report.t) :
  check_plagiarism assignment_id refs quotes w = (Ok r, w') ->
  exists a a',
    query_assignment (session w) assignment_id = Some a
    /\ session w' = committed w'
    /\ committed w' = persist w a'
    /\ Assignment.id a' = Assignment.id a
    /\ Assignment.filename a' = Assignment.filename a
    /\ Assignment.file_data a' = Assignment.file_data a
    /\ Assignment.user a' = Assignment.user a
    /\ Assignment.course a' = Assignment.course a
    /\ Assignment.status a' = Checked
    /\ Assignment.plagiarism_report a' = Some r
    /\ Assignment.plagiarism_percentage a'
       = Some (Report.plagiarism_percentage r).
Proof.
  intros Hrun. apply check_plagiarism_ok_world in Hrun.
  destruct Hrun as (a & Hq & Hsess & Hcases). cbv zeta in Hcases. exists a.
  destruct Hcases as [(_ & Hr & Hcom)|(_ & raw & results & _ & Hr)].
  - eexists. split; [exact Hq|]. split; [exact Hsess|]. split; [exact Hcom|].
    rewrite Hr. repeat split.
  - cbv zeta in Hr. destruct Hr as [Hr Hcom].
    eexists. split; [exact Hq|]. split; [exact Hsess|]. split; [exact Hcom|].
    rewrite Hr. unfold graded. destruct (Qle_bool _ _); repeat split.
Qed.

(** X17: A check that returns a report has committed, and has written nothing
    but the target row: the question files, the order and the identifiers of
    the rows and every other row are as before; of the target, name, content,
    owner and course are kept, and it now carries the report returned, the
    percentage of that report and the status Checked. *)
Theorem successful_check_writes_the_target_only (assignment_id : Z)
    (refs quotes : bool) (w w' : World) (r : Report.t) :
  check_plagiarism assignment_id refs quotes w = (Ok r, w') ->
  session w' = committed w'
  /\ question_files (committed w') = question_files (session w)
  /\ map Assignment.id (assignments (committed w'))
     = map Assignment.id (assignments (session w))
  /\ (forall i, i <> assignment_id ->
      query_assignment (committed w') i = query_assignment (session w) i)
  /\ exists a a',
      query_assignment (session w) assignment_id = Some a
      /\ query_assignment (committed w') assignment_id = Some a'
      /\ Assignment.filename a' = Assignment.filename a
      /\ Assignment.file_data a' = Assignment.file_data a
      /\ Assignment.user a' = Assignment.user a
      /\ Assignment.course a' = Assignment.course a
      /\ Assignment.status a' = Checked
      /\ Assignment.plagiarism_report a' = Some r
      /\ Assignment.plagiarism_percentage a'
         = Some (Report.plagiarism_percentage r).
Proof.
  intros Hrun.
  destruct (check_frame _ _ _ _ _ _ Hrun)
    as (a & a' & Hq & Hsess & Hcom & Hid & Hrest).
  pose proof (query_assignment_id _ _ _ Hq) as Haid.
  split; [exact Hsess|]. rewrite Hcom. unfold persist. cbn [question_files assignments].
  split; [reflexivity|]. split; [apply update_row_ids|]. split.
  - intros i Hi. unfold query_assignment. cbn [assignments].
    apply update_row_find_other. congruence.
  - exists a, a'. split; [exact Hq|]. split; [|exact Hrest].
    apply (query_persisted w assignment_id a a' Hq Hid).
Qed.

(** X18: What a check returned is what [get_report] returns afterwards, and
    reading a report changes nothing. *)
Theorem get_report_returns_the_last_report (assignment_id : Z)
    (refs quotes : bool) (w w' : World) (r : Report.t) :
  check_plagiarism assignment_id refs quotes w = (Ok r, w') ->
  get_report assignment_id w' = (Ok (Some r), w')
  /\ forall i w0, snd (get_report i w0) = w0.
Proof.
  intros Hrun. split.
  - destruct (check_frame _ _ _ _ _ _ Hrun)
      as (a & a' & Hq & Hsess & Hcom & Hid & _ & _ & _ & _ & _ & Hrep & _).
    unfold get_report. run.
    rewrite Hsess, Hcom, (query_persisted w assignment_id a a' Hq Hid), Hrep.
    reflexivity.
  - intros i w0. unfold get_report. run.
    destruct (query_assignment (session w0) i); reflexivity.
Qed.

Lemma threshold_after_persist (w : World) (a a' : Assignment.t) :
  Assignment.course a' = Assignment.course a ->
  query_threshold (persist w a') a' = query_threshold (session w) a.
Proof. intros Hc. unfold query_threshold, persist. simpl. rewrite Hc. reflexivity. Qed.

(** X19: Checking again right after a check gives the same result: the second
    report has the matches, the percentage, the threshold and the verdict of
    the first. *)
Theorem check_again_gives_the_same_report (assignment_id : Z)
    (refs quotes : bool) (w w1 w2 : World) (r1 r2 : Report.t) :
  check_plagiarism assignment_id refs quotes w = (Ok r1, w1) ->
  check_plagiarism assignment_id refs quotes w1 = (Ok r2, w2) ->
  Report.matches r2 = Report.matches r1
  /\ Report.plagiarism_percentage r2 = Report.plagiarism_percentage r1
  /\ Report.threshold r2 = Report.threshold r1
  /\ Report.passed r2 = Report.passed r1
  /\ Report.assignment_id r2 = Report.assignment_id r1
  /\ Report.filename r2 = Report.filename r1.
Proof.
  intros Hrun1 Hrun2.
  destruct (check_frame _ _ _ _ _ _ Hrun1)
    as (a & a' & Hq & Hsess & Hcom & Hid & Hname & Hdata & _ & Hcourse & _).
  pose proof (query_assignment_id _ _ _ Hq) as Haid.
  pose proof (query_persisted w assignment_id a a' Hq Hid) as Hq'.
  apply check_plagiarism_ok_world in Hrun1, Hrun2.
  destruct Hrun1 as (a0 & Hq0 & _ & Hcases1).
  rewrite Hq in Hq0. injection Hq0 as <-.
  destruct Hrun2 as (a1 & Hq1 & _ & Hcases2).
  rewrite Hsess, Hcom, Hq' in Hq1. injection Hq1 as <-.
  cbv zeta in Hcases1, Hcases2.
  rewrite Hsess, Hcom in Hcases2.
  rewrite (pool_after_persist w a a' assignment_id) in Hcases2 by congruence.
  rewrite (threshold_after_persist w a a' Hcourse) in Hcases2.
  rewrite Hname, Hdata in Hcases2.
  destruct Hcases1 as [(Hp1 & -> & _)|(Hp1 & raw1 & res1 & Hraw1 & Hr1)];
    destruct Hcases2 as [(Hp2 & -> & _)|(Hp2 & raw2 & res2 & Hraw2 & Hr2)];
    try contradiction.
  - simpl. rewrite Hid, Hname. repeat split.
  - cbv zeta in Hr1, Hr2. destruct Hr1 as [-> _], Hr2 as [-> _].
    rewrite Hraw1 in Hraw2. injection Hraw2 as <-.
    simpl. rewrite Hname. repeat split.
Qed.

Lemma jaccard_range (A B : gset pystr) (q : Q) :
  jaccard A B = Some q -> (0 <= q <= 100)%Q.
Proof.
  unfold jaccard. destruct (0 <? size (A ∪ B))%nat eqn:Hpos; [|discriminate].
  intros [= <-]. apply Nat.ltb_lt in Hpos.
  assert (Hsub : (size (A ∩ B) <= size (A ∪ B))%nat).
  { apply subseteq_size. intros x Hx.
    apply elem_of_intersection in Hx as [Hx _].
    apply elem_of_union. left. exact Hx. }
  set (i := size (A ∩ B)) in *. set (n := size (A ∪ B)) in *.
  assert (Hn : (0 < inject_Z (Z.of_nat n))%Q).
  { unfold Qlt. simpl. lia. }
  assert (Hi : (0 <= inject_Z (Z.of_nat i))%Q).
  { unfold Qle. simpl. lia. }
  assert (Hfrac : (0 <= inject_Z (Z.of_nat i) / inject_Z (Z.of_nat n) <= 1)%Q).
  { split.
    - apply Qle_shift_div_l; [exact Hn|]. rewrite Qmult_0_l. exact Hi.
    - apply Qle_shift_div_r; [exact Hn|]. rewrite Qmult_1_l.
      unfold Qle. simpl. lia. }
  destruct Hfrac as [H0 H1]. split.
  - apply Qmult_le_0_compat; [exact H0|discriminate].
  - apply (Qmult_le_compat_r _ _ 100) in H1; [|discriminate]. exact H1.
Qed.

Lemma scored_range (similarities : list Q) (k : nat)
    (assignment_map : gmap nat Assignment.t) :
  Forall (fun m => (5 <= Match.similarity m)%Q)
         (scored k similarities assignment_map)
  /\ (Forall (fun s => (s <= 1)%Q) similarities ->
      Forall (fun m => (Match.similarity m <= 100)%Q)
             (scored k similarities assignment_map)).
Proof.
  revert k. induction similarities as [|s rest IH]; intros k; simpl.
  - split; [constructor|]. intros _. constructor.
  - destruct (IH (S k)) as [IHlow IHup]. split.
    + apply Forall_app. split; [|exact IHlow].
      destruct (assignment_map !! k); [|constructor].
      destruct (Qltb 5 (s * 100)) eqn:Hlt; repeat constructor.
      apply round2_lower, Qltb_lt, Hlt.
    + intros Hall. inversion Hall as [|? ? Hs Hrest]; subst.
      apply Forall_app. split; [|exact (IHup Hrest)].
      destruct (assignment_map !! k); [|constructor].
      destruct (Qltb 5 (s * 100)); repeat constructor.
      apply round2_upper.
      apply (Qmult_le_compat_r _ _ 100) in Hs; [|discriminate]. exact Hs.
Qed.

Lemma jaccard_match_range (target_words : gset pystr) (pool : list Assignment.t) :
  Forall (fun m => (5 <= Match.similarity m <= 100)%Q)
         (flat_map (jaccard_match target_words) pool).
Proof.
  induction pool as [|a pool IH]; simpl; [constructor|].
  apply Forall_app. split; [|exact IH]. unfold jaccard_match.
  destruct (convert_to_text _ _); [|constructor].
  destruct (jaccard _ _) as [q|] eqn:Hq; [|constructor].
  destruct (Qltb 5 q) eqn:Hlt; repeat constructor.
  - apply round2_lower, Qltb_lt, Hlt.
  - apply round2_upper. apply (jaccard_range _ _ _ Hq).
Qed.

Lemma compare_matches_range (target_text : pystr) (pool : list Assignment.t)
    (refs quotes : bool) :
  Forall (fun m => (5 <= Match.similarity m)%Q)
         (compare_matches target_text pool refs quotes)
  /\ ((forall documents similarities,
         tfidf_cosine_similarity documents = Ok similarities ->
         Forall (fun s => (s <= 1)%Q) similarities) ->
      Forall (fun m => (Match.similarity m <= 100)%Q)
             (compare_matches target_text pool refs quotes)).
Proof.
  unfold compare_matches.
  destruct (_ <=? 1)%nat; [split; [constructor|intros _; constructor]|].
  destruct (tfidf_cosine_similarity _) as [similarities|e] eqn:Heng.
  - split.
    + apply sort_by_similarity_Forall, scored_range.
    + intros Hcos. apply sort_by_similarity_Forall, scored_range.
      exact (Hcos _ _ Heng).
  - pose proof (jaccard_match_range (get_word_set target_text) pool) as Hall.
    split; [|intros _]; apply sort_by_similarity_Forall;
      (eapply Forall_impl; [exact Hall|]); intros m [H1 H2]; assumption.
Qed.

(** X20: Every match of a report has a similarity of at least 5, with two
    decimals (a score is kept when it exceeds 5 before rounding), and at most
    100 as long as the cosines of the primary engine do not exceed 1. *)
Theorem match_similarity_range (assignment_id : Z) (refs quotes : bool)
    (w w' : World) (r : Report.t) :
  check_plagiarism assignment_id refs quotes w = (Ok r, w') ->
  Forall (fun m => (5 <= Match.similarity m)%Q
                   /\ two_decimals (Match.similarity m))
         (Report.matches r)
  /\ ((forall documents similarities,
         tfidf_cosine_similarity documents = Ok similarities ->
         Forall (fun s => (s <= 1)%Q) similarities) ->
      Forall (fun m => (Match.similarity m <= 100)%Q) (Report.matches r)).
Proof.
  intros Hrun. apply check_plagiarism_ok in Hrun.
  destruct Hrun as (a & _ & Hcases). cbv zeta in Hcases.
  destruct Hcases as [(_ & -> & _)|(_ & raw & sources & _ & Hr)].
  - split; [constructor|intros _; constructor].
  - cbv zeta in Hr. destruct Hr as [-> _]. simpl.
    destruct (compare_matches_range (preprocess_document raw refs quotes)
                (query_other_assignments (session w) a assignment_id) refs quotes)
      as [Hlow Hup].
    split; [|exact Hup].
    pose proof (compare_matches_two_decimals (preprocess_document raw refs quotes)
                  (query_other_assignments (session w) a assignment_id) refs quotes)
      as Hdec.
    rewrite Forall_forall in *. intros m Hm. split; [apply Hlow|apply Hdec]; exact Hm.
Qed.

Lemma scored_from_pool (pool : list Assignment.t) (similarities : list Q) (k : nat) :
  Forall (fun m => exists a, a ∈ pool /\ extractable a = true
                             /\ m = match_of a (Match.similarity m))
         (scored k similarities (index_map 1 pool ∅)).
Proof.
  revert k. induction similarities as [|s rest IH]; intros k; simpl; [constructor|].
  apply Forall_app. split; [|apply IH].
  destruct (index_map 1 pool ∅ !! k) as [a|] eqn:Hl; [|constructor].
  destruct (Qltb 5 (s * 100)); repeat constructor.
  apply index_map_lookup in Hl. destruct Hl as [Hl|(_ & Hl & Hx)].
  { rewrite lookup_empty in Hl. discriminate. }
  exists a. split; [eapply list_elem_of_lookup_2; exact Hl|]. split; [exact Hx|reflexivity].
Qed.

Lemma jaccard_from_pool (target_words : gset pystr) (pool : list Assignment.t) :
  Forall (fun m => exists a, a ∈ pool /\ extractable a = true
                             /\ m = match_of a (Match.similarity m))
         (flat_map (jaccard_match target_words) pool).
Proof.
  induction pool as [|a pool IH]; simpl; [constructor|].
  apply Forall_app. split.
  - unfold jaccard_match, extractable.
    destruct (convert_to_text _ _) eqn:Hc; [|constructor].
    destruct (jaccard _ _); [|constructor].
    destruct (Qltb 5 _); repeat constructor.
    exists a. split; [left|]. unfold extractable. rewrite Hc. auto.
  - eapply Forall_impl; [exact IH|]. intros m (a0 & Hin & Hrest).
    exists a0. split; [right; exact Hin|exact Hrest].
Qed.

Lemma compare_matches_from_pool (target_text : pystr)
    (pool : list Assignment.t) (refs quotes : bool) :
  Forall (fun m => exists a, a ∈ pool /\ extractable a = true
                             /\ m = match_of a (Match.similarity m))
         (compare_matches target_text pool refs quotes)
  /\ (length (compare_matches target_text pool refs quotes) <= length pool)%nat
  /\ (NoDup (map Assignment.id pool) ->
      NoDup (map Match.assignment_id
               (compare_matches target_text pool refs quotes))).
Proof.
  unfold compare_matches.
  destruct (_ <=? 1)%nat.
  { split; [constructor|]. split; [simpl; lia|]. intros _. constructor. }
  assert (Hgen : forall l,
             Forall (fun m => exists a, a ∈ pool /\ extractable a = true
                                        /\ m = match_of a (Match.similarity m)) l ->
             sublist (map Match.assignment_id l) (map Assignment.id pool) ->
             Forall (fun m => exists a, a ∈ pool /\ extractable a = true
                                        /\ m = match_of a (Match.similarity m))
                    (sort_by_similarity l)
             /\ (length (sort_by_similarity l) <= length pool)%nat
             /\ (NoDup (map Assignment.id pool) ->
                 NoDup (map Match.assignment_id (sort_by_similarity l)))).
  { intros l Hall Hsub. split; [apply sort_by_similarity_Forall, Hall|].
    pose proof (sort_by_similarity_perm l) as Hperm. split.
    - rewrite (Permutation_length Hperm).
      apply sublist_length in Hsub. rewrite !length_map in Hsub. exact Hsub.
    - intros Hnd.
      assert (Hp : map Match.assignment_id (sort_by_similarity l)
                   ≡ₚ map Match.assignment_id l)
        by (apply Permutation_map, Hperm).
      rewrite Hp. eapply sublist_NoDup; eassumption. }
  destruct (tfidf_cosine_similarity _) as [similarities|e]; apply Hgen.
  - apply scored_from_pool.
  - apply (scored_ids_sublist pool similarities 0).
  - apply jaccard_from_pool.
  - apply jaccard_ids_sublist.
Qed.

(** X21: Every match of a report describes a peer of the comparison pool whose
    text could be extracted, never the checked submission itself; there are
    no more matches than peers, and no peer is matched twice when the
    identifiers of the pool are distinct. *)
Theorem matches_are_readable_peers (assignment_id : Z) (refs quotes : bool)
    (w w' : World) (r : Report.t) :
  check_plagiarism assignment_id refs quotes w = (Ok r, w') ->
  let pool := comparison_pool (session w) assignment_id in
  Forall (fun m => Match.assignment_id m <> assignment_id
                   /\ exists a, a ∈ pool /\ extractable a = true
                                 /\ m = match_of a (Match.similarity m))
         (Report.matches r)
  /\ (length (Report.matches r) <= length pool)%nat
  /\ (NoDup (map Assignment.id pool) ->
      NoDup (map Match.assignment_id (Report.matches r))).
Proof.
  intros Hrun pool. apply check_plagiarism_ok in Hrun.
  destruct Hrun as (a & Hq & Hcases). cbv zeta in Hcases.
  unfold pool. rewrite (comparison_pool_eq _ _ _ Hq).
  destruct Hcases as [(_ & -> & _)|(_ & raw & sources & _ & Hr)].
  - simpl. split; [constructor|]. split; [lia|]. intros _. constructor.
  - cbv zeta in Hr. destruct Hr as [-> _]. simpl.
    destruct (compare_matches_from_pool (preprocess_document raw refs quotes)
                (query_other_assignments (session w) a assignment_id) refs quotes)
      as (Hall & Hlen & Hnd).
    split; [|split; assumption].
    eapply Forall_impl; [exact Hall|]. intros m (p & Hin & Hx & Hm).
    split; [|eauto]. rewrite Hm. simpl.
    unfold query_other_assignments in Hin. apply list_elem_of_filter in Hin.
    destruct Hin as [[_ Hne] _]. exact Hne.
Qed.

(** X22: The external sources of a report are cut to size: no snippet is longer
    than 220 characters, and a source has an empty title only when its
    address is empty too (the address stands in for a missing title). *)
Theorem external_sources_are_trimmed (assignment_id : Z) (refs quotes : bool)
    (w w' : World) (r : Report.t) :
  check_plagiarism assignment_id refs quotes w = (Ok r, w') ->
  Forall (fun s => (length (Source.snippet s) <= 220)%nat
                   /\ (Source.title s = [] -> Source.url s = []))
         (Report.external_sources r).
Proof.
  intros Hrun. apply check_plagiarism_ok_world in Hrun.
  destruct Hrun as (a & _ & _ & Hcases). cbv zeta in Hcases.
  destruct Hcases as [(_ & -> & _)|(_ & raw & results & _ & Hr)].
  - constructor.
  - cbv zeta in Hr. destruct Hr as [-> _]. simpl.
    induction results as [|x results IH]; simpl; constructor; [|exact IH].
    unfold source_of. simpl. split.
    + rewrite length_take. lia.
    + unfold py_or. destruct (SearchResult.title x) as [[|c t]|];
        intros H; try exact H; discriminate H.
Qed.

Lemma jaccard_same_words (words : gset pystr) :
  words <> ∅ ->
  exists q, jaccard words words = Some q /\ (q == 100)%Q.
Proof.
  intros Hne. unfold jaccard.
  rewrite (union_idemp_L words), (intersection_idemp_L words).
  assert (Hpos : (0 < size words)%nat).
  { destruct (size words) eqn:Hs; [|lia].
    apply size_empty_iff in Hs. destruct Hne. apply leibniz_equiv, Hs. }
  apply Nat.ltb_lt in Hpos as Hb. rewrite Hb. eexists. split; [reflexivity|].
  assert (Hn : ~ (inject_Z (Z.of_nat (size words)) == 0)%Q).
  { unfold Qeq. simpl. lia. }
  field. exact Hn.
Qed.

(** X23: On the fallback path a peer whose words are exactly those of the
    target, the target having at least one word, is reported with the
    similarity 100. *)
Theorem fallback_scores_a_copy_100 (target_text text : pystr)
    (pool : list Assignment.t) (a : Assignment.t) (w : World) :
  a ∈ pool ->
  convert_to_text (Assignment.file_data a) (Assignment.filename a) = Ok text ->
  get_word_set (preprocess_document text false false) = get_word_set target_text ->
  get_word_set target_text <> ∅ ->
  exists matches m,
    fst (_fallback_comparison target_text pool w) = Ok matches
    /\ m ∈ matches
    /\ m = match_of a (Match.similarity m)
    /\ (Match.similarity m == 100)%Q.
Proof.
  intros Hin Htext Hwords Hne.
  rewrite fallback_comparison_spec. eexists. 
  destruct (jaccard_same_words _ Hne) as (q & Hj & Hq).
  exists (match_of a (round2 q)). split; [reflexivity|]. split; [|split].
  - rewrite sort_by_similarity_perm. apply list_elem_of_In, in_flat_map.
    exists a. split; [apply list_elem_of_In, Hin|].
    unfold jaccard_match. rewrite Htext, Hwords, Hj.
    assert (Hlt : Qltb 5 q = true).
    { apply Qltb_lt. rewrite Hq. reflexivity. }
    rewrite Hlt. left. reflexivity.
  - reflexivity.
  - simpl. rewrite (round2_comp q 100 Hq). reflexivity.
Qed.

(** X24: A check of an identifier that has no row fails with the
    assignment-not-found error wrapped in [PlagiarismCheckError], after a
    rollback. *)
Theorem missing_assignment_is_reported (assignment_id : Z)
    (refs quotes : bool) (w : World) :
  query_assignment (session w) assignment_id = None ->
  exists w',
    check_plagiarism assignment_id refs quotes w
    = (Raise (HTTPExcFrom PlagiarismCheckError []
                (HTTPExc PlagiarismCheckError (u "Assignment not found"))), w')
    /\ committed w' = committed w
    /\ last (trace w') = Some EvRollback.
Proof.
  intros Hq. unfold check_plagiarism. run. rewrite Hq.
  eexists. split; [reflexivity|]. cbn [committed session trace].
  split; [reflexivity|]. rewrite last_snoc. reflexivity.
Qed.

(** X25: When the pool is not empty, a target whose text cannot be extracted
    aborts the check: the extraction error is wrapped in
    [PlagiarismCheckError] and nothing is compared, searched or written. *)
Theorem unreadable_target_aborts_the_check (assignment_id : Z)
    (refs quotes : bool) (w : World) (a : Assignment.t) (e : PyExc) :
  query_assignment (session w) assignment_id = Some a ->
  comparison_pool (session w) assignment_id <> [] ->
  convert_to_text (Assignment.file_data a) (Assignment.filename a) = Raise e ->
  exists w',
    check_plagiarism assignment_id refs quotes w
    = (Raise (HTTPExcFrom PlagiarismCheckError [] e), w')
    /\ committed w' = committed w
    /\ trace w' = trace w ++ [EvLog (CheckFailed assignment_id e); EvRollback].
Proof.
  intros Hq Hpool Hraw. rewrite (comparison_pool_eq _ _ _ Hq) in Hpool.
  unfold check_plagiarism. run. rewrite Hq.
  destruct (query_other_assignments (session w) a assignment_id)
    as [|p pool]; [destruct Hpool; reflexivity|].
  rewrite Hraw. eexists. split; [reflexivity|]. cbn [committed session trace].
  split; [reflexivity|]. rewrite <- app_assoc. reflexivity.
Qed.

Lemma prepared_corpus_unreadable (pool : list Assignment.t) (refs quotes : bool) :
  Forall (fun a => extractable a = false) pool ->
  prepared_corpus refs quotes pool = [].
Proof.
  unfold prepared_corpus, prepared_text, extractable.
  induction 1 as [|a pool Ha _ IH]; simpl; [reflexivity|].
  destruct (convert_to_text _ _); [discriminate|]. exact IH.
Qed.

(** X26: When no peer of the pool can be read, a check that completes reports
    no match and the percentage 0: the unreadable peers are skipped without
    a trace in the report. *)
Theorem unreadable_pool_gives_a_clean_report (assignment_id : Z)
    (refs quotes : bool) (w w' : World) (r : Report.t) :
  check_plagiarism assignment_id refs quotes w = (Ok r, w') ->
  Forall (fun a => extractable a = false)
         (comparison_pool (session w) assignment_id) ->
  Report.matches r = [] /\ (Report.plagiarism_percentage r == 0)%Q.
Proof.
  intros Hrun Hall. apply check_plagiarism_ok in Hrun.
  destruct Hrun as (a & Hq & Hcases). cbv zeta in Hcases.
  rewrite (comparison_pool_eq _ _ _ Hq) in Hall.
  destruct Hcases as [(_ & -> & _)|(_ & raw & sources & _ & Hr)].
  - split; reflexivity.
  - cbv zeta in Hr. destruct Hr as [-> _]. simpl.
    unfold compare_matches.
    rewrite (prepared_corpus_unreadable _ refs quotes Hall). simpl.
    split; reflexivity.
Qed.

End Whole.

(** ** Instances of the properties above *)

Lemma get_file_extension_splits_at_last_dot_witness :
  exists stem suffix,
    u "Essay.final.TXT" = stem ++ u "." ++ suffix
    /\ contains 46%N suffix = false
    /\ get_file_extension (E := by_fallback) (u "Essay.final.TXT")
       = u "." ++ lower (E := by_fallback) suffix.
Proof.
  apply (proj2 (get_file_extension_splits_at_last_dot (E := by_fallback)
                  (u "Essay.final.TXT"))).
  reflexivity.
Defined.

Lemma extension_ignores_ascii_case_witness :
  get_file_extension (E := by_fallback) (u "essay.txt")
  = get_file_extension (E := by_fallback) (u "Essay.TXT")
  /\ convert_to_text (E := by_fallback) (txt "hi") (u "essay.txt")
     = convert_to_text (E := by_fallback) (txt "hi") (u "Essay.TXT").
Proof.
  apply (extension_ignores_ascii_case (E := by_fallback)
           (u "Essay.TXT") (txt "hi")).
  reflexivity.
Defined.

Lemma validated_extension_is_supported_witness :
  validate_file_extension (E := by_fallback) (u "setup.exe") = false
  /\ convert_to_text (E := by_fallback) (txt "MZ") (u "setup.exe")
     = Raise (HTTPExc FileUploadError (u "Unsupported file type: .exe")).
Proof.
  split; [reflexivity|].
  apply (proj1 (validated_extension_is_supported (E := by_fallback)
                  (u "setup.exe")) eq_refl (txt "MZ")).
Defined.

Lemma process_upload_decision_witness :
  process_upload (E := by_fallback) elements
    {| UploadFile.filename := u "essay.txt"; UploadFile.content := txt "hi" |}
  = Ok (txt "hi", u "essay.txt").
Proof.
  apply (proj1 (process_upload_decision (E := by_fallback) elements
                  {| UploadFile.filename := u "essay.txt";
                     UploadFile.content := txt "hi" |})).
  split; [vm_compute; reflexivity|].
  split; [simpl; lia|].
  split; [simpl; lia|].
  split; reflexivity.
Defined.

Lemma validate_magic_bytes_spec_witness :
  validate_magic_bytes (E := by_fallback) (txt "%PDF-1.4") (u "paper.pdf") = true
  /\ validate_file_extension (E := by_fallback) (u "paper.pdf") = true
  /\ (4 <= length (txt "%PDF-1.4"))%nat.
Proof.
  split; [vm_compute; reflexivity|].
  apply (proj2 (validate_magic_bytes_spec (E := by_fallback)
                  (txt "%PDF-1.4") (u "paper.pdf"))).
  vm_compute. reflexivity.
Defined.

Lemma ascii_text_file_is_returned_unchanged_witness :
  convert_to_text (E := by_fallback) (txt "plain text") (u "essay.txt")
  = Ok (u "plain text").
Proof.
  apply (ascii_text_file_is_returned_unchanged (E := by_fallback)
           (txt "plain text") (u "essay.txt")).
  - reflexivity.
  - repeat constructor.
Defined.

Lemma container_text_is_joined_and_trimmed_witness :
  exists text,
    convert_to_text (E := with_pdf_reader) (txt "%PDF-1.4") (u "paper.pdf")
    = Ok text
    /\ trimmed text
    /\ text = u "Title page" ++ [10%N] ++ u "Second page".
Proof.
  destruct (convert_to_text (E := with_pdf_reader) (txt "%PDF-1.4")
              (u "paper.pdf")) as [text|e] eqn:Hrun.
  - exists text. split; [reflexivity|].
    destruct (container_text_is_joined_and_trimmed (E := with_pdf_reader)
                (txt "%PDF-1.4") (u "paper.pdf") text
                (or_introl eq_refl) Hrun) as [Htrim _].
    split; [exact Htrim|].
    vm_compute in Hrun. injection Hrun as <-. reflexivity.
  - vm_compute in Hrun. discriminate Hrun.
Defined.

Lemma normalize_text_idempotent_witness :
  normalize_text (E := by_fallback)
    (normalize_text (E := by_fallback) (u "  Hello   World "))
  = normalize_text (E := by_fallback) (u "  Hello   World ").
Proof.
  apply (normalize_text_idempotent (E := by_fallback) (u "  Hello   World ")).
  reflexivity.
Defined.

Lemma tokenize_text_degrades_to_split_witness :
  Forall (fun t => t <> [] /\ Forall (fun c => isspace c = false) t)
         (tokenize_text (E := by_fallback) (u " Alpha  beta "))
  /\ concat (tokenize_text (E := by_fallback) (u " Alpha  beta "))
     = List.filter (fun c => negb (isspace c))
         (lower (E := by_fallback) (u " Alpha  beta ")).
Proof.
  apply (tokenize_text_degrades_to_split (E := by_fallback) (u " Alpha  beta ")
           (Exc (LibraryError "LookupError") (u "punkt not found"))).
  reflexivity.
Defined.

Lemma word_set_members_and_case_witness :
  get_word_set (E := by_fallback) (u "alpha beta")
  = get_word_set (E := by_fallback) (u "Alpha BETA").
Proof.
  apply (proj2 (word_set_members_and_case (E := by_fallback) (u "Alpha BETA"))).
  reflexivity.
Defined.

Lemma failed_check_persists_nothing_witness :
  exists e w',
    check_plagiarism (E := without_search) 1 false false tie_world = (Raise e, w')
    /\ last (trace w') = Some EvRollback
    /\ committed w' = committed tie_world
    /\ session w' = committed tie_world.
Proof.
  destruct (check_plagiarism (E := without_search) 1 false false tie_world)
    as [[r|e] w'] eqn:Hrun.
  - vm_compute in Hrun. discriminate Hrun.
  - exists e, w'. split; [reflexivity|].
    apply (failed_check_persists_nothing (E := without_search)
             1 false false tie_world w' e Hrun).
Defined.

Lemma successful_check_writes_the_target_only_witness :
  exists r w',
    check_plagiarism (E := by_fallback) 1 false false tie_world = (Ok r, w')
    /\ session w' = committed w'
    /\ map Assignment.id (assignments (committed w')) = [1; 7; 3]%Z.
Proof.
  destruct (check_plagiarism (E := by_fallback) 1 false false tie_world)
    as [[r|e] w'] eqn:Hrun.
  - exists r, w'. split; [reflexivity|].
    destruct (successful_check_writes_the_target_only (E := by_fallback)
                1 false false tie_world w' r Hrun) as (Hs & _ & Hids & _).
    split; [exact Hs|]. rewrite Hids. reflexivity.
  - vm_compute in Hrun. discriminate Hrun.
Defined.

Lemma get_report_returns_the_last_report_witness :
  exists r w',
    check_plagiarism (E := by_fallback) 1 false false tie_world = (Ok r, w')
    /\ get_report 1 w' = (Ok (Some r), w').
Proof.
  destruct (check_plagiarism (E := by_fallback) 1 false false tie_world)
    as [[r|e] w'] eqn:Hrun.
  - exists r, w'. split; [reflexivity|].
    apply (get_report_returns_the_last_report (E := by_fallback)
             1 false false tie_world w' r Hrun).
  - vm_compute in Hrun. discriminate Hrun.
Defined.

Lemma check_again_gives_the_same_report_witness :
  exists r1 w1 r2 w2,
    check_plagiarism (E := by_fallback) 1 false false tie_world = (Ok r1, w1)
    /\ check_plagiarism (E := by_fallback) 1 false false w1 = (Ok r2, w2)
    /\ Report.matches r2 = Report.matches r1
    /\ Report.plagiarism_percentage r2 = Report.plagiarism_percentage r1
    /\ Report.passed r2 = Report.passed r1.
Proof.
  destruct (check_plagiarism (E := by_fallback) 1 false false tie_world)
    as [[r1|e1] w1] eqn:Hrun1; [|vm_compute in Hrun1; discriminate Hrun1].
  pose proof Hrun1 as Hval. vm_compute in Hval. injection Hval as _ Hw1.
  destruct (check_plagiarism (E := by_fallback) 1 false false w1)
    as [[r2|e2] w2] eqn:Hrun2;
    [|rewrite <- Hw1 in Hrun2; vm_compute in Hrun2; discriminate Hrun2].
  exists r1, w1, r2, w2. split; [reflexivity|]. split; [exact Hrun2|].
  destruct (check_again_gives_the_same_report (E := by_fallback)
              1 false false tie_world w1 w2 r1 r2 Hrun1 Hrun2)
    as (Hm & Hp & _ & Hv & _).
  repeat split; assumption.
Defined.

Lemma match_similarity_range_witness :
  exists r w',
    check_plagiarism (E := by_tfidf) 1 false false tie_world = (Ok r, w')
    /\ Report.matches r <> []
    /\ Forall (fun m => (5 <= Match.similarity m)%Q
                        /\ two_decimals (Match.similarity m))
              (Report.matches r)
    /\ Forall (fun m => (Match.similarity m <= 100)%Q) (Report.matches r).
Proof.
  destruct (check_plagiarism (E := by_tfidf) 1 false false tie_world)
    as [[r|e] w'] eqn:Hrun; [|vm_compute in Hrun; discriminate Hrun].
  exists r, w'. split; [reflexivity|]. split.
  { vm_compute in Hrun. injection Hrun as <- _. discriminate. }
  destruct (match_similarity_range (E := by_tfidf)
              1 false false tie_world w' r Hrun) as [Hlow Hup].
  split; [exact Hlow|]. apply Hup.
  intros documents similarities [= <-].
  apply Forall_forall. intros s Hs. apply list_elem_of_In in Hs.
  apply in_map_iff in Hs as (d & <- & _). discriminate.
Defined.

Lemma matches_are_readable_peers_witness :
  exists r w',
    check_plagiarism (E := by_fallback) 1 false false tie_world = (Ok r, w')
    /\ Forall (fun m => Match.assignment_id m <> 1%Z) (Report.matches r)
    /\ (length (Report.matches r) <= 2)%nat
    /\ NoDup (map Match.assignment_id (Report.matches r)).
Proof.
  destruct (check_plagiarism (E := by_fallback) 1 false false tie_world)
    as [[r|e] w'] eqn:Hrun; [|vm_compute in Hrun; discriminate Hrun].
  exists r, w'. split; [reflexivity|].
  destruct (matches_are_readable_peers (E := by_fallback)
              1 false false tie_world w' r Hrun) as (Hall & Hlen & Hnd).
  split; [|split].
  - eapply Forall_impl; [exact Hall|]. intros m [Hm _]. exact Hm.
  - exact Hlen.
  - apply Hnd. apply (bool_decide_unpack _). vm_compute. exact I.
Defined.

Lemma external_sources_are_trimmed_witness :
  exists r w',
    check_plagiarism (E := with_search_hits) 1 false false tie_world = (Ok r, w')
    /\ length (Report.external_sources r) = 1%nat
    /\ Forall (fun s => (length (Source.snippet s) <= 220)%nat
                        /\ (Source.title s = [] -> Source.url s = []))
              (Report.external_sources r).
Proof.
  destruct (check_plagiarism (E := with_search_hits) 1 false false tie_world)
    as [[r|e] w'] eqn:Hrun; [|vm_compute in Hrun; discriminate Hrun].
  exists r, w'. split; [reflexivity|]. split.
  - vm_compute in Hrun. injection Hrun as <- _. reflexivity.
  - apply (external_sources_are_trimmed (E := with_search_hits)
             1 false false tie_world w' r Hrun).
Defined.

Lemma fallback_scores_a_copy_100_witness :
  exists matches m,
    fst (_fallback_comparison (E := by_fallback) (u "alpha beta gamma")
           [submission 3 "c.txt" "alpha beta gamma"] readable_world)
    = Ok matches
    /\ m ∈ matches
    /\ m = match_of (submission 3 "c.txt" "alpha beta gamma") (Match.similarity m)
    /\ (Match.similarity m == 100)%Q.
Proof.
  apply (fallback_scores_a_copy_100 (E := by_fallback)
           (u "alpha beta gamma") (u "alpha beta gamma")
           [submission 3 "c.txt" "alpha beta gamma"]
           (submission 3 "c.txt" "alpha beta gamma") readable_world).
  - constructor.
  - reflexivity.
  - vm_compute. reflexivity.
  - intros Hempty. vm_compute in Hempty. discriminate Hempty.
Defined.

Lemma missing_assignment_is_reported_witness :
  exists w',
    check_plagiarism (E := by_tfidf) 99 false false tie_world
    = (Raise (HTTPExcFrom PlagiarismCheckError []
                (HTTPExc PlagiarismCheckError (u "Assignment not found"))), w')
    /\ committed w' = committed tie_world
    /\ last (trace w') = Some EvRollback.
Proof.
  apply (missing_assignment_is_reported (E := by_tfidf) 99 false false tie_world).
  reflexivity.
Defined.

Lemma unreadable_target_aborts_the_check_witness :
  exists w',
    check_plagiarism (E := by_tfidf) 2 false false shifted_world
    = (Raise (HTTPExcFrom PlagiarismCheckError []
                (HTTPExcFrom FileUploadError (u "Failed to convert PDF: ")
                   (Exc (LibraryError "PdfReadError") (u "EOF marker not found")))),
       w')
    /\ committed w' = committed shifted_world.
Proof.
  destruct (unreadable_target_aborts_the_check (E := by_tfidf)
              2 false false shifted_world
              (submission 2 "notes.pdf" "alpha beta gamma") _
              eq_refl ltac:(vm_compute; discriminate) eq_refl)
    as (w' & Hrun & Hcommitted & _).
  exists w'. split; assumption.
Defined.

Lemma unreadable_pool_gives_a_clean_report_witness :
  exists r w',
    check_plagiarism (E := by_tfidf) 1 false false unreadable_pool_world
    = (Ok r, w')
    /\ Report.matches r = []
    /\ (Report.plagiarism_percentage r == 0)%Q.
Proof.
  destruct (check_plagiarism (E := by_tfidf) 1 false false unreadable_pool_world)
    as [[r|e] w'] eqn:Hrun; [|vm_compute in Hrun; discriminate Hrun].
  exists r, w'. split; [reflexivity|].
  apply (unreadable_pool_gives_a_clean_report (E := by_tfidf)
           1 false false unreadable_pool_world w' r Hrun).
  vm_compute. repeat constructor.
Defined.

Lemma check_completes_witness :
  exists r w',
    check_plagiarism (E := by_tfidf) 1 false false tie_world = (Ok r, w')
    /\ Report.external_sources r = [].
Proof.
  destruct (check_completes (E := by_tfidf) 1 false false tie_world
              (submission 1 "a.txt" "alpha beta gamma") (u "alpha beta gamma")
              (fun _ => Ok [])
              eq_refl ltac:(vm_compute; discriminate) eq_refl eq_refl
              (fun _ => eq_refl))
    as (r & w' & Hrun & _ & Hsources).
  exists r, w'. split; [exact Hrun|exact Hsources].
Defined.

Lemma compare_falls_back_iff_tfidf_fails_witness :
  exists w1,
    same_data tie_world w1
    /\ _compare_with_assignments (E := by_fallback) (u "alpha beta gamma")
         (comparison_pool (session tie_world) 1) false false tie_world
       = _fallback_comparison (E := by_fallback) (u "alpha beta gamma")
           (comparison_pool (session tie_world) 1) w1.
Proof.
  apply (proj2 (compare_falls_back_iff_tfidf_fails (E := by_fallback)
                  (u "alpha beta gamma") (comparison_pool (session tie_world) 1)
                  false false tie_world ltac:(vm_compute; discriminate))
           (Exc (LibraryError "ValueError") (u "empty vocabulary"))).
  reflexivity.
Defined.

Lemma advisor_failures_are_absorbed_witness :
  fst (_check_external_sources (E := with_broken_search) (u "alpha") tie_world)
  = Ok [].
Proof.
  apply (proj2 (advisor_failures_are_absorbed (E := with_broken_search)
                  (fun _ => Raise (Exc RemoteDisconnected
                                     (u "Remote end closed connection")))
                  (u "alpha") tie_world eq_refl)
           (Exc RemoteDisconnected (u "Remote end closed connection"))).
  reflexivity.
Defined.
